(** * Alibaba Cloud VPC -> AWS CDK migration workflow: a shallow embedding

    The development follows the three Python modules of the repository:
    - [aliyun_mcp_client.py]  (module [Aliyun]),
    - [cdk-mcp-cli/cdk_cli.py] (module [Cdk]),
    - [migration_workflow.py]  (module [Workflow]).

    Python values are embedded in module [Py]; the external collaborators
    (MCP sessions, the Bedrock client, the subprocess runner, the file
    system) are fields of an environment record, and every call made to one
    of them is appended to an event log carried by the state. *)

From Stdlib Require Import String Ascii ZArith NArith Lia Bool List.
From Stdlib Require DecimalString.
Import ListNotations.

Set Implicit Arguments.
Set Warnings "-register-all".
Set Default Goal Selector "!".

(* ================================================================== *)
(** ** Python values, exceptions and the builtins the code relies on   *)
(* ================================================================== *)

Module Py.

(** A Python [str] is a sequence of Unicode code points. *)
Definition str := list N.

(** An ASCII literal of the source, as code points. *)
Definition lit (s : string) : str :=
  map N_of_ascii (list_ascii_of_string s).
Arguments lit s : simpl never.

Fixpoint str_eqb (a b : str) : bool :=
  match a, b with
  | [], [] => true
  | x :: a', y :: b' => N.eqb x y && str_eqb a' b'
  | _, _ => false
  end.

(** Decimal rendering of a non-negative [int] ([str(n)], [f"{n}"]). *)
Definition str_of_N (n : N) : str :=
  lit (DecimalString.NilZero.string_of_uint (N.to_uint n)).

(** Decimal rendering of an [int]. *)
Definition str_of_Z (z : Z) : str :=
  lit (DecimalString.NilZero.string_of_int (Z.to_int z)).

(** A Python [float]: not-a-number, an infinity, or the finite value
    [num / den]. *)
Inductive pyfloat :=
| FNan
| FInf (negative : bool)
| FFinite (num : Z) (den : positive).

(** The values [json.loads] can produce, which are also the values the
    workflow stores in its state.  A [dict] keeps its insertion order; a
    lookup returns the first binding of the key. *)
Inductive value :=
| VNone
| VBool (b : bool)
| VInt (z : Z)
| VFloat (f : pyfloat)
| VStr (s : str)
| VList (l : list value)
| VDict (d : list (str * value)).

(** Exceptions.  Every exception of the model is an instance of Python's
    [Exception] (what [except Exception] catches); [exn_text] is [str(e)]. *)
Inductive exn_class :=
| KeyError | TypeError | AttributeError | ValueError | OverflowError
| IndexError | JSONDecodeError | TimeoutError | GraphRecursionError
| PlainException
| ExternalError.

Record exn := Exn { exn_cls : exn_class; exn_text : str }.

Inductive result (A : Type) :=
| Ok (a : A)
| Raise (e : exn).
Arguments Ok {A} a.
Arguments Raise {A} e.

Definition rbind {A B} (r : result A) (k : A -> result B) : result B :=
  match r with
  | Ok a => k a
  | Raise e => Raise e
  end.

Declare Scope result_scope.
Delimit Scope result_scope with R.
Notation "x <- e ;; k" := (rbind e (fun x => k))
  (at level 61, e at next level, right associativity) : result_scope.

(** What [json.loads] makes of a text: a value, a [JSONDecodeError] with
    its message, or another exception (a plain [ValueError] for an integer
    of more digits than the interpreter converts, a [RecursionError] for a
    nesting that is too deep), which [except json.JSONDecodeError] does
    not catch. *)
Inductive parsed :=
| Parsed (v : value)
| NotJson (msg : str)
| LoadsError (e : exn).

(** Builtins of the interpreter that are not re-implemented here. *)
Record Builtins := {
  json_loads : str -> parsed;
  (** [int(s)] on a [str]: [None] stands for [ValueError]. *)
  int_of_str : str -> option Z;
  (** [repr(v)]. *)
  py_repr : value -> str
}.

(** [str(v)] / [f"{v}"]: the text itself for a [str], [repr] otherwise. *)
Definition py_str (B : Builtins) (v : value) : str :=
  match v with
  | VStr s => s
  | _ => py_repr B v
  end.

Definition type_name (v : value) : str :=
  match v with
  | VNone => lit "NoneType"
  | VBool _ => lit "bool"
  | VInt _ => lit "int"
  | VFloat _ => lit "float"
  | VStr _ => lit "str"
  | VList _ => lit "list"
  | VDict _ => lit "dict"
  end.

(** Truth value of an object ([if v:], [not v], [a or b]). *)
Definition truthy (v : value) : bool :=
  match v with
  | VNone => false
  | VBool b => b
  | VInt z => negb (Z.eqb z 0)
  | VFloat (FFinite n _) => negb (Z.eqb n 0)
  | VFloat _ => true
  | VStr s => match s with [] => false | _ => true end
  | VList l => match l with [] => false | _ => true end
  | VDict d => match d with [] => false | _ => true end
  end.

(** [a or b], with [b] evaluated only when [a] is falsy. *)
Definition or_else (a : value) (b : result value) : result value :=
  if truthy a then Ok a else b.

Fixpoint lookup (k : str) (d : list (str * value)) : option value :=
  match d with
  | [] => None
  | (k', v) :: d' => if str_eqb k k' then Some v else lookup k d'
  end.

(** [v == s] for a [str] [s]. *)
Definition eq_str (v : value) (s : str) : bool :=
  match v with
  | VStr t => str_eqb t s
  | _ => false
  end.

Definition is_dict (v : value) : bool :=
  match v with VDict _ => true | _ => false end.

Fixpoint is_prefix (p s : str) : bool :=
  match p, s with
  | [], _ => true
  | x :: p', y :: s' => N.eqb x y && is_prefix p' s'
  | _ :: _, [] => false
  end.

(** [p in s] on two [str]. *)
Fixpoint is_substring (p s : str) : bool :=
  is_prefix p s ||
  match s with
  | [] => false
  | _ :: s' => is_substring p s'
  end.

Definition no_attribute (v : value) (attr : string) : exn :=
  Exn AttributeError
      (lit "'" ++ type_name v ++ lit "' object has no attribute '"
           ++ lit attr ++ lit "'").

Definition key_error (k : str) : exn :=
  Exn KeyError (lit "'" ++ k ++ lit "'").

(** [v.get(k)] and [v.get(k, default)]. *)
Definition get_default (v : value) (k : str) (default : value) : result value :=
  match v with
  | VDict d => Ok (match lookup k d with Some x => x | None => default end)
  | _ => Raise (no_attribute v "get")
  end.

Definition get (v : value) (k : str) : result value :=
  get_default v k VNone.

(** [v[k]] for a [str] key. *)
Definition getitem (v : value) (k : str) : result value :=
  match v with
  | VDict d =>
      match lookup k d with
      | Some x => Ok x
      | None => Raise (key_error k)
      end
  | VList _ =>
      Raise (Exn TypeError (lit "list indices must be integers or slices, not str"))
  | VStr _ =>
      Raise (Exn TypeError (lit "string indices must be integers, not 'str'"))
  | _ =>
      Raise (Exn TypeError (lit "'" ++ type_name v ++ lit "' object is not subscriptable"))
  end.

(** [v[0]].  The keys of a [dict] of this model are [str], so [0] is never
    one of them. *)
Definition getitem0 (v : value) : result value :=
  match v with
  | VList (x :: _) => Ok x
  | VList [] => Raise (Exn IndexError (lit "list index out of range"))
  | VStr (c :: _) => Ok (VStr [c])
  | VStr [] => Raise (Exn IndexError (lit "string index out of range"))
  | VDict _ => Raise (Exn KeyError (lit "0"))
  | _ =>
      Raise (Exn TypeError (lit "'" ++ type_name v ++ lit "' object is not subscriptable"))
  end.

Definition not_iterable (v : value) : exn :=
  Exn TypeError (lit "'" ++ type_name v ++ lit "' object is not iterable").

(** [k in v] for a [str] [k]: key of a dict, element of a list, substring
    of a str. *)
Definition contains (k : str) (v : value) : result bool :=
  match v with
  | VDict d => Ok (match lookup k d with Some _ => true | None => false end)
  | VList l => Ok (existsb (fun x => eq_str x k) l)
  | VStr s => Ok (is_substring k s)
  | _ =>
      Raise (Exn TypeError
                 (lit "argument of type '" ++ type_name v ++ lit "' is not iterable"))
  end.

(** The elements a [for] loop visits. *)
Definition iter (v : value) : result (list value) :=
  match v with
  | VList l => Ok l
  | VDict d => Ok (map (fun kv => VStr (fst kv)) d)
  | VStr s => Ok (map (fun c => VStr [c]) s)
  | _ => Raise (not_iterable v)
  end.

(** [chr(n)]. *)
Definition chr (n : N) : result str :=
  if (n <? 1114112)%N then Ok [n]
  else Raise (Exn ValueError (lit "chr() arg not in range(0x110000)")).

(** [int(v)]. *)
Definition int (B : Builtins) (v : value) : result Z :=
  match v with
  | VInt z => Ok z
  | VBool b => Ok (if b then 1%Z else 0%Z)
  | VFloat FNan =>
      Raise (Exn ValueError (lit "cannot convert float NaN to integer"))
  | VFloat (FInf _) =>
      Raise (Exn OverflowError (lit "cannot convert float infinity to integer"))
  | VFloat (FFinite n d) => Ok (Z.quot n (Zpos d))
  | VStr s =>
      match int_of_str B s with
      | Some z => Ok z
      | None =>
          Raise (Exn ValueError
                     (lit "invalid literal for int() with base 10: "
                          ++ py_repr B (VStr s)))
      end
  | _ =>
      Raise (Exn TypeError
                 (lit "int() argument must be a string, a bytes-like object or a real number, not '"
                      ++ type_name v ++ lit "'"))
  end.

(** [s.replace("-", "_")] on a [str]: both arguments are one character. *)
Definition replace_dash (s : str) : str :=
  map (fun c => if N.eqb c 45 then 95%N else c) s.

(** [v.replace("-", "_")] on an arbitrary object. *)
Definition replace_dash_v (v : value) : result value :=
  match v with
  | VStr s => Ok (VStr (replace_dash s))
  | _ => Raise (no_attribute v "replace")
  end.

(** [sep.join(parts)]. *)
Fixpoint join (sep : str) (parts : list str) : str :=
  match parts with
  | [] => []
  | [p] => p
  | p :: rest => p ++ sep ++ join sep rest
  end.

(** [str.isspace] on one code point; also what [\s] matches in a [str]
    pattern of [re]. *)
Definition is_space (c : N) : bool :=
  ((9 <=? c) && (c <=? 13) || (28 <=? c) && (c <=? 32)
   || (c =? 133) || (c =? 160) || (c =? 5760)
   || (8192 <=? c) && (c <=? 8202)
   || (c =? 8232) || (c =? 8233) || (c =? 8239) || (c =? 8287)
   || (c =? 12288))%N.

Fixpoint lstrip (s : str) : str :=
  match s with
  | c :: s' => if is_space c then lstrip s' else s
  | [] => []
  end.

Definition rstrip (s : str) : str := rev (lstrip (rev s)).

(** [s.strip()]. *)
Definition strip (s : str) : str := rstrip (lstrip s).

(** [s.split(sep)] for a one-character separator. *)
Fixpoint split_on (sep : N) (s : str) : list str :=
  match s with
  | [] => [[]]
  | c :: s' =>
      if N.eqb c sep then [] :: split_on sep s'
      else
        match split_on sep s' with
        | p :: ps => (c :: p) :: ps
        | [] => [[c]]
        end
  end.

(** [s.lower()].  Besides the ASCII capitals, U+0130 and U+212A are the code
    points whose lower-case form holds an ASCII letter; any other code point
    outside ASCII is left as it is (its lower-case form is outside ASCII as
    well). *)
Definition lower_cp (c : N) : str :=
  if ((65 <=? c) && (c <=? 90))%N then [(c + 32)%N]
  else if (c =? 304)%N then [105%N; 775%N]
  else if (c =? 8490)%N then [107%N]
  else [c].

Definition lower (s : str) : str := flat_map lower_cp s.

Definition upper_cp (c : N) : N :=
  if ((97 <=? c) && (c <=? 122))%N then (c - 32)%N else c.

(** [s.capitalize()] on ASCII text: the first letter in upper case, the
    others in lower case.  Outside ASCII the case mappings of Unicode are
    followed for the two code points [lower_cp] knows and for no other, so
    that the definition is exact on ASCII text only. *)
Definition capitalize (s : str) : str :=
  match s with
  | [] => []
  | c :: s' => upper_cp c :: lower s'
  end.

End Py.

Import Py.
Local Open Scope result_scope.

(* ================================================================== *)
(** ** The constructs of [re] the patterns of the code use              *)
(* ================================================================== *)

Module Re.

(** A backtracking matcher, as [re] is one.  Each construct takes the
    matcher of what follows it in the pattern. *)

Section Matcher.
Variable R : Type.

(** A literal. *)
Definition re_lit (p : str) (k : str -> option R) (s : str) : option R :=
  if is_prefix p s then k (skipn (length p) s) else None.

(** Greedy [\s*]: as many blanks as possible first, giving them back one
    at a time while what follows fails. *)
Fixpoint re_spaces (k : str -> option R) (s : str) : option R :=
  match s with
  | c :: s' =>
      if is_space c then
        match re_spaces k s' with
        | Some r => Some r
        | None => k s
        end
      else k s
  | [] => k []
  end.

(** Lazy capturing [(.*?)] with DOTALL: as few characters as possible
    first; [group] is what has been captured so far. *)
Fixpoint re_lazy_any (k : str -> str -> option R) (group : str) (s : str)
  : option R :=
  match k group s with
  | Some r => Some r
  | None =>
      match s with
      | c :: s' => re_lazy_any k (group ++ [c]) s'
      | [] => None
      end
  end.

(** Greedy capturing dot-star with DOTALL: as many characters as possible
    first. *)
Fixpoint re_greedy_any (k : str -> str -> option R) (group : str) (s : str)
  : option R :=
  match s with
  | c :: s' =>
      match re_greedy_any k (group ++ [c]) s' with
      | Some r => Some r
      | None => k group s
      end
  | [] => k group []
  end.

End Matcher.

(** [re.search]: the leftmost position at which the anchored pattern
    matches. *)
Fixpoint search {R} (pattern : str -> option R) (s : str) : option R :=
  match pattern s with
  | Some r => Some r
  | None =>
      match s with
      | [] => None
      | _ :: s' => search pattern s'
      end
  end.

End Re.

Import Re.

(* ================================================================== *)
(** ** External collaborators, the state of a run and its effects       *)
(* ================================================================== *)

Module Sys.

(** The two objects that hold an MCP session: the [AliyunMCPClient] and
    the [CDKCodeGenerator]. *)
Inductive client_kind := Alibaba | CdkGen.

(** What [subprocess.run(..., capture_output=True, text=True)] returns. *)
Record completed_process := {
  returncode : Z;
  stdout : str;
  stderr : str
}.

(** One item of the [content] of an MCP tool result: its [type], and its
    [text] when it has that attribute. *)
Record content_item := {
  item_type : str;
  item_text : option str
}.

(** How the sequence [stdio_client], [ClientSession], [initialize] (and,
    for the Alibaba client, [list_tools]) of a [connect_to_..._server]
    ends: [self.session] is assigned between the second and the third. *)
Inductive connect_outcome :=
| Connected
| FailedBeforeSession (e : exn)
| FailedAfterSession (e : exn).

(** The collaborators.  A call that may be made several times in one run
    receives its rank among the calls of its kind. *)
Record Env := {
  builtins : Builtins;
  (** [boto3.client('bedrock-runtime', ...)] in a constructor. *)
  boto3_client : client_kind -> option exn;
  connect_result : client_kind -> connect_outcome;
  (** [session.call_tool] of the Alibaba session. *)
  aliyun_call_tool : str -> value -> result (list content_item);
  (** [invoke_model] and the decoding of its body in
      [_parse_vpc_data_with_llm]. *)
  aliyun_bedrock : result value;
  (** [asyncio.wait_for] gave up on [_parse_vpc_data_with_llm]. *)
  llm_parse_timeout : bool;
  (** [session.list_tools] of the CDK session, as [available_tools]. *)
  cdk_list_tools : result value;
  (** [session.call_tool] of the CDK session. *)
  cdk_call_tool : nat -> value -> value -> result (list content_item);
  (** [invoke_model] and the decoding of its body in [generate_cdk_code]. *)
  cdk_bedrock : nat -> result value;
  (** [subprocess.run(argv, cwd=...)]; [Raise] when the program cannot be
      started. *)
  subprocess_run : list str -> str -> result completed_process;
  (** [Path.mkdir(parents=True, exist_ok=True)]. *)
  fs_mkdir : str -> option exn;
  (** [open(path, 'w')] followed by [write(content)]. *)
  fs_write : str -> str -> option exn;
  (** [exit_stack.aclose()]. *)
  aclose : client_kind -> option exn
}.

(** What the run does to the outside, in order.  Of the logging calls only
    those of level [error] are recorded. *)
Inductive event :=
| EvNode (name : string)
| EvConnect (k : client_kind)
| EvProviderCall (tool : str) (args : value)
| EvParseLLM
| EvListTools
| EvToolCall (rank : nat) (name input : value)
| EvBedrock (rank : nat) (messages : list value)
| EvSubprocess (argv : list str) (cwd : str)
| EvMkdir (path : str)
| EvWrite (path content : str)
| EvAclose (k : client_kind)
| EvLogError (msg : str).

(** A client object: whether its [session] attribute has been assigned. *)
Record client := { session : bool }.

(** The [MigrationWorkflow] object and what surrounds it. *)
Record World := {
  aliyun_client : option client;
  cdk_generator : option client;
  current_project_name : str;
  bedrock_calls : nat;
  tool_calls : nat;
  events : list event
}.

(** A computation: [None] when it is still running after the steps it was
    given, otherwise its result (a value or an exception) and the state
    it leaves. *)
Definition M (A : Type) : Type := World -> option (result A * World).

Definition ret {A} (a : A) : M A := fun w => Some (Ok a, w).

Definition raise {A} (e : exn) : M A := fun w => Some (Raise e, w).

Definition lift {A} (r : result A) : M A := fun w => Some (r, w).

Definition diverge {A} : M A := fun _ => None.

Definition mbind {A C} (m : M A) (k : A -> M C) : M C :=
  fun w =>
    match m w with
    | None => None
    | Some (Ok a, w') => k a w'
    | Some (Raise e, w') => Some (Raise e, w')
    end.

(** [try: m  except Exception as e: handler e]. *)
Definition try_except {A} (m : M A) (handler : exn -> M A) : M A :=
  fun w =>
    match m w with
    | None => None
    | Some (Ok a, w') => Some (Ok a, w')
    | Some (Raise e, w') => handler e w'
    end.

Declare Scope io_scope.
Delimit Scope io_scope with M.
Notation "x <- e ;; k" := (mbind e (fun x => k))
  (at level 61, e at next level, right associativity) : io_scope.
Notation "e ;; k" := (mbind e (fun _ => k))
  (at level 61, right associativity) : io_scope.

Definition get_world : M World := fun w => Some (Ok w, w).

Definition emit (ev : event) : M unit :=
  fun w =>
    Some (Ok tt,
          {| aliyun_client := aliyun_client w;
             cdk_generator := cdk_generator w;
             current_project_name := current_project_name w;
             bedrock_calls := bedrock_calls w;
             tool_calls := tool_calls w;
             events := events w ++ [ev] |}).

(** [logger.error(msg)]. *)
Definition log_error (msg : str) : M unit := emit (EvLogError msg).

Definition holder (k : client_kind) (w : World) : option client :=
  match k with
  | Alibaba => aliyun_client w
  | CdkGen => cdk_generator w
  end.

(** Assignment to [self.aliyun_client] or [self.cdk_generator]. *)
Definition set_holder (k : client_kind) (c : option client) : M unit :=
  fun w =>
    Some (Ok tt,
          {| aliyun_client := match k with Alibaba => c | CdkGen => aliyun_client w end;
             cdk_generator := match k with CdkGen => c | Alibaba => cdk_generator w end;
             current_project_name := current_project_name w;
             bedrock_calls := bedrock_calls w;
             tool_calls := tool_calls w;
             events := events w |}).

Definition set_current_project_name (name : str) : M unit :=
  fun w =>
    Some (Ok tt,
          {| aliyun_client := aliyun_client w;
             cdk_generator := cdk_generator w;
             current_project_name := name;
             bedrock_calls := bedrock_calls w;
             tool_calls := tool_calls w;
             events := events w |}).

(** The rank of the next [invoke_model] of the code generator. *)
Definition next_bedrock_rank : M nat :=
  fun w =>
    Some (Ok (bedrock_calls w),
          {| aliyun_client := aliyun_client w;
             cdk_generator := cdk_generator w;
             current_project_name := current_project_name w;
             bedrock_calls := S (bedrock_calls w);
             tool_calls := tool_calls w;
             events := events w |}).

Definition next_tool_rank : M nat :=
  fun w =>
    Some (Ok (tool_calls w),
          {| aliyun_client := aliyun_client w;
             cdk_generator := cdk_generator w;
             current_project_name := current_project_name w;
             bedrock_calls := bedrock_calls w;
             tool_calls := S (tool_calls w);
             events := events w |}).

(** An effect whose only result is to succeed or to raise. *)
Definition check (o : option exn) : M unit :=
  match o with
  | None => ret tt
  | Some e => raise e
  end.

Section WithEnv.
Variable E : Env.

(** The constructors [AliyunMCPClient(...)] and [CDKCodeGenerator()]
    followed by the assignment to the attribute of the workflow. *)
Definition construct (k : client_kind) : M unit :=
  (check (boto3_client E k) ;;
   set_holder k (Some {| session := false |}))%M.

(** [connect_to_server] and [connect_to_cdk_server]: any exception is
    logged and turned into [False]. *)
Definition connect (k : client_kind) : M bool :=
  let failed (e : exn) : M bool :=
    (log_error
       ((match k with
         | Alibaba => lit "Error connecting to Alibaba Cloud MCP server: "
         | CdkGen => lit "Error connecting to CDK MCP server: "
         end) ++ exn_text e) ;;
     ret false)%M in
  (emit (EvConnect k) ;;
   match connect_result E k with
   | Connected =>
       set_holder k (Some {| session := true |}) ;;
       ret true
   | FailedBeforeSession e => failed e
   | FailedAfterSession e =>
       set_holder k (Some {| session := true |}) ;;
       failed e
   end)%M.

(** [self.session.<method>] on a client: [self.session] is [None] until
    a connection assigned it. *)
Definition with_session {A} (k : client_kind) (method : string) (call : M A)
  : M A :=
  (w <- get_world ;;
   match holder k w with
   | Some {| session := true |} => call
   | _ => raise (no_attribute VNone method)
   end)%M.

(** [cleanup] of either client: a failure of [aclose] is logged. *)
Definition cleanup (k : client_kind) : M unit :=
  try_except
    (emit (EvAclose k) ;; check (aclose E k))%M
    (fun e => log_error (lit "Error during cleanup: " ++ exn_text e)).

(** [subprocess.run(argv, cwd=cwd, capture_output=True, text=True)]. *)
Definition run_process (argv : list str) (cwd : str) : M completed_process :=
  (emit (EvSubprocess argv cwd) ;;
   lift (subprocess_run E argv cwd))%M.

Definition mkdir (path : str) : M unit :=
  (emit (EvMkdir path) ;; check (fs_mkdir E path))%M.

Definition write_file (path content : str) : M unit :=
  (emit (EvWrite path content) ;; check (fs_write E path content))%M.

End WithEnv.

End Sys.

Import Sys.

(* ================================================================== *)
(** ** aliyun_mcp_client.py                                            *)
(* ================================================================== *)

Module Aliyun.

(** [_get_mock_vpc_data]. *)
Definition _get_mock_vpc_data (vpc_id region : str) : value :=
  VDict [
    (lit "vpc_id", VStr (match vpc_id with [] => lit "vpc-mock-123456" | _ => vpc_id end));
    (lit "vpc_name", VStr (lit "demo-vpc"));
    (lit "cidr_block", VStr (lit "10.0.0.0/16"));
    (lit "region", VStr region);
    (lit "status", VStr (lit "Available"));
    (lit "vswitches", VList [
       VDict [
         (lit "vswitch_id", VStr (lit "vsw-mock-123456"));
         (lit "name", VStr (lit "demo-subnet-1"));
         (lit "cidr_block", VStr (lit "10.0.1.0/24"));
         (lit "availability_zone", VStr (region ++ lit "-a"));
         (lit "status", VStr (lit "Available")) ];
       VDict [
         (lit "vswitch_id", VStr (lit "vsw-mock-789012"));
         (lit "name", VStr (lit "demo-subnet-2"));
         (lit "cidr_block", VStr (lit "10.0.2.0/24"));
         (lit "availability_zone", VStr (region ++ lit "-b"));
         (lit "status", VStr (lit "Available")) ] ]);
    (lit "security_groups", VList [
       VDict [
         (lit "group_id", VStr (lit "sg-mock-123456"));
         (lit "name", VStr (lit "demo-sg"));
         (lit "description", VStr (lit "Demo security group"));
         (lit "rules", VList [
            VDict [
              (lit "protocol", VStr (lit "tcp"));
              (lit "port", VStr (lit "80"));
              (lit "source", VStr (lit "0.0.0.0/0"));
              (lit "direction", VStr (lit "ingress")) ];
            VDict [
              (lit "protocol", VStr (lit "tcp"));
              (lit "port", VStr (lit "443"));
              (lit "source", VStr (lit "0.0.0.0/0"));
              (lit "direction", VStr (lit "ingress")) ] ]) ] ])
  ].

(** [_convert_alibaba_vpc_format], lines 205-216: the [body] envelope and
    the VPC collection under one of its known names. *)
Definition unwrap_vpcs (alibaba_data : value) : result value :=
  has_body <- contains (lit "body") alibaba_data ;;
  data <- (if has_body : bool then getitem alibaba_data (lit "body")
           else Ok alibaba_data) ;;
  has_Vpcs <- contains (lit "Vpcs") data ;;
  nested <- (if has_Vpcs : bool
             then inner <- getitem data (lit "Vpcs") ;; contains (lit "Vpc") inner
             else Ok false) ;;
  if nested : bool then
    inner <- getitem data (lit "Vpcs") ;;
    getitem inner (lit "Vpc")
  else
    has_vpcs <- contains (lit "vpcs") data ;;
    if has_vpcs : bool then getitem data (lit "vpcs")
    else
      has_Vpc <- contains (lit "Vpc") data ;;
      if has_Vpc : bool then
        one <- getitem data (lit "Vpc") ;;
        Ok (if is_dict one then VList [one] else one)
      else Ok (VList []).

(** Lines 225-228: the first entry whose [VpcId] or [vpc_id] is the
    requested id. *)
Fixpoint find_vpc (vpc_id : str) (entries : list value) : result (option value) :=
  match entries with
  | [] => Ok None
  | vpc :: rest =>
      a <- get vpc (lit "VpcId") ;;
      if eq_str a vpc_id then Ok (Some vpc)
      else
        b <- get vpc (lit "vpc_id") ;;
        if eq_str b vpc_id then Ok (Some vpc)
        else find_vpc vpc_id rest
  end.

(** Lines 222-228. *)
Definition select_vpc (vpcs : value) (vpc_id : str) : result value :=
  first <- getitem0 vpcs ;;
  if truthy (VStr vpc_id) then
    entries <- iter vpcs ;;
    found <- find_vpc vpc_id entries ;;
    Ok (match found with Some vpc => vpc | None => first end)
  else Ok first.

(** Lines 244-251: one synthetic subnet per embedded id, [i] counting
    from [start]. *)
Fixpoint vswitch_entries (region : str) (start : N) (ids : list value)
  : result (list value) :=
  match ids with
  | [] => Ok []
  | vswitch_id :: rest =>
      letter <- chr (97 + start) ;;
      others <- vswitch_entries region (start + 1) rest ;;
      Ok (VDict [
            (lit "vswitch_id", vswitch_id);
            (lit "name", VStr (lit "subnet-" ++ str_of_N (start + 1)));
            (lit "cidr_block", VStr (lit "10.0." ++ str_of_N (start + 1) ++ lit ".0/24"));
            (lit "availability_zone", VStr (region ++ lit "-" ++ letter));
            (lit "status", VStr (lit "Available")) ] :: others)
  end.

(** Lines 241-251. *)
Definition convert_vswitches (region : str) (target_vpc : value)
  : result (list value) :=
  has_ids <- contains (lit "VSwitchIds") target_vpc ;;
  nested <- (if has_ids : bool
             then inner <- getitem target_vpc (lit "VSwitchIds") ;;
                  contains (lit "VSwitchId") inner
             else Ok false) ;;
  if nested : bool then
    inner <- getitem target_vpc (lit "VSwitchIds") ;;
    vswitch_ids <- getitem inner (lit "VSwitchId") ;;
    ids <- iter vswitch_ids ;;
    vswitch_entries region 0 ids
  else Ok [].

(** Lines 253-262. *)
Definition default_security_groups (vpc_id : str) : value :=
  VList [
    VDict [
      (lit "group_id", VStr (lit "sg-" ++ vpc_id));
      (lit "name", VStr (lit "default-sg"));
      (lit "description", VStr (lit "Default security group"));
      (lit "rules", VList [
         VDict [
           (lit "protocol", VStr (lit "tcp"));
           (lit "port", VStr (lit "80"));
           (lit "source", VStr (lit "0.0.0.0/0"));
           (lit "direction", VStr (lit "ingress")) ];
         VDict [
           (lit "protocol", VStr (lit "tcp"));
           (lit "port", VStr (lit "443"));
           (lit "source", VStr (lit "0.0.0.0/0"));
           (lit "direction", VStr (lit "ingress")) ] ]) ] ].

(** Lines 230-265: the record built from the selected entry. *)
Definition convert_entry (target_vpc : value) (vpc_id region : str)
  : result value :=
  a <- get target_vpc (lit "VpcId") ;;
  v_id <- or_else a (b <- get target_vpc (lit "vpc_id") ;;
                     or_else b (Ok (VStr vpc_id))) ;;
  a <- get target_vpc (lit "VpcName") ;;
  v_name <- or_else a (b <- get target_vpc (lit "vpc_name") ;;
                       or_else b (Ok (VStr (lit "vpc-" ++ vpc_id)))) ;;
  a <- get target_vpc (lit "CidrBlock") ;;
  v_cidr <- or_else a (b <- get target_vpc (lit "cidr_block") ;;
                       or_else b (Ok (VStr (lit "10.0.0.0/16")))) ;;
  a <- get target_vpc (lit "Status") ;;
  v_status <- or_else a (b <- get target_vpc (lit "status") ;;
                         or_else b (Ok (VStr (lit "Available")))) ;;
  vswitches <- convert_vswitches region target_vpc ;;
  Ok (VDict [
        (lit "vpc_id", v_id);
        (lit "vpc_name", v_name);
        (lit "cidr_block", v_cidr);
        (lit "region", VStr region);
        (lit "status", v_status);
        (lit "vswitches", VList vswitches);
        (lit "security_groups", default_security_groups vpc_id) ]).

(** The body of the [try] of [_convert_alibaba_vpc_format]. *)
Definition convert_body (alibaba_data : value) (vpc_id region : str)
  : result value :=
  vpcs <- unwrap_vpcs alibaba_data ;;
  if negb (truthy vpcs) then Ok (_get_mock_vpc_data vpc_id region)
  else
    target_vpc <- select_vpc vpcs vpc_id ;;
    convert_entry target_vpc vpc_id region.

(** [_convert_alibaba_vpc_format], the value it returns: [except
    Exception] returns the mock. *)
Definition _convert_alibaba_vpc_format (alibaba_data : value) (vpc_id region : str)
  : value :=
  match convert_body alibaba_data vpc_id region with
  | Ok converted => converted
  | Raise _ => _get_mock_vpc_data vpc_id region
  end.

(** *** The methods that talk to the provider and to the LLM *)

Local Open Scope io_scope.

(** [_convert_alibaba_vpc_format] as a call, with the error line its
    [except] branch logs (line 268). *)
Definition _convert_alibaba_vpc_format_logged (alibaba_data : value)
           (vpc_id region : str) : M value :=
  try_except
    (lift (convert_body alibaba_data vpc_id region))
    (fun e =>
       log_error (lit "Error converting Alibaba Cloud format: " ++ exn_text e) ;;
       ret (_get_mock_vpc_data vpc_id region)).

(** [re.search(r'\{.*\}', text, re.DOTALL)], anchored: the whole match. *)
Definition brace_pattern (s : str) : option str :=
  re_lit (lit "{")
    (re_greedy_any
       (fun group => re_lit (lit "}") (fun _ => Some (lit "{" ++ group ++ lit "}")))
       [])
    s.

(** The loop of [list_vpcs] and of [get_vswitches] over the items of an
    answer: every item that has a text is decoded and replaces [data], the
    text itself under [raw_response] when it is no JSON; any other
    exception of the decoding leaves the loop. *)
Fixpoint decode_items (B : Builtins) (items : list content_item) (data : value)
  : result value :=
  match items with
  | [] => Ok data
  | content :: rest =>
      match item_text content with
      | Some text =>
          match json_loads B text with
          | Parsed v => decode_items B rest v
          | NotJson _ => decode_items B rest (VDict [(lit "raw_response", VStr text)])
          | LoadsError e => Raise e
          end
      | None => decode_items B rest data
      end
  end.

Section WithEnv.
Variable E : Env.

(** [json.loads(v)] where [v] need not be a [str]. *)
Definition loads_value (v : value) : result parsed :=
  match v with
  | VStr text => Ok (json_loads (builtins E) text)
  | _ =>
      Raise (Exn TypeError
                 (lit "the JSON object must be str, bytes or bytearray, not "
                      ++ type_name v))
  end.

(** [_parse_vpc_data_with_llm]. *)
Definition _parse_vpc_data_with_llm (raw_data vpc_id region : str) : M value :=
  try_except
    (emit EvParseLLM ;;
     response_data <- lift (aliyun_bedrock E) ;;
     llm_response <- lift (content <- getitem response_data (lit "content") ;;
                           first <- getitem0 content ;;
                           getitem first (lit "text"))%R ;;
     direct <- lift (loads_value llm_response) ;;
     match direct, llm_response with
     | Parsed parsed_data, _ => ret parsed_data
     | NotJson _, VStr text =>
         match search brace_pattern text with
         | Some json_match =>
             match json_loads (builtins E) json_match with
             | Parsed parsed_data => ret parsed_data
             | NotJson msg => raise (Exn JSONDecodeError msg)
             | LoadsError e => raise e
             end
         | None =>
             raise (Exn PlainException
                        (lit "Could not extract valid JSON from LLM response"))
         end
     | NotJson msg, _ => raise (Exn JSONDecodeError msg)
     | LoadsError e, _ => raise e
     end)
    (fun e =>
       log_error (lit "Error parsing VPC data with LLM: " ++ exn_text e) ;;
       ret (_get_mock_vpc_data vpc_id region)).

(** [self.session.call_tool("VPC_DescribeVpcs", args)]. *)
Definition describe_vpcs (args : value) : M (list content_item) :=
  with_session Alibaba "call_tool"
    (emit (EvProviderCall (lit "VPC_DescribeVpcs") args) ;;
     lift (aliyun_call_tool E (lit "VPC_DescribeVpcs") args)).

(** [get_vpc_info]. *)
Definition get_vpc_info (vpc_id region : str) : M value :=
  try_except
    (result <- describe_vpcs
                 (if truthy (VStr vpc_id)
                  then VDict [(lit "VpcId", VStr vpc_id); (lit "RegionId", VStr region)]
                  else VDict [(lit "RegionId", VStr region)]) ;;
     let raw_response :=
       flat_map (fun content =>
                   match item_text content with
                   | Some text => text ++ [10%N]
                   | None => []
                   end) result in
     match json_loads (builtins E) raw_response with
     | Parsed parsed_data =>
         _convert_alibaba_vpc_format_logged parsed_data vpc_id region
     | NotJson _ =>
         if llm_parse_timeout E then
           log_error (lit "LLM parsing timed out, using mock data") ;;
           ret (_get_mock_vpc_data vpc_id region)
         else _parse_vpc_data_with_llm raw_response vpc_id region
     | LoadsError e => raise e
     end)
    (fun e =>
       log_error (lit "Error getting VPC info: " ++ exn_text e) ;;
       ret (_get_mock_vpc_data vpc_id region)).

(** [list_vpcs]. *)
Definition list_vpcs (region : str) : M value :=
  try_except
    (result <- describe_vpcs (VDict [(lit "RegionId", VStr region)]) ;;
     lift (decode_items (builtins E) result (VDict [])))
    (fun e =>
       log_error (lit "Error listing VPCs: " ++ exn_text e) ;;
       ret (VDict [(lit "error", VStr (exn_text e))])).

End WithEnv.

End Aliyun.

(* ================================================================== *)
(** ** cdk-mcp-cli/cdk_cli.py                                          *)
(* ================================================================== *)

Module Cdk.

Local Open Scope io_scope.

(** How one pass of the [for] loop over [response['content']] ends. *)
Inductive pass :=
| NoToolUse (final_text : list value)
| ToolUse (response : value) (final_text : list value) (messages : list value).

(** ["\n".join(final_text)], which wants every item to be a [str]. *)
Fixpoint texts_of (rank : N) (items : list value) : result (list str) :=
  match items with
  | [] => Ok []
  | VStr s :: rest => (others <- texts_of (rank + 1) rest ;; Ok (s :: others))%R
  | v :: _ =>
      Raise (Exn TypeError
                 (lit "sequence item " ++ str_of_N rank
                      ++ lit ": expected str instance, " ++ type_name v ++ lit " found"))
  end.

Definition join_texts (final_text : list value) : result str :=
  (texts <- texts_of 0 final_text ;; Ok (join [10%N] texts))%R.

Section WithEnv.
Variable E : Env.

(** [self.bedrock.invoke_model(...)] with the current [messages], and the
    decoding of the body. *)
Definition invoke_model (messages : list value) : M value :=
  rank <- next_bedrock_rank ;;
  emit (EvBedrock rank messages) ;;
  lift (cdk_bedrock E rank).

(** The [tool_result] message built from the result of a tool. *)
Fixpoint tool_result_content (items : list content_item) : result (list value) :=
  match items with
  | [] => Ok []
  | item :: rest =>
      if str_eqb (item_type item) (lit "text") then
        match item_text item with
        | Some text =>
            (others <- tool_result_content rest ;;
             Ok (VDict [(lit "type", VStr (item_type item));
                        (lit "text", VStr text)] :: others))%R
        | None =>
            Raise (Exn AttributeError (lit "object has no attribute 'text'"))
        end
      else tool_result_content rest
  end.

(** Lines 104-152: one pass over the blocks of a response;
    [assistant_message_content] starts empty at every pass. *)
Fixpoint scan_blocks (blocks : list value) (final_text : list value)
         (assistant_message_content : list value) (messages : list value)
  : M pass :=
  match blocks with
  | [] => ret (NoToolUse final_text)
  | content :: rest =>
      type <- lift (getitem content (lit "type")) ;;
      if eq_str type (lit "text") then
        text <- lift (getitem content (lit "text")) ;;
        scan_blocks rest (final_text ++ [text])
                    (assistant_message_content ++ [content]) messages
      else if eq_str type (lit "tool_use") then
        tool_name <- lift (getitem content (lit "name")) ;;
        tool_args <- lift (getitem content (lit "input")) ;;
        result <- with_session CdkGen "call_tool"
                    (rank <- next_tool_rank ;;
                     emit (EvToolCall rank tool_name tool_args) ;;
                     lift (cdk_call_tool E rank tool_name tool_args)) ;;
        let messages1 :=
          messages ++ [VDict [(lit "role", VStr (lit "assistant"));
                              (lit "content",
                               VList (assistant_message_content ++ [content]))]] in
        tool_use_id <- lift (getitem content (lit "id")) ;;
        shown <- lift (tool_result_content result) ;;
        let messages2 :=
          messages1 ++ [VDict [(lit "role", VStr (lit "user"));
                               (lit "content",
                                VList [VDict [(lit "type", VStr (lit "tool_result"));
                                              (lit "tool_use_id", tool_use_id);
                                              (lit "content", VList shown)]])]] in
        response <- invoke_model messages2 ;;
        ret (ToolUse response final_text messages2)
      else scan_blocks rest final_text assistant_message_content messages
  end.

(** The [while True] loop, given [steps] passes. *)
Fixpoint generation_loop (steps : nat) (response : value)
         (final_text : list value) (messages : list value) : M (list value) :=
  match steps with
  | O => diverge
  | S steps' =>
      content <- lift (getitem response (lit "content")) ;;
      blocks <- lift (iter content) ;;
      p <- scan_blocks blocks final_text [] messages ;;
      match p with
      | NoToolUse final_text' => ret final_text'
      | ToolUse response' final_text' messages' =>
          generation_loop steps' response' final_text' messages'
      end
  end.

(** [generate_cdk_code]. *)
Definition generate_cdk_code (steps : nat) (description : str) : M str :=
  try_except
    (available_tools <- with_session CdkGen "list_tools"
                          (emit EvListTools ;; lift (cdk_list_tools E)) ;;
     let messages :=
       [VDict [(lit "role", VStr (lit "user"));
               (lit "content",
                VStr (lit "Generate AWS CDK code for: " ++ description
                        ++ lit ". IMPORTANT: The output should only have CDK code, without any additional comments.I will directly replace all output into a typescript file for CDK project and run it, therefore do not add env variables that requires code update."))]] in
     response <- invoke_model messages ;;
     final_text <- generation_loop steps response [] messages ;;
     lift (join_texts final_text))
    (fun e =>
       log_error (lit "Error generating CDK code: " ++ exn_text e) ;;
       ret (lit "Error: " ++ exn_text e)).

End WithEnv.

End Cdk.

(* ================================================================== *)
(** ** migration_workflow.py: the pure part                            *)
(* ================================================================== *)

Module Transform.

Section WithBuiltins.
Variable B : Builtins.

(** [az_mapping.get(zone, "us-east-1a")]; a list or a dict is not
    hashable and cannot be looked up. *)
Definition az_mapping_get (zone : value) : result value :=
  match zone with
  | VList _ | VDict _ =>
      Raise (Exn TypeError (lit "unhashable type: '" ++ type_name zone ++ lit "'"))
  | VStr s =>
      if str_eqb s (lit "cn-hangzhou-a") then Ok (VStr (lit "us-east-1a"))
      else if str_eqb s (lit "cn-hangzhou-b") then Ok (VStr (lit "us-east-1b"))
      else Ok (VStr (lit "us-east-1a"))
  | _ => Ok (VStr (lit "us-east-1a"))
  end.

(** Lines 179-184: the subnet built from one vswitch. *)
Definition transform_vswitch (vswitch : value) : result value :=
  name <- getitem vswitch (lit "name") ;;
  name' <- replace_dash_v name ;;
  cidr <- getitem vswitch (lit "cidr_block") ;;
  zone <- getitem vswitch (lit "availability_zone") ;;
  az <- az_mapping_get zone ;;
  Ok (VDict [
        (lit "name", name');
        (lit "cidr", cidr);
        (lit "availability_zone", az);
        (lit "map_public_ip_on_launch", VBool true) ]).

(** A [for] loop that appends one result per element and stops at the
    first exception. *)
Fixpoint for_each {A C} (f : A -> result C) (l : list A) : result (list C) :=
  match l with
  | [] => Ok []
  | x :: rest =>
      y <- f x ;;
      ys <- for_each f rest ;;
      Ok (y :: ys)
  end.

(** Lines 196-201. *)
Definition transform_rule (rule : value) : result value :=
  protocol <- getitem rule (lit "protocol") ;;
  port <- getitem rule (lit "port") ;;
  from_port <- int B port ;;
  port' <- getitem rule (lit "port") ;;
  to_port <- int B port' ;;
  source <- getitem rule (lit "source") ;;
  Ok (VDict [
        (lit "protocol", protocol);
        (lit "from_port", VInt from_port);
        (lit "to_port", VInt to_port);
        (lit "cidr_blocks", VList [source]) ]).

(** Lines 189-204. *)
Definition transform_security_group (sg : value) : result value :=
  name <- getitem sg (lit "name") ;;
  name' <- replace_dash_v name ;;
  group_id <- getitem sg (lit "group_id") ;;
  rules <- getitem sg (lit "rules") ;;
  rules_l <- iter rules ;;
  ingress_rules <- for_each transform_rule rules_l ;;
  Ok (VDict [
        (lit "name", name');
        (lit "description",
         VStr (lit "Migrated from Alibaba Cloud SG " ++ py_str B group_id));
        (lit "ingress_rules", VList ingress_rules) ]).

(** The body of the [try] of [transform_vpc_data], lines 162-204: the
    value assigned to [state["transformed_data"]]. *)
Definition transform_body (alibaba_data : value) : result value :=
  vpc_name <- getitem alibaba_data (lit "vpc_name") ;;
  name <- replace_dash_v vpc_name ;;
  cidr <- getitem alibaba_data (lit "cidr_block") ;;
  vswitches <- getitem alibaba_data (lit "vswitches") ;;
  vswitches_l <- iter vswitches ;;
  subnets <- for_each transform_vswitch vswitches_l ;;
  sgs <- getitem alibaba_data (lit "security_groups") ;;
  sgs_l <- iter sgs ;;
  security_groups <- for_each transform_security_group sgs_l ;;
  Ok (VDict [
        (lit "vpc", VDict [
           (lit "name", name);
           (lit "cidr", cidr);
           (lit "enable_dns_hostnames", VBool true);
           (lit "enable_dns_support", VBool true) ]);
        (lit "subnets", VList subnets);
        (lit "security_groups", VList security_groups) ]).

End WithBuiltins.

End Transform.

Module Extract.

Definition open_tag : str := lit "```typescript".
Definition fence : str := lit "```".

(** The pattern anchored at the start of [s]: the captured group and the
    text after the match. *)
Definition code_block_pattern (s : str) : option (str * str) :=
  re_lit open_tag
    (re_spaces
       (re_lazy_any
          (fun group => re_spaces (re_lit fence (fun rest => Some (group, rest))))
          []))
    s.

(** [re.findall]: the groups of the successive non-overlapping matches,
    scanning from the left.  Every step consumes a character, so
    [S (length s)] steps are enough. *)
Fixpoint findall_steps (n : nat) (s : str) : list str :=
  match n with
  | O => []
  | S n' =>
      match code_block_pattern s with
      | Some (group, rest) => group :: findall_steps n' rest
      | None =>
          match s with
          | [] => []
          | _ :: s' => findall_steps n' s'
          end
      end
  end.

Definition findall (s : str) : list str := findall_steps (S (length s)) s.

Definition code_tokens : list str :=
  [lit "import "; lit "export "; lit "const "; lit "class "; lit "interface "].

Definition explanation_phrases : list str :=
  [lit "this cdk code"; lit "to use this"; lit "notes and best";
   lit "would you like"; lit "the code uses"; lit "for production";
   lit "the stack uses"].

(** [line.strip().startswith((...))]. *)
Definition starts_code (line : str) : bool :=
  existsb (fun tok => is_prefix tok (strip line)) code_tokens.

(** [any(phrase in line.lower() for phrase in [...])]. *)
Definition is_explanation (line : str) : bool :=
  existsb (fun phrase => is_substring phrase (lower line)) explanation_phrases.

(** Lines 331-342: [in_code] is the flag, the result is [code_lines]. *)
Fixpoint scan_lines (in_code : bool) (lines : list str) : list str :=
  match lines with
  | [] => []
  | line :: rest =>
      let in_code' := if starts_code line then true else in_code in
      if in_code' then
        if negb (is_explanation line) then line :: scan_lines in_code' rest
        else scan_lines in_code' rest
      else scan_lines in_code' rest
  end.

(** [_extract_typescript_code]. *)
Definition _extract_typescript_code (response : str) : str :=
  match findall response with
  | first :: _ => strip first
  | [] => strip (join (lit (String "010" EmptyString))
                      (scan_lines false (split_on 10 response)))
  end.

(** *** The fenced block, as the specification words it *)

(** The text before and after the leftmost occurrence of [p] in [s]. *)
Fixpoint split_at_first (p s : str) : option (str * str) :=
  if is_prefix p s then Some ([], skipn (length p) s)
  else
    match s with
    | [] => None
    | c :: s' =>
        match split_at_first p s' with
        | Some (before, after) => Some (c :: before, after)
        | None => None
        end
    end.

(** The contents of the first fenced block tagged [typescript]: what lies
    between the leftmost opening tag and the first fence after it. *)
Definition first_fenced_block (response : str) : option str :=
  match split_at_first open_tag response with
  | Some (_, rest) =>
      match split_at_first fence rest with
      | Some (body, _) => Some body
      | None => None
      end
  | None => None
  end.

End Extract.

Module Workflow.

Import Transform Extract.
Local Open Scope io_scope.

(** [source_vpc_config]: a dict that may hold a [vpc_id] and a [region],
    both text. *)
Record source_config := {
  cfg_vpc_id : option str;
  cfg_region : option str
}.

(** [MigrationState]. *)
Record MigrationState := {
  source_vpc_config : source_config;
  target_project_name : str;
  target_directory : str;
  alibaba_vpc_data : value;
  transformed_data : value;
  cdk_code : str;
  cdk_project_path : str;
  deployment_result : value;
  status : str;
  error_message : str
}.

(** Assignments [state["field"] = x]. *)
Definition set_alibaba_vpc_data (x : value) (s : MigrationState) : MigrationState :=
  {| source_vpc_config := source_vpc_config s;
     target_project_name := target_project_name s;
     target_directory := target_directory s;
     alibaba_vpc_data := x;
     transformed_data := transformed_data s;
     cdk_code := cdk_code s;
     cdk_project_path := cdk_project_path s;
     deployment_result := deployment_result s;
     status := status s;
     error_message := error_message s |}.

Definition set_transformed_data (x : value) (s : MigrationState) : MigrationState :=
  {| source_vpc_config := source_vpc_config s;
     target_project_name := target_project_name s;
     target_directory := target_directory s;
     alibaba_vpc_data := alibaba_vpc_data s;
     transformed_data := x;
     cdk_code := cdk_code s;
     cdk_project_path := cdk_project_path s;
     deployment_result := deployment_result s;
     status := status s;
     error_message := error_message s |}.

Definition set_cdk_code (x : str) (s : MigrationState) : MigrationState :=
  {| source_vpc_config := source_vpc_config s;
     target_project_name := target_project_name s;
     target_directory := target_directory s;
     alibaba_vpc_data := alibaba_vpc_data s;
     transformed_data := transformed_data s;
     cdk_code := x;
     cdk_project_path := cdk_project_path s;
     deployment_result := deployment_result s;
     status := status s;
     error_message := error_message s |}.

Definition set_cdk_project_path (x : str) (s : MigrationState) : MigrationState :=
  {| source_vpc_config := source_vpc_config s;
     target_project_name := target_project_name s;
     target_directory := target_directory s;
     alibaba_vpc_data := alibaba_vpc_data s;
     transformed_data := transformed_data s;
     cdk_code := cdk_code s;
     cdk_project_path := x;
     deployment_result := deployment_result s;
     status := status s;
     error_message := error_message s |}.

Definition set_deployment_result (x : value) (s : MigrationState) : MigrationState :=
  {| source_vpc_config := source_vpc_config s;
     target_project_name := target_project_name s;
     target_directory := target_directory s;
     alibaba_vpc_data := alibaba_vpc_data s;
     transformed_data := transformed_data s;
     cdk_code := cdk_code s;
     cdk_project_path := cdk_project_path s;
     deployment_result := x;
     status := status s;
     error_message := error_message s |}.

Definition set_status (x : str) (s : MigrationState) : MigrationState :=
  {| source_vpc_config := source_vpc_config s;
     target_project_name := target_project_name s;
     target_directory := target_directory s;
     alibaba_vpc_data := alibaba_vpc_data s;
     transformed_data := transformed_data s;
     cdk_code := cdk_code s;
     cdk_project_path := cdk_project_path s;
     deployment_result := deployment_result s;
     status := x;
     error_message := error_message s |}.

Definition set_error_message (x : str) (s : MigrationState) : MigrationState :=
  {| source_vpc_config := source_vpc_config s;
     target_project_name := target_project_name s;
     target_directory := target_directory s;
     alibaba_vpc_data := alibaba_vpc_data s;
     transformed_data := transformed_data s;
     cdk_code := cdk_code s;
     cdk_project_path := cdk_project_path s;
     deployment_result := deployment_result s;
     status := status s;
     error_message := x |}.

Definition nl : str := [10%N].

(** Eight blanks: the indentation inside the text of the description. *)
Definition indent : str := lit "        ".

(** [pathlib] on a POSIX system, a path being kept as its text [str(p)].
    A text is cut at its slashes; the empty components and the single
    dots are dropped, [..] stays.  A path is absolute when its text starts
    with a slash; exactly two leading slashes are kept as they are. *)
Definition path_parts (s : str) : list str :=
  filter (fun part => match part with
                      | [] => false
                      | _ => negb (str_eqb part (lit "."))
                      end)
         (split_on 47 s).

Definition path_root (s : str) : str :=
  match s with
  | 47%N :: 47%N :: 47%N :: _ => lit "/"
  | 47%N :: 47%N :: _ => lit "//"
  | 47%N :: _ => lit "/"
  | _ => []
  end.

(** [str(p)] for the path of root [root] and components [parts]; the
    empty path is the current directory. *)
Definition path_text (root : str) (parts : list str) : str :=
  match root, parts with
  | [], [] => lit "."
  | _, _ => root ++ join (lit "/") parts
  end.

(** [str(Path(s))]. *)
Definition Path (s : str) : str := path_text (path_root s) (path_parts s).

(** [str(Path(a) / b)]: an absolute [b] replaces [a]. *)
Definition path_div (a b : str) : str :=
  match path_root b with
  | [] => path_text (path_root a) (path_parts a ++ path_parts b)
  | _ => Path b
  end.

Arguments Path s : simpl never.
Arguments path_div a b : simpl never.

(** [''.join(word.capitalize() for word in project_name.split('-')) + 'Stack']. *)
Definition class_name_of (project_name : str) : str :=
  flat_map capitalize (split_on 45 project_name) ++ lit "Stack".

(** The alternative data of the [except] branch of [extract_alibaba_vpc]. *)
Definition fallback_vpc_data : value :=
  VDict [
    (lit "vpc_id", VStr (lit "vpc-fallback-123456"));
    (lit "vpc_name", VStr (lit "demo-vpc"));
    (lit "cidr_block", VStr (lit "10.0.0.0/16"));
    (lit "region", VStr (lit "cn-hangzhou"));
    (lit "vswitches", VList [
       VDict [
         (lit "vswitch_id", VStr (lit "vsw-fallback-123456"));
         (lit "name", VStr (lit "demo-subnet-1"));
         (lit "cidr_block", VStr (lit "10.0.1.0/24"));
         (lit "availability_zone", VStr (lit "cn-hangzhou-a")) ];
       VDict [
         (lit "vswitch_id", VStr (lit "vsw-fallback-789012"));
         (lit "name", VStr (lit "demo-subnet-2"));
         (lit "cidr_block", VStr (lit "10.0.2.0/24"));
         (lit "availability_zone", VStr (lit "cn-hangzhou-b")) ] ]);
    (lit "security_groups", VList [
       VDict [
         (lit "group_id", VStr (lit "sg-fallback-123456"));
         (lit "name", VStr (lit "demo-sg"));
         (lit "rules", VList [
            VDict [
              (lit "protocol", VStr (lit "tcp"));
              (lit "port", VStr (lit "80"));
              (lit "source", VStr (lit "0.0.0.0/0")) ];
            VDict [
              (lit "protocol", VStr (lit "tcp"));
              (lit "port", VStr (lit "443"));
              (lit "source", VStr (lit "0.0.0.0/0")) ] ]) ] ])
  ].

Section WithEnv.
Variable E : Env.

(** The loop of [generate_cdk_code] is given [steps] passes. *)
Variable steps : nat.

(** [extract_alibaba_vpc].  The credentials read from the process
    environment only travel to the constructor. *)
Definition extract_alibaba_vpc (state : MigrationState) : M MigrationState :=
  try_except
    (w <- get_world ;;
     match aliyun_client w with
     | None =>
         construct E Alibaba ;;
         _ <- connect E Alibaba ;;
         ret tt
     | Some _ => ret tt
     end ;;
     let source_config := source_vpc_config state in
     let vpc_id := match cfg_vpc_id source_config with Some s => s | None => [] end in
     let region :=
       match cfg_region source_config with Some s => s | None => lit "cn-hangzhou" end in
     alibaba_vpc_data <-
       (if truthy (VStr vpc_id) then Aliyun.get_vpc_info E vpc_id region
        else
          vpcs_list <- Aliyun.list_vpcs E region ;;
          match vpcs_list with
          | VDict d =>
              match lookup (lit "vpcs") d with
              | Some vpcs =>
                  if truthy vpcs then
                    first <- lift (getitem0 vpcs) ;;
                    (* the argument of the log line about the VPC found *)
                    _ <- lift (get_default first (lit "vpc_id") (VStr (lit "unknown"))) ;;
                    ret first
                  else ret (Aliyun._get_mock_vpc_data vpc_id region)
              | None => ret (Aliyun._get_mock_vpc_data vpc_id region)
              end
          | _ => ret (Aliyun._get_mock_vpc_data vpc_id region)
          end) ;;
     let state1 := set_status (lit "vpc_extracted")
                     (set_alibaba_vpc_data alibaba_vpc_data state) in
     (* the argument of the log line about the VPC extracted *)
     _ <- lift (get_default alibaba_vpc_data (lit "vpc_name") (VStr (lit "unknown"))) ;;
     ret state1)
    (fun e =>
       log_error ([10060%N] ++ lit " Failed to extract VPC data: " ++ exn_text e) ;;
       ret (set_status (lit "vpc_extracted")
              (set_alibaba_vpc_data fallback_vpc_data state))).

(** [transform_vpc_data]. *)
Definition transform_vpc_data (state : MigrationState) : M MigrationState :=
  try_except
    (transformed <- lift (transform_body (builtins E) (alibaba_vpc_data state)) ;;
     ret (set_status (lit "data_transformed")
            (set_transformed_data transformed state)))
    (fun e =>
       log_error ([10060%N] ++ lit " Failed to transform data: " ++ exn_text e) ;;
       ret (set_status (lit "error") (set_error_message (exn_text e) state))).

(** One line of [_create_cdk_description] per subnet, [i] counting from
    [start]. *)
Fixpoint subnet_lines (start : N) (subnets : list value) : result str :=
  match subnets with
  | [] => Ok []
  | subnet :: rest =>
      (name <- getitem subnet (lit "name") ;;
       others <- subnet_lines (start + 1) rest ;;
       Ok (nl ++ indent ++ lit "- Subnet " ++ str_of_N (start + 1)
              ++ lit ": cidrMask=24, name='" ++ py_str (builtins E) name
              ++ lit "', type=PUBLIC" ++ others))%R
  end.

Definition security_group_line (sg : value) : result str :=
  (rules <- getitem sg (lit "ingress_rules") ;;
   rules_l <- iter rules ;;
   ports <- for_each (fun rule =>
                        port <- getitem rule (lit "from_port") ;;
                        Ok (py_str (builtins E) port)) rules_l ;;
   name <- getitem sg (lit "name") ;;
   Ok (nl ++ indent ++ lit "- name='" ++ py_str (builtins E) name
          ++ lit "', ingress_ports=[" ++ join (lit ",") ports
          ++ lit "], source=0.0.0.0/0"))%R.

(** [_create_cdk_description], with [self.current_project_name]. *)
Definition _create_cdk_description (project_name : str) (transformed_data : value)
  : result str :=
  (vpc <- getitem transformed_data (lit "vpc") ;;
   subnets <- getitem transformed_data (lit "subnets") ;;
   let class_name := class_name_of project_name in
   vpc_name <- getitem vpc (lit "name") ;;
   vpc_cidr <- getitem vpc (lit "cidr") ;;
   let description0 :=
     nl ++ indent ++ lit "Generate ONLY valid TypeScript CDK code without any explanations or comments. "
        ++ nl ++ indent ++ lit "Use correct CDK v2 syntax and imports."
        ++ nl ++ indent
        ++ nl ++ indent ++ lit "Requirements:"
        ++ nl ++ indent ++ lit "- Import Construct from 'constructs' package"
        ++ nl ++ indent ++ lit "- Export class name must be: " ++ class_name
        ++ nl ++ indent ++ lit "- VPC: name='" ++ py_str (builtins E) vpc_name
        ++ lit "', cidr='" ++ py_str (builtins E) vpc_cidr
        ++ lit "', enableDnsHostnames=true, enableDnsSupport=true"
        ++ nl ++ indent ++ lit "- Use maxAzs: 2 for automatic AZ distribution (do not specify availabilityZone in subnetConfiguration)"
        ++ nl ++ indent
        ++ nl ++ indent ++ lit "Subnets (use subnetConfiguration with cidrMask only):" in
   subnets_l <- iter subnets ;;
   description1 <- subnet_lines 0 subnets_l ;;
   let description2 := nl ++ indent ++ nl ++ indent ++ lit "Security Groups:" in
   sgs <- getitem transformed_data (lit "security_groups") ;;
   sgs_l <- iter sgs ;;
   description3 <- for_each security_group_line sgs_l ;;
   let description4 :=
     nl ++ indent
        ++ nl ++ indent ++ lit "Return ONLY valid TypeScript CDK v2 code with export class "
        ++ class_name ++ lit ". Use proper imports and syntax." in
   Ok (strip (description0 ++ description1 ++ description2
                ++ concat description3 ++ description4)))%R.

(** The entry-point file of a project and the text [_fix_bin_file] gives
    it. *)
Definition bin_file_of (project_path project_name : str) : str :=
  path_div (path_div project_path (lit "bin")) (project_name ++ lit ".ts").

Definition bin_content_of (project_name : str) : str :=
  let class_name := class_name_of project_name in
  lit "#!/usr/bin/env node" ++ nl
  ++ lit "import 'source-map-support/register';" ++ nl
  ++ lit "import * as cdk from 'aws-cdk-lib';" ++ nl
  ++ lit "import { " ++ class_name ++ lit " } from '../lib/" ++ project_name ++ lit "-stack';" ++ nl
  ++ nl
  ++ lit "const app = new cdk.App();" ++ nl
  ++ lit "new " ++ class_name ++ lit "(app, '" ++ class_name ++ lit "', {" ++ nl
  ++ lit "  env: {" ++ nl
  ++ lit "    account: process.env.CDK_DEFAULT_ACCOUNT," ++ nl
  ++ lit "    region: process.env.CDK_DEFAULT_REGION," ++ nl
  ++ lit "  }," ++ nl
  ++ lit "});" ++ nl.

(** [_fix_bin_file]. *)
Definition _fix_bin_file (project_path project_name : str) : M unit :=
  write_file E (bin_file_of project_path project_name) (bin_content_of project_name).

(** [generate_cdk_project], lines 222-249: the project directory and the
    response of the generator. *)
Definition obtain_cdk_code (state : MigrationState) : M (str * str) :=
  let project_name := target_project_name state in
  set_current_project_name project_name ;;
  let target_dir := Path (target_directory state) in
  let project_path := path_div target_dir project_name in
  mkdir E project_path ;;
  result <- run_process E
              [lit "cdk"; lit "init"; lit "app"; lit "--language"; lit "typescript"]
              project_path ;;
  (if negb (Z.eqb (returncode result) 0)
   then raise (Exn PlainException (lit "CDK init failed: " ++ stderr result))
   else ret tt) ;;
  w <- get_world ;;
  match cdk_generator w with
  | None =>
      construct E CdkGen ;;
      _ <- connect E CdkGen ;;
      ret tt
  | Some _ => ret tt
  end ;;
  w' <- get_world ;;
  description <- lift (_create_cdk_description (current_project_name w')
                         (transformed_data state)) ;;
  cdk_code <- Cdk.generate_cdk_code E steps description ;;
  ret (project_path, cdk_code).

(** The stack definition file of a project. *)
Definition stack_file_of (project_path project_name : str) : str :=
  path_div (path_div project_path (lit "lib")) (project_name ++ lit "-stack.ts").

(** [generate_cdk_project]. *)
Definition generate_cdk_project (state : MigrationState) : M MigrationState :=
  try_except
    (let project_name := target_project_name state in
     got <- obtain_cdk_code state ;;
     let project_path := fst got in
     let cdk_code := snd got in
     let stack_file := stack_file_of project_path project_name in
     let clean_code := _extract_typescript_code cdk_code in
     write_file E stack_file clean_code ;;
     _fix_bin_file project_path project_name ;;
     ret (set_status (lit "cdk_generated")
            (set_cdk_project_path project_path
               (set_cdk_code cdk_code state))))
    (fun e =>
       log_error ([10060%N] ++ lit " Failed to generate CDK project: " ++ exn_text e) ;;
       ret (set_status (lit "error") (set_error_message (exn_text e) state))).

(** [deploy_to_aws]. *)
Definition deploy_to_aws (state : MigrationState) : M MigrationState :=
  try_except
    (let project_path := Path (cdk_project_path state) in
     result <- run_process E [lit "npm"; lit "install"] project_path ;;
     (if negb (Z.eqb (returncode result) 0)
      then raise (Exn PlainException (lit "npm install failed: " ++ stderr result))
      else ret tt) ;;
     _ <- run_process E [lit "cdk"; lit "bootstrap"] project_path ;;
     result <- run_process E
                 [lit "cdk"; lit "deploy"; lit "--require-approval"; lit "never"]
                 project_path ;;
     (if negb (Z.eqb (returncode result) 0)
      then raise (Exn PlainException (lit "CDK deploy failed: " ++ stderr result))
      else ret tt) ;;
     let deployment_result :=
       VDict [(lit "status", VStr (lit "deployed"));
              (lit "output", VStr (stdout result));
              (lit "project_path", VStr project_path)] in
     ret (set_status (lit "completed")
            (set_deployment_result deployment_result state)))
    (fun e =>
       log_error ([10060%N] ++ lit " Deployment failed: " ++ exn_text e) ;;
       ret (set_status (lit "error") (set_error_message (exn_text e) state))).

(** [handle_error]. *)
Definition handle_error (state : MigrationState) : M MigrationState :=
  log_error ([128680%N] ++ lit " Migration failed: " ++ error_message state) ;;
  ret state.

(** *** The graph *)

(** What [StateGraph] collects: the nodes by name, the edges and the
    entry point. *)
Record StateGraph := {
  nodes : list (string * (MigrationState -> M MigrationState));
  edges : list (string * string);
  entry_point : string
}.

Definition END : string := "__end__".

(** [_build_workflow]. *)
Definition _build_workflow : StateGraph :=
  {| nodes := [("extract_vpc", extract_alibaba_vpc);
               ("transform_data", transform_vpc_data);
               ("generate_cdk", generate_cdk_project);
               ("deploy_aws", deploy_to_aws);
               ("handle_error", handle_error)]%string;
     edges := [("extract_vpc", "transform_data");
               ("transform_data", "generate_cdk");
               ("generate_cdk", "deploy_aws");
               ("deploy_aws", END);
               ("handle_error", END)]%string;
     entry_point := "extract_vpc"%string |}.

Fixpoint assoc {A} (name : string) (l : list (string * A)) : option A :=
  match l with
  | [] => None
  | (n, a) :: rest => if String.eqb name n then Some a else assoc name rest
  end.

(** The engine: run the current node, then follow its edge, until [END];
    [limit] is what is left of the recursion limit. *)
Fixpoint run_from (limit : nat) (g : StateGraph) (current : string)
         (state : MigrationState) : M MigrationState :=
  match limit with
  | O =>
      raise (Exn GraphRecursionError
                 (lit "Recursion limit of 25 reached without hitting a stop condition."))
  | S limit' =>
      match assoc current (nodes g) with
      | None => raise (Exn ValueError (lit "unknown node"))
      | Some run_node =>
          emit (EvNode current) ;;
          state' <- run_node state ;;
          match assoc current (edges g) with
          | Some next =>
              if String.eqb next END then ret state'
              else run_from limit' g next state'
          | None => ret state'
          end
      end
  end.

(** [workflow.ainvoke(initial_state)] with the default recursion limit. *)
Definition ainvoke (g : StateGraph) (initial_state : MigrationState)
  : M MigrationState :=
  run_from 25 g (entry_point g) initial_state.

(** [if self.<client>: await self.<client>.cleanup()]. *)
Definition cleanup_if_held (k : client_kind) : M unit :=
  w <- get_world ;;
  match holder k w with
  | Some _ => cleanup E k
  | None => ret tt
  end.

Definition initial_state (source_vpc_config : source_config)
           (target_project_name target_directory : str) : MigrationState :=
  {| source_vpc_config := source_vpc_config;
     target_project_name := target_project_name;
     target_directory := target_directory;
     alibaba_vpc_data := VDict [];
     transformed_data := VDict [];
     cdk_code := [];
     cdk_project_path := [];
     deployment_result := VDict [];
     status := lit "started";
     error_message := [] |}.

(** [run_migration], for the compiled workflow held in [self.workflow]. *)
Definition run_migration_with (workflow : MigrationState -> M MigrationState)
           (source_vpc_config : source_config)
           (target_project_name target_directory : str) : M MigrationState :=
  try_except
    (final_state <- workflow (initial_state source_vpc_config target_project_name
                                            target_directory) ;;
     cleanup_if_held CdkGen ;;
     cleanup_if_held Alibaba ;;
     ret final_state)
    (fun e =>
       log_error (lit "Workflow execution failed: " ++ exn_text e) ;;
       cleanup_if_held CdkGen ;;
       cleanup_if_held Alibaba ;;
       raise e).

(** [run_migration] of a [MigrationWorkflow]. *)
Definition run_migration (source_vpc_config : source_config)
           (target_project_name target_directory : str) : M MigrationState :=
  run_migration_with (ainvoke _build_workflow)
                     source_vpc_config target_project_name target_directory.

End WithEnv.

End Workflow.

(* ================================================================== *)
(** ** The vocabulary of the statements                                 *)
(* ================================================================== *)

Module Spec.

Import Extract Workflow.
Local Open Scope result_scope.

(** *** Normalizer *)

(** The record has its two sequences. *)
Definition has_sequences (v : value) : Prop :=
  exists vswitches security_groups,
    getitem v (lit "vswitches") = Ok (VList vswitches) /\
    getitem v (lit "security_groups") = Ok (VList security_groups).

(** What [d.get(k)] gives on a dict. *)
Definition field (d : list (str * value)) (k : str) : value :=
  match lookup k d with Some x => x | None => VNone end.

(** [d.get(k1) or d.get(k2) or default]. *)
Definition pick (d : list (str * value)) (k1 k2 : str) (default : value) : value :=
  if truthy (field d k1) then field d k1
  else if truthy (field d k2) then field d k2
  else default.

(** An entry that is an object and whose id, under either name, is not
    [vpc_id]. *)
Definition is_other_vpc (vpc_id : str) (entry : value) : bool :=
  match entry with
  | VDict d =>
      negb (eq_str (field d (lit "VpcId")) vpc_id)
      && negb (eq_str (field d (lit "vpc_id")) vpc_id)
  | _ => false
  end.

(** The record [_convert_alibaba_vpc_format] builds from the entry [d]. *)
Definition built_from (d : list (str * value)) (vpc_id region : str)
           (vswitches : list value) : value :=
  VDict [ (lit "vpc_id", pick d (lit "VpcId") (lit "vpc_id") (VStr vpc_id));
          (lit "vpc_name",
           pick d (lit "VpcName") (lit "vpc_name") (VStr (lit "vpc-" ++ vpc_id)));
          (lit "cidr_block",
           pick d (lit "CidrBlock") (lit "cidr_block") (VStr (lit "10.0.0.0/16")));
          (lit "region", VStr region);
          (lit "status", pick d (lit "Status") (lit "status") (VStr (lit "Available")));
          (lit "vswitches", VList vswitches);
          (lit "security_groups", Aliyun.default_security_groups vpc_id) ].

(** What a call of [_convert_alibaba_vpc_format] logs: nothing, or one
    error line when its body raised. *)
Definition conversion_log (alibaba_data : value) (vpc_id region : str) : list event :=
  match Aliyun.convert_body alibaba_data vpc_id region with
  | Ok _ => []
  | Raise e => [EvLogError (lit "Error converting Alibaba Cloud format: " ++ exn_text e)]
  end.

(** *** Transformer *)

(** The subnet has the name and the CIDR of the vswitch, unchanged, and
    the public-IP flag. *)
Definition passes_unchanged (vswitch subnet : value) : Prop :=
  getitem subnet (lit "name") = getitem vswitch (lit "name") /\
  getitem subnet (lit "cidr") = getitem vswitch (lit "cidr_block") /\
  getitem subnet (lit "map_public_ip_on_launch") = Ok (VBool true).

(** The subnet has the name of the vswitch with [_] for every [-], its
    CIDR unchanged, and the public-IP flag. *)
Definition subnet_of (vswitch subnet : value) : Prop :=
  exists name,
    getitem vswitch (lit "name") = Ok (VStr name) /\
    getitem subnet (lit "name") = Ok (VStr (replace_dash name)) /\
    (~ In 45%N name -> getitem subnet (lit "name") = getitem vswitch (lit "name")) /\
    getitem subnet (lit "cidr") = getitem vswitch (lit "cidr_block") /\
    getitem subnet (lit "map_public_ip_on_launch") = Ok (VBool true).

(** *** Code extraction *)

(** The end of the pattern, after the captured group. *)
Definition fence_tail (group : str) : str -> option (str * str) :=
  re_spaces (re_lit fence (fun rest => Some (group, rest))).

(** The pattern after its opening tag. *)
Definition after_tag : str -> option (str * str) :=
  re_spaces (re_lazy_any fence_tail []).

(** The first fenced block, trimmed, and the text after its fence. *)
Definition first_block_match (s : str) : option (str * str) :=
  match split_at_first open_tag s with
  | Some (_, rest) =>
      match split_at_first fence rest with
      | Some (body, post) => Some (strip body, post)
      | None => None
      end
  | None => None
  end.

(** No line of the text starts, once trimmed, with a token that
    introduces code. *)
Definition no_code_line (text : str) : bool :=
  forallb (fun line => negb (starts_code line)) (split_on 10 text).

(** *** Code generator *)

(** What a block that asks for no tool adds to [final_text]: its text when
    its type is [text], nothing when it is of a third type. *)
Definition plain_block (block : value) : option (list str) :=
  match getitem block (lit "type") with
  | Ok type =>
      if eq_str type (lit "text") then
        match getitem block (lit "text") with
        | Ok (VStr s) => Some [s]
        | _ => None
        end
      else if eq_str type (lit "tool_use") then None
      else Some []
  | Raise _ => None
  end.

(** The texts of a sequence of blocks none of which asks for a tool. *)
Fixpoint plain_texts (blocks : list value) : option (list str) :=
  match blocks with
  | [] => Some []
  | block :: rest =>
      match plain_block block, plain_texts rest with
      | Some t, Some ts => Some (t ++ ts)
      | _, _ => None
      end
  end.

(** A well-formed request for a tool: its name, input and id. *)
Definition tool_request (block : value) : option (value * value * value) :=
  match getitem block (lit "type") with
  | Ok type =>
      if eq_str type (lit "text") then None
      else if eq_str type (lit "tool_use") then
        match getitem block (lit "name"), getitem block (lit "input"),
              getitem block (lit "id") with
        | Ok name, Ok input, Ok id => Some (name, input, id)
        | _, _, _ => None
        end
      else None
  | Raise _ => None
  end.

Definition is_text_block (block : value) : bool :=
  match getitem block (lit "type") with
  | Ok type => eq_str type (lit "text")
  | Raise _ => false
  end.

(** A conversation with exactly one tool round trip, seen from the state
    [w] in which [generate_cdk_code] starts: the first response holds the
    texts [texts1] and then a request for a tool, the tool answers, and
    the second response holds the texts [texts2] and no request. *)
Definition one_tool_round (E : Env) (w : World) (texts1 texts2 : list str) : Prop :=
  exists tools response1 content1 before request after name input id
         items shown response2 content2 blocks2,
    holder CdkGen w = Some {| session := true |} /\
    cdk_list_tools E = Ok tools /\
    cdk_bedrock E (bedrock_calls w) = Ok response1 /\
    getitem response1 (lit "content") = Ok content1 /\
    iter content1 = Ok (before ++ request :: after) /\
    plain_texts before = Some texts1 /\
    tool_request request = Some (name, input, id) /\
    cdk_call_tool E (tool_calls w) name input = Ok items /\
    Cdk.tool_result_content items = Ok shown /\
    cdk_bedrock E (S (bedrock_calls w)) = Ok response2 /\
    getitem response2 (lit "content") = Ok content2 /\
    iter content2 = Ok blocks2 /\
    plain_texts blocks2 = Some texts2.

(** How a pass over the blocks relates to the backend: either it makes no
    invocation and does not end in a tool round, or it makes exactly one,
    whose outcome decides how the pass ends. *)
Definition pass_outcome (E : Env) (w : World) (r : result Cdk.pass) (w' : World)
  : Prop :=
  (bedrock_calls w' = bedrock_calls w /\
   forall response final_text messages,
     r <> Ok (Cdk.ToolUse response final_text messages))
  \/
  (bedrock_calls w' = S (bedrock_calls w) /\
   match cdk_bedrock E (bedrock_calls w) with
   | Ok response =>
       exists final_text messages, r = Ok (Cdk.ToolUse response final_text messages)
   | Raise e => r = Raise e
   end).

(** *** Stages *)

Definition cdk_init : list str :=
  [lit "cdk"; lit "init"; lit "app"; lit "--language"; lit "typescript"].
Definition npm_install : list str := [lit "npm"; lit "install"].
Definition cdk_bootstrap : list str := [lit "cdk"; lit "bootstrap"].
Definition cdk_deploy : list str :=
  [lit "cdk"; lit "deploy"; lit "--require-approval"; lit "never"].

(** The directory the deploy stage works in. *)
Definition project_dir (state : MigrationState) : str :=
  Path (cdk_project_path state).

Definition describe_tool : str := lit "VPC_DescribeVpcs".

(** The id and the region the extract stage asks for. *)
Definition requested_id (state : MigrationState) : str :=
  match cfg_vpc_id (source_vpc_config state) with Some s => s | None => [] end.

Definition requested_region (state : MigrationState) : str :=
  match cfg_region (source_vpc_config state) with
  | Some s => s
  | None => lit "cn-hangzhou"
  end.

(** Whether the Alibaba client has a session once the extract stage has
    made (or found) it. *)
Definition session_after_connect (E : Env) (w : World) : bool :=
  match aliyun_client w with
  | Some c => session c
  | None =>
      match connect_result E Alibaba with
      | FailedBeforeSession _ => false
      | _ => true
      end
  end.

(** The provider raises during extraction: the stage has a client to
    call it with, and either the connection left no session or the call
    itself raises. *)
Definition provider_raises (E : Env) (w : World) : Prop :=
  (aliyun_client w <> None \/ boto3_client E Alibaba = None) /\
  (session_after_connect E w = false \/
   forall args, exists e, aliyun_call_tool E describe_tool args = Raise e).

(** *** Engine *)

(** The nodes the engine ran and the processes the run started, in
    order. *)
Definition nodes_run (trace : list event) : list string :=
  flat_map (fun ev => match ev with EvNode name => [name] | _ => [] end) trace.

Definition processes_run (trace : list event) : list (list str) :=
  flat_map (fun ev => match ev with EvSubprocess argv _ => [argv] | _ => [] end) trace.

(** What [run_migration] logs when the workflow raised. *)
Definition failure_log {A : Type} (r : result A) : list event :=
  match r with
  | Ok _ => []
  | Raise e => [EvLogError (lit "Workflow execution failed: " ++ exn_text e)]
  end.

(** What releasing client [k] adds to the trace: nothing when the workflow
    holds no such client, else the closing of its exit stack, followed by
    a log line when the closing raised. *)
Definition release_trace (E : Env) (k : client_kind) (w : World) : list event :=
  match holder k w with
  | Some _ =>
      EvAclose k ::
      match aclose E k with
      | Some e => [EvLogError (lit "Error during cleanup: " ++ exn_text e)]
      | None => []
      end
  | None => []
  end.

(** Every client that has been connected is held by the workflow. *)
Definition sessions_tracked (w : World) : Prop :=
  forall k, In (EvConnect k) (events w) -> holder k w <> None.

(** A computation that keeps [sessions_tracked]. *)
Definition keeps {A} (m : M A) : Prop :=
  forall w r w', sessions_tracked w -> m w = Some (r, w') -> sessions_tracked w'.

Definition is_connect (ev : event) : bool :=
  match ev with EvConnect _ => true | _ => false end.

End Spec.

(* ================================================================== *)
(** ** Concrete runs                                                    *)
(* ================================================================== *)

Module Scenario.

Import Workflow.

(** A decimal reader standing for [int] on text. *)
Fixpoint digits (acc : Z) (s : str) : option Z :=
  match s with
  | [] => Some acc
  | c :: rest =>
      if ((48 <=? c) && (c <=? 57))%N
      then digits (10 * acc + Z.of_N (c - 48)) rest
      else None
  end.

Definition decimal (s : str) : option Z :=
  match s with
  | [] => None
  | _ => digits 0 s
  end.

(** A JSON string literal: the text between two quotation marks. *)
Definition quoted (s : string) : str := [34%N] ++ lit s ++ [34%N].

(** A listing in which the only VPC has an id and a name and nothing
    else. *)
Definition bare_listing_text : str :=
  lit "{" ++ quoted "vpcs" ++ lit ": [{" ++ quoted "vpc_id" ++ lit ": "
      ++ quoted "vpc-1" ++ lit ", " ++ quoted "vpc_name" ++ lit ": "
      ++ quoted "legacy-vpc" ++ lit "}]}".

Definition bare_vpc : value :=
  VDict [(lit "vpc_id", VStr (lit "vpc-1"));
         (lit "vpc_name", VStr (lit "legacy-vpc"))].

Definition bare_listing : value :=
  VDict [(lit "vpcs", VList [bare_vpc])].

(** A response whose only VPC is [vpc-a], without and with a [VSwitchIds]
    that is [null]. *)
Definition vpc_a : list (str * value) :=
  [(lit "VpcId", VStr (lit "vpc-a")); (lit "CidrBlock", VStr (lit "172.16.0.0/12"))].

Definition only_vpc_a : value :=
  VDict [(lit "Vpcs", VDict [(lit "Vpc", VList [VDict vpc_a])])].

Definition vpc_a_null_ids : list (str * value) :=
  [(lit "VpcId", VStr (lit "vpc-a")); (lit "VSwitchIds", VNone)].

Definition only_vpc_a_null_ids : value :=
  VDict [(lit "Vpcs", VDict [(lit "Vpc", VList [VDict vpc_a_null_ids])])].

(** The blanks JSON allows around a document. *)
Definition is_json_space (c : N) : bool :=
  ((c =? 32) || (c =? 9) || (c =? 10) || (c =? 13))%N.

Fixpoint drop_json_space (s : str) : str :=
  match s with
  | c :: s' => if is_json_space c then drop_json_space s' else s
  | [] => []
  end.

Definition json_trim (s : str) : str :=
  rev (drop_json_space (rev (drop_json_space s))).

(** A decoder that knows one document, [bare_listing_text]. *)
Definition demo_builtins : Builtins :=
  {| json_loads := fun text =>
                     if str_eqb (json_trim text) bare_listing_text
                     then Parsed bare_listing
                     else NotJson (lit "Expecting value: line 1 column 1 (char 0)");
     int_of_str := decimal;
     py_repr := fun v => match v with
                         | VInt z => str_of_Z z
                         | VStr s => lit "'" ++ s ++ lit "'"
                         | _ => lit "<object>"
                         end |}.

Definition exit_with (code : Z) : completed_process :=
  {| returncode := code; stdout := lit "done"; stderr := lit "failed" |}.

Definition text_block (s : str) : value :=
  VDict [(lit "type", VStr (lit "text")); (lit "text", VStr s)].

Definition tool_use_block : value :=
  VDict [(lit "type", VStr (lit "tool_use"));
         (lit "id", VStr (lit "toolu_01"));
         (lit "name", VStr (lit "CDKGeneralGuidance"));
         (lit "input", VDict [])].

Definition reply (blocks : list value) : value :=
  VDict [(lit "role", VStr (lit "assistant")); (lit "content", VList blocks)].

(** The answer of the model that carries the code. *)
Definition fenced_answer : str :=
  lit "Here is the stack:" ++ [10%N]
  ++ lit "```typescript" ++ [10%N]
  ++ lit "import * as cdk from 'aws-cdk-lib';" ++ [10%N]
  ++ lit "```" ++ [10%N]
  ++ lit "Deploy it with cdk deploy.".

(** What the model says before it asks for a tool, and the whole text
    [generate_cdk_code] returns in [calm]. *)
Definition opening_words : str := lit "Let me check the guidance.".

Definition generated_text : str := opening_words ++ [10%N] ++ fenced_answer.

(** Every collaborator answers; the model asks for one tool, then gives
    its code. *)
Definition calm : Env :=
  {| builtins := demo_builtins;
     boto3_client := fun _ => None;
     connect_result := fun _ => Connected;
     aliyun_call_tool := fun _ _ =>
       Ok [{| item_type := lit "text"; item_text := Some bare_listing_text |}];
     aliyun_bedrock := Raise (Exn ExternalError (lit "model not reachable"));
     llm_parse_timeout := false;
     cdk_list_tools := Ok (VList []);
     cdk_call_tool := fun _ _ _ =>
       Ok [{| item_type := lit "text"; item_text := Some (lit "Use aws-cdk-lib v2.") |}];
     cdk_bedrock := fun rank =>
       match rank with
       | O => Ok (reply [text_block opening_words; tool_use_block])
       | _ => Ok (reply [text_block fenced_answer])
       end;
     subprocess_run := fun _ _ => Ok (exit_with 0);
     fs_mkdir := fun _ => None;
     fs_write := fun _ _ => None;
     aclose := fun _ => None |}.

(** [calm] with another provider, another model or another toolchain. *)
Definition with_provider (f : str -> value -> result (list content_item)) (E : Env) : Env :=
  {| builtins := builtins E;
     boto3_client := boto3_client E;
     connect_result := connect_result E;
     aliyun_call_tool := f;
     aliyun_bedrock := aliyun_bedrock E;
     llm_parse_timeout := llm_parse_timeout E;
     cdk_list_tools := cdk_list_tools E;
     cdk_call_tool := cdk_call_tool E;
     cdk_bedrock := cdk_bedrock E;
     subprocess_run := subprocess_run E;
     fs_mkdir := fs_mkdir E;
     fs_write := fs_write E;
     aclose := aclose E |}.

Definition with_model (f : nat -> result value) (E : Env) : Env :=
  {| builtins := builtins E;
     boto3_client := boto3_client E;
     connect_result := connect_result E;
     aliyun_call_tool := aliyun_call_tool E;
     aliyun_bedrock := aliyun_bedrock E;
     llm_parse_timeout := llm_parse_timeout E;
     cdk_list_tools := cdk_list_tools E;
     cdk_call_tool := cdk_call_tool E;
     cdk_bedrock := f;
     subprocess_run := subprocess_run E;
     fs_mkdir := fs_mkdir E;
     fs_write := fs_write E;
     aclose := aclose E |}.

Definition with_toolchain (f : list str -> str -> result completed_process) (E : Env)
  : Env :=
  {| builtins := builtins E;
     boto3_client := boto3_client E;
     connect_result := connect_result E;
     aliyun_call_tool := aliyun_call_tool E;
     aliyun_bedrock := aliyun_bedrock E;
     llm_parse_timeout := llm_parse_timeout E;
     cdk_list_tools := cdk_list_tools E;
     cdk_call_tool := cdk_call_tool E;
     cdk_bedrock := cdk_bedrock E;
     subprocess_run := f;
     fs_mkdir := fs_mkdir E;
     fs_write := fs_write E;
     aclose := aclose E |}.

Definition with_aclose (f : client_kind -> option exn) (E : Env) : Env :=
  {| builtins := builtins E;
     boto3_client := boto3_client E;
     connect_result := connect_result E;
     aliyun_call_tool := aliyun_call_tool E;
     aliyun_bedrock := aliyun_bedrock E;
     llm_parse_timeout := llm_parse_timeout E;
     cdk_list_tools := cdk_list_tools E;
     cdk_call_tool := cdk_call_tool E;
     cdk_bedrock := cdk_bedrock E;
     subprocess_run := subprocess_run E;
     fs_mkdir := fs_mkdir E;
     fs_write := fs_write E;
     aclose := f |}.

(** The provider cannot be reached. *)
Definition provider_down : Env :=
  with_provider (fun _ _ => Raise (Exn ExternalError (lit "connection refused"))) calm.

(** The model cannot be reached. *)
Definition model_down : Env :=
  with_model (fun _ => Raise (Exn ExternalError (lit "throttled"))) calm.

(** The model answers in prose. *)
Definition prose : str := lit "I cannot generate that.".

Definition model_prose : Env :=
  with_model (fun _ => Ok (reply [text_block prose])) calm.

(** [npm install] fails, everything else exits with 0. *)
Definition install_fails : Env :=
  with_toolchain
    (fun argv _ =>
       match argv with
       | first :: _ => if str_eqb first (lit "npm") then Ok (exit_with 1)
                       else Ok (exit_with 0)
       | [] => Ok (exit_with 0)
       end) calm.

(** [cdk bootstrap] fails, everything else exits with 0. *)
Definition bootstrap_fails : Env :=
  with_toolchain
    (fun argv _ =>
       match argv with
       | [_; second] => if str_eqb second (lit "bootstrap") then Ok (exit_with 1)
                        else Ok (exit_with 0)
       | _ => Ok (exit_with 0)
       end) calm.

(** Closing a session fails. *)
Definition close_fails : Env :=
  with_aclose (fun _ => Some (Exn ExternalError (lit "cancel scope"))) calm.

(** A fresh [MigrationWorkflow]. *)
Definition fresh : World :=
  {| aliyun_client := None;
     cdk_generator := None;
     current_project_name := [];
     bedrock_calls := 0;
     tool_calls := 0;
     events := [] |}.

(** A workflow whose code generator is connected. *)
Definition generator_ready : World :=
  {| aliyun_client := None;
     cdk_generator := Some {| session := true |};
     current_project_name := [];
     bedrock_calls := 0;
     tool_calls := 0;
     events := [EvConnect CdkGen] |}.

Definition no_vpc_id : source_config :=
  {| cfg_vpc_id := None; cfg_region := Some (lit "cn-hangzhou") |}.

Definition vpc_1 : source_config :=
  {| cfg_vpc_id := Some (lit "vpc-1"); cfg_region := Some (lit "cn-hangzhou") |}.

Definition demo_state (cfg : source_config) : MigrationState :=
  initial_state cfg (lit "demo-app") (lit "output").

(** A state as the extract stage leaves it when the listing is
    [bare_listing]. *)
Definition bare_state : MigrationState :=
  set_status (lit "vpc_extracted") (set_alibaba_vpc_data bare_vpc (demo_state no_vpc_id)).

(** The synthetic VPC of the normalizer, and a state as the transform
    stage leaves it for that VPC. *)
Definition mock_vpc : value :=
  Aliyun._get_mock_vpc_data (lit "vpc-1") (lit "cn-hangzhou").

Definition transformed_state : MigrationState :=
  match Transform.transform_body demo_builtins mock_vpc with
  | Ok transformed =>
      set_status (lit "data_transformed")
        (set_transformed_data transformed
           (set_alibaba_vpc_data mock_vpc (demo_state vpc_1)))
  | Raise _ => demo_state vpc_1
  end.

(** A state as the generate stage leaves it. *)
Definition generated_state : MigrationState :=
  set_cdk_project_path (lit "output/demo-app") (demo_state vpc_1).

End Scenario.

(* ================================================================== *)
(** ** aliyun_mcp_client.py: the methods about vswitches               *)
(* ================================================================== *)

Module VSwitches.

Local Open Scope io_scope.

(** [re.search(r'\[.*\]', text, re.DOTALL)], anchored: the whole match. *)
Definition bracket_pattern (s : str) : option str :=
  re_lit (lit "[")
    (re_greedy_any
       (fun group => re_lit (lit "]") (fun _ => Some (lit "[" ++ group ++ lit "]")))
       [])
    s.

Section WithEnv.
Variable E : Env.

(** What [invoke_model] and the decoding of its body give in
    [_parse_vswitches_with_llm]. *)
Variable vswitch_reply : result value.

(** [_parse_vswitches_with_llm]. *)
Definition _parse_vswitches_with_llm (raw_data region : str) : M value :=
  try_except
    (emit EvParseLLM ;;
     response_data <- lift vswitch_reply ;;
     llm_response <- lift (content <- getitem response_data (lit "content") ;;
                           first <- getitem0 content ;;
                           getitem first (lit "text"))%R ;;
     direct <- lift (Aliyun.loads_value E llm_response) ;;
     match direct, llm_response with
     | Parsed parsed_data, _ => ret parsed_data
     | NotJson _, VStr text =>
         match search bracket_pattern text with
         | Some json_match =>
             match json_loads (builtins E) json_match with
             | Parsed parsed_data => ret parsed_data
             | NotJson msg => raise (Exn JSONDecodeError msg)
             | LoadsError e => raise e
             end
         | None => ret (VList [])
         end
     | NotJson msg, _ => raise (Exn JSONDecodeError msg)
     | LoadsError e, _ => raise e
     end)
    (fun e =>
       log_error (lit "Error parsing VSwitches with LLM: " ++ exn_text e) ;;
       ret (VList [])).

(** [get_vswitches]: the loop over the items is that of [list_vpcs]. *)
Definition get_vswitches (vpc_id region : str) : M value :=
  let args := VDict [(lit "VpcId", VStr vpc_id); (lit "RegionId", VStr region)] in
  try_except
    (result <- with_session Alibaba "call_tool"
                 (emit (EvProviderCall (lit "VPC_DescribeVSwitches") args) ;;
                  lift (aliyun_call_tool E (lit "VPC_DescribeVSwitches") args)) ;;
     lift (Aliyun.decode_items (builtins E) result (VDict [])))
    (fun e =>
       log_error (lit "Error getting VSwitches: " ++ exn_text e) ;;
       ret (VDict [(lit "error", VStr (exn_text e))])).

End WithEnv.

End VSwitches.

(* ================================================================== *)
(** ** More vocabulary                                                  *)
(* ================================================================== *)

Module Props.

Import Extract Workflow Spec.
Local Open Scope result_scope.

(** *** Computations *)

(** Whenever the computation ends, its result is accepted by [Q]. *)
Definition yields {A} (Q : result A -> Prop) (m : M A) : Prop :=
  forall w r w', m w = Some (r, w') -> Q r.

(** The computation ends, with a result accepted by [Q]. *)
Definition ends {A} (Q : result A -> Prop) (m : M A) : Prop :=
  forall w, exists r w', m w = Some (r, w') /\ Q r.

(** Whenever the computation ends, what it added to the trace is accepted
    by [P]. *)
Definition adds {A} (P : event -> bool) (m : M A) : Prop :=
  forall w r w', m w = Some (r, w') ->
    exists trace, events w' = events w ++ trace /\ forallb P trace = true.

(** A value that satisfies [P], or any exception. *)
Definition okif {A} (P : A -> Prop) (r : result A) : Prop :=
  match r with
  | Ok a => P a
  | Raise _ => True
  end.

(** A value that satisfies [P], and no exception. *)
Definition isok {A} (P : A -> Prop) (r : result A) : Prop :=
  match r with
  | Ok a => P a
  | Raise _ => False
  end.

Definition anything {A} (a : A) : Prop := True.

(** *** Events *)

Definition is_node (ev : event) : bool :=
  match ev with EvNode _ => true | _ => false end.

Definition not_node (ev : event) : bool := negb (is_node ev).

(** What the extract stage may do: connect the Alibaba client, call the
    provider, ask the LLM to parse, log. *)
Definition extract_event (ev : event) : bool :=
  match ev with
  | EvConnect Alibaba | EvProviderCall _ _ | EvParseLLM | EvLogError _ => true
  | _ => false
  end.

(** The files written in a trace, in order. *)
Definition files_written (trace : list event) : list (str * str) :=
  flat_map (fun ev => match ev with EvWrite path content => [(path, content)] | _ => [] end)
           trace.

(** *** States *)

(** [s'] is [s] but for the fields a stage may set. *)
Definition same_inputs (s s' : MigrationState) : Prop :=
  source_vpc_config s' = source_vpc_config s /\
  target_project_name s' = target_project_name s /\
  target_directory s' = target_directory s.

(** The directory of the project the generate stage makes. *)
Definition project_path_of (state : MigrationState) : str :=
  path_div (Path (target_directory state)) (target_project_name state).

(** What [generate_cdk_code] returns when its session was never
    assigned. *)
Definition no_session_text : str :=
  lit "Error: 'NoneType' object has no attribute 'list_tools'".

(** *** Normalizer *)

(** The entry is an object whose id, under one of its two names, is
    [vpc_id]. *)
Definition has_id (vpc_id : str) (d : list (str * value)) : bool :=
  eq_str (field d (lit "VpcId")) vpc_id || eq_str (field d (lit "vpc_id")) vpc_id.

(** The subnet the normalizer makes up for the embedded id of rank [i]
    (from 0). *)
Definition synthetic_vswitch (region : str) (i : N) (vswitch_id : value) : value :=
  VDict [ (lit "vswitch_id", vswitch_id);
          (lit "name", VStr (lit "subnet-" ++ str_of_N (i + 1)));
          (lit "cidr_block", VStr (lit "10.0." ++ str_of_N (i + 1) ++ lit ".0/24"));
          (lit "availability_zone", VStr (region ++ lit "-" ++ [(97 + i)%N]));
          (lit "status", VStr (lit "Available")) ].

(** The two subnets of the synthetic record, by rank. *)
Definition synthetic_mock (region : str) (i : nat) : value :=
  match getitem (Aliyun._get_mock_vpc_data [] region) (lit "vswitches") with
  | Ok (VList vswitches) => nth i vswitches VNone
  | _ => VNone
  end.

(** The security groups of the synthetic record. *)
Definition mock_security_groups : value :=
  match getitem (Aliyun._get_mock_vpc_data [] []) (lit "security_groups") with
  | Ok groups => groups
  | Raise _ => VNone
  end.

(** *** Transformer *)

(** The zone the transformer gives to a subnet. *)
Definition mapped_zone (zone : value) : str :=
  if eq_str zone (lit "cn-hangzhou-b") then lit "us-east-1b" else lit "us-east-1a".

Definition zone_of (vswitch subnet : value) : Prop :=
  exists zone,
    getitem vswitch (lit "availability_zone") = Ok zone /\
    getitem subnet (lit "availability_zone") = Ok (VStr (mapped_zone zone)).

(** The ingress rule made from a rule: one port, read by [int], for both
    ends of the range, the protocol as it is, the source as the only CIDR
    block. *)
Definition rule_of (B : Builtins) (rule aws_rule : value) : Prop :=
  exists protocol port source z,
    getitem rule (lit "protocol") = Ok protocol /\
    getitem rule (lit "port") = Ok port /\
    getitem rule (lit "source") = Ok source /\
    int B port = Ok z /\
    aws_rule = VDict [ (lit "protocol", protocol);
                       (lit "from_port", VInt z);
                       (lit "to_port", VInt z);
                       (lit "cidr_blocks", VList [source]) ].

(** The security group made from a group. *)
Definition security_group_of (B : Builtins) (sg out : value) : Prop :=
  exists name group_id rules ingress_rules,
    getitem sg (lit "name") = Ok (VStr name) /\
    getitem sg (lit "group_id") = Ok group_id /\
    (r <- getitem sg (lit "rules") ;; iter r) = Ok rules /\
    Forall2 (rule_of B) rules ingress_rules /\
    out = VDict [ (lit "name", VStr (replace_dash name));
                  (lit "description",
                   VStr (lit "Migrated from Alibaba Cloud SG " ++ py_str B group_id));
                  (lit "ingress_rules", VList ingress_rules) ].

(** *** Code extraction *)

(** The lines [_extract_typescript_code] keeps once it is in the code. *)
Definition kept_lines (lines : list str) : list str :=
  filter (fun line => negb (is_explanation line)) lines.

Definition one_line (line : str) : bool :=
  forallb (fun c => negb (N.eqb c 10)) line.

(** *** Code generator *)

(** The conversation that follows [response], when the next invocation of
    the backend has rank [b] and the next call of a tool rank [t]: one
    round per element of [rounds] (the texts that precede the request for
    a tool), then a response with the texts [closing] and no request. *)
Fixpoint answers (E : Env) (response : value) (b t : nat)
         (rounds : list (list str)) (closing : list str) : Prop :=
  match rounds with
  | [] =>
      exists content blocks,
        getitem response (lit "content") = Ok content /\
        iter content = Ok blocks /\
        plain_texts blocks = Some closing
  | texts :: rest =>
      exists content before request after name input id items shown response',
        getitem response (lit "content") = Ok content /\
        iter content = Ok (before ++ request :: after) /\
        plain_texts before = Some texts /\
        tool_request request = Some (name, input, id) /\
        cdk_call_tool E t name input = Ok items /\
        Cdk.tool_result_content items = Ok shown /\
        cdk_bedrock E b = Ok response' /\
        answers E response' (S b) (S t) rest closing
  end.

(** A response that asks for a tool: blocks that ask for none, then a
    well-formed request. *)
Definition asks_for_tool (response : value) (name input : value) : Prop :=
  exists content before request after texts id,
    getitem response (lit "content") = Ok content /\
    iter content = Ok (before ++ request :: after) /\
    plain_texts before = Some texts /\
    tool_request request = Some (name, input, id).

(** A backend that asks for a tool at every invocation, and tools that
    always answer. *)
Definition always_asks (E : Env) : Prop :=
  forall b, exists response name input,
    cdk_bedrock E b = Ok response /\
    asks_for_tool response name input /\
    forall t, exists items shown,
      cdk_call_tool E t name input = Ok items /\
      Cdk.tool_result_content items = Ok shown.

(** *** Provider *)

(** The text items of a tool result, in order. *)
Definition texts_of_items (items : list content_item) : list str :=
  flat_map (fun item => match item_text item with Some text => [text] | None => [] end)
           items.

(** What [list_vpcs] and [get_vswitches] return for an answer of the
    provider: what their loop ends with, or the text of the exception
    that left it, under [error]. *)
Definition last_decoded (B : Builtins) (items : list content_item) : value :=
  match Aliyun.decode_items B items (VDict []) with
  | Ok data => data
  | Raise e => VDict [(lit "error", VStr (exn_text e))]
  end.

(** What the loop makes of one text that decodes or is no JSON. *)
Definition decoded (B : Builtins) (text : str) : value :=
  match json_loads B text with
  | Parsed v => v
  | _ => VDict [(lit "raw_response", VStr text)]
  end.

(** [json.loads] raises nothing but [JSONDecodeError] on these texts. *)
Definition loads_or_not_json (B : Builtins) (texts : list str) : Prop :=
  forall text e, In text texts -> json_loads B text <> LoadsError e.

(** The error line of a loop over the items that an exception left. *)
Definition decoding_log (B : Builtins) (prefix : str) (items : list content_item)
  : list event :=
  match Aliyun.decode_items B items (VDict []) with
  | Ok _ => []
  | Raise e => [EvLogError (prefix ++ exn_text e)]
  end.

(** The shape [list_vpcs] and [get_vswitches] share: one call of a tool
    of the provider, the loop over the items of its answer, and a handler
    that logs the exception and returns its text under [error]. *)
Definition provider_query (E : Env) (tool : str) (args : value) (prefix : str)
  : M value :=
  try_except
    (mbind (with_session Alibaba "call_tool"
              (mbind (emit (EvProviderCall tool args))
                     (fun _ => lift (aliyun_call_tool E tool args))))
           (fun result => lift (Aliyun.decode_items (builtins E) result (VDict []))))
    (fun e =>
       mbind (log_error (prefix ++ exn_text e))
             (fun _ => ret (VDict [(lit "error", VStr (exn_text e))]))).

(** The exception of a call on a session that was never assigned. *)
Definition no_session : exn := no_attribute VNone "call_tool".

(** The tool and the arguments of [get_vswitches]. *)
Definition vswitches_tool : str := lit "VPC_DescribeVSwitches".

Definition vswitches_args (vpc_id region : str) : value :=
  VDict [(lit "VpcId", VStr vpc_id); (lit "RegionId", VStr region)].

(** The text holds ASCII only. *)
Definition is_ascii (s : str) : bool := forallb (fun c => (c <? 128)%N) s.

(** The text [get_vpc_info] decodes: every text of the answer, each
    followed by a newline. *)
Definition raw_response_of (items : list content_item) : str :=
  concat (map (fun text => text ++ [10%N]) (texts_of_items items)).

(** The arguments of [VPC_DescribeVpcs]: the id only when one is asked
    for. *)
Definition describe_args (vpc_id region : str) : value :=
  match vpc_id with
  | [] => VDict [(lit "RegionId", VStr region)]
  | _ => VDict [(lit "VpcId", VStr vpc_id); (lit "RegionId", VStr region)]
  end.

(** The text of the first block of a response of the model. *)
Definition first_text (response : value) : result value :=
  content <- getitem response (lit "content") ;;
  first <- getitem0 content ;;
  getitem first (lit "text").

(** The anchored pattern of a span from [opening] to [closing], the
    widest first: [brace_pattern] and [bracket_pattern] are two of them. *)
Definition span_pattern (opening closing : N) (s : str) : option str :=
  re_lit [opening]
    (re_greedy_any
       (fun group => re_lit [closing] (fun _ => Some ([opening] ++ group ++ [closing])))
       [])
    s.

(** The Alibaba client is there and has its session. *)
Definition provider_ready (w : World) : Prop :=
  aliyun_client w = Some {| session := true |}.

End Props.

(* ================================================================== *)
(** ** More concrete runs                                               *)
(* ================================================================== *)

Module Cases.

Import Workflow Scenario.

Definition with_connect (f : client_kind -> connect_outcome) (E : Env) : Env :=
  {| builtins := builtins E;
     boto3_client := boto3_client E;
     connect_result := f;
     aliyun_call_tool := aliyun_call_tool E;
     aliyun_bedrock := aliyun_bedrock E;
     llm_parse_timeout := llm_parse_timeout E;
     cdk_list_tools := cdk_list_tools E;
     cdk_call_tool := cdk_call_tool E;
     cdk_bedrock := cdk_bedrock E;
     subprocess_run := subprocess_run E;
     fs_mkdir := fs_mkdir E;
     fs_write := fs_write E;
     aclose := aclose E |}.

Definition with_boto3 (f : client_kind -> option exn) (E : Env) : Env :=
  {| builtins := builtins E;
     boto3_client := f;
     connect_result := connect_result E;
     aliyun_call_tool := aliyun_call_tool E;
     aliyun_bedrock := aliyun_bedrock E;
     llm_parse_timeout := llm_parse_timeout E;
     cdk_list_tools := cdk_list_tools E;
     cdk_call_tool := cdk_call_tool E;
     cdk_bedrock := cdk_bedrock E;
     subprocess_run := subprocess_run E;
     fs_mkdir := fs_mkdir E;
     fs_write := fs_write E;
     aclose := aclose E |}.

Definition with_llm (r : result value) (E : Env) : Env :=
  {| builtins := builtins E;
     boto3_client := boto3_client E;
     connect_result := connect_result E;
     aliyun_call_tool := aliyun_call_tool E;
     aliyun_bedrock := r;
     llm_parse_timeout := llm_parse_timeout E;
     cdk_list_tools := cdk_list_tools E;
     cdk_call_tool := cdk_call_tool E;
     cdk_bedrock := cdk_bedrock E;
     subprocess_run := subprocess_run E;
     fs_mkdir := fs_mkdir E;
     fs_write := fs_write E;
     aclose := aclose E |}.

(** The server of the code generator cannot be started. *)
Definition no_cdk_server : Env :=
  with_connect
    (fun k => match k with
              | CdkGen => FailedBeforeSession (Exn ExternalError (lit "uvx not found"))
              | Alibaba => Connected
              end) calm.

(** The Bedrock client cannot be made. *)
Definition no_credentials : Env :=
  with_boto3 (fun _ => Some (Exn ExternalError (lit "no region"))) calm.

(** The model asks for the same tool at every invocation. *)
Definition insistent : Env :=
  with_model (fun _ => Ok (reply [tool_use_block])) calm.

(** The model asks for a tool twice, then gives its code. *)
Definition two_rounds : Env :=
  with_model
    (fun rank =>
       match rank with
       | 0 => Ok (reply [text_block opening_words; tool_use_block])
       | 1 => Ok (reply [tool_use_block])
       | _ => Ok (reply [text_block fenced_answer])
       end) calm.

(** [cdk init] fails, everything else exits with 0. *)
Definition init_fails : Env :=
  with_toolchain
    (fun argv _ =>
       match argv with
       | [_; second; _; _; _] => if str_eqb second (lit "init") then Ok (exit_with 1)
                                 else Ok (exit_with 0)
       | _ => Ok (exit_with 0)
       end) calm.

(** [cdk] is not installed: [npm] runs, [cdk] cannot be started. *)
Definition no_cdk_binary : Env :=
  with_toolchain
    (fun argv _ =>
       match argv with
       | first :: _ =>
           if str_eqb first (lit "cdk")
           then Raise (Exn ExternalError (lit "[Errno 2] No such file or directory: 'cdk'"))
           else Ok (exit_with 0)
       | [] => Ok (exit_with 0)
       end) calm.

(** A workflow whose Alibaba client is connected. *)
Definition provider_connected : World :=
  {| aliyun_client := Some {| session := true |};
     cdk_generator := None;
     current_project_name := [];
     bedrock_calls := 0;
     tool_calls := 0;
     events := [EvConnect Alibaba] |}.

(** A listing in the format of the provider. *)
Definition vpc_b : list (str * value) :=
  [(lit "VpcId", VStr (lit "vpc-b")); (lit "VpcName", VStr (lit "prod-vpc"));
   (lit "VSwitchIds",
    VDict [(lit "VSwitchId", VList [VStr (lit "vsw-1"); VStr (lit "vsw-2")])])].

Definition two_vpcs : value :=
  VDict [(lit "Vpcs", VDict [(lit "Vpc", VList [VDict vpc_a; VDict vpc_b])])].

(** An integer of 4301 digits, one more than the interpreter converts. *)
Definition long_number : str := repeat 49%N 4301.

(** [calm] with a decoder that knows the limit on the digits of an
    integer, and a provider that answers with such a number. *)
Definition long_number_answer : Env :=
  {| builtins :=
       {| json_loads := fun text =>
            if str_eqb (json_trim text) long_number
            then LoadsError
                   (Exn ValueError
                        (lit "Exceeds the limit (4300 digits) for integer string conversion: value has 4301 digits; use sys.set_int_max_str_digits() to increase the limit"))
            else json_loads demo_builtins text;
          int_of_str := int_of_str demo_builtins;
          py_repr := py_repr demo_builtins |};
     boto3_client := boto3_client calm;
     connect_result := connect_result calm;
     aliyun_call_tool := fun _ _ =>
       Ok [{| item_type := lit "text"; item_text := Some long_number |}];
     aliyun_bedrock := aliyun_bedrock calm;
     llm_parse_timeout := llm_parse_timeout calm;
     cdk_list_tools := cdk_list_tools calm;
     cdk_call_tool := cdk_call_tool calm;
     cdk_bedrock := cdk_bedrock calm;
     subprocess_run := subprocess_run calm;
     fs_mkdir := fs_mkdir calm;
     fs_write := fs_write calm;
     aclose := aclose calm |}.

(** A response of the model that is cut before the fence is closed. *)
Definition cut_answer : str :=
  lit "Here is the stack:" ++ [10%N]
  ++ lit "```typescript" ++ [10%N]
  ++ lit "import * as cdk from 'aws-cdk-lib';" ++ [10%N]
  ++ lit "// This CDK code creates the VPC" ++ [10%N]
  ++ lit "export class DemoAppStack extends cdk.Stack {".

End Cases.

(* ================================================================== *)
(** ** Facts                                                            *)
(* ================================================================== *)

Unset Implicit Arguments.

Import Aliyun Cdk Transform Extract Workflow Spec Scenario.
Local Open Scope result_scope.

(** *** Python values *)

Section ValueFacts.

Lemma str_eqb_refl (s : str) : str_eqb s s = true.
Proof. induction s as [|c s IH]; simpl; [reflexivity|]. now rewrite N.eqb_refl. Qed.

Lemma str_eqb_eq (a b : str) : str_eqb a b = true <-> a = b.
Proof.
  split.
  - revert b. induction a as [|x a IH]; intros [|y b] H; simpl in H;
      try discriminate; auto.
    apply andb_true_iff in H as [Hx Hab]. apply N.eqb_eq in Hx. f_equal; auto.
  - intros ->. apply str_eqb_refl.
Qed.

Lemma rbind_ok {A C} (r : result A) (k : A -> result C) (c : C) :
  rbind r k = Ok c -> exists a, r = Ok a /\ k a = Ok c.
Proof. destruct r as [a|e]; simpl; intros H; [eauto | discriminate]. Qed.

Lemma get_dict d k : get (VDict d) k = Ok (field d k).
Proof. reflexivity. Qed.

Lemma or_else_pick d k1 k2 default :
  or_else (field d k1) (or_else (field d k2) (Ok default))
  = Ok (pick d k1 k2 default).
Proof.
  unfold or_else, pick.
  destruct (truthy (field d k1)); [reflexivity|].
  destruct (truthy (field d k2)); reflexivity.
Qed.

Lemma for_each_Forall2 {A C} (f : A -> result C) l ys :
  for_each f l = Ok ys -> Forall2 (fun x y => f x = Ok y) l ys.
Proof.
  revert ys. induction l as [|x l IH]; intros ys H; cbn [for_each] in H.
  - injection H as <-. constructor.
  - apply rbind_ok in H as (y & Hy & H). apply rbind_ok in H as (ys' & Hys & H).
    injection H as <-. constructor; auto.
Qed.

Lemma replace_dash_v_ok v w :
  replace_dash_v v = Ok w -> exists s, v = VStr s /\ w = VStr (replace_dash s).
Proof. destruct v; simpl; intros H; try discriminate. injection H as <-. eauto. Qed.

Lemma replace_dash_unchanged s : ~ In 45%N s -> replace_dash s = s.
Proof.
  induction s as [|c s IH]; simpl; intros H; [reflexivity|].
  destruct (N.eqb_spec c 45) as [->|Hc]; [exfalso; auto|].
  f_equal. apply IH. tauto.
Qed.

End ValueFacts.

Ltac inv_bind H :=
  let a := fresh "x" in
  let Ha := fresh "Hx" in
  apply rbind_ok in H as (a & Ha & H).

Ltac get_dicts :=
  repeat match goal with
         | |- context [get (VDict ?d) ?k] => rewrite (get_dict d k)
         end.

(** *** The normalizer *)

Section NormalizerFacts.

Lemma mock_has_sequences vpc_id region :
  has_sequences (_get_mock_vpc_data vpc_id region).
Proof. unfold has_sequences, _get_mock_vpc_data. do 2 eexists. split; reflexivity. Qed.

Lemma convert_entry_shape target vpc_id region c :
  convert_entry target vpc_id region = Ok c ->
  exists v_id v_name v_cidr v_status vswitches,
    convert_vswitches region target = Ok vswitches /\
    c = VDict [ (lit "vpc_id", v_id); (lit "vpc_name", v_name);
                (lit "cidr_block", v_cidr); (lit "region", VStr region);
                (lit "status", v_status); (lit "vswitches", VList vswitches);
                (lit "security_groups", default_security_groups vpc_id) ].
Proof.
  unfold convert_entry. intros H.
  repeat inv_bind H.
  injection H as <-. eauto 10.
Qed.

Lemma convert_has_sequences data vpc_id region :
  has_sequences (_convert_alibaba_vpc_format data vpc_id region).
Proof.
  unfold _convert_alibaba_vpc_format.
  destruct (convert_body data vpc_id region) as [c|e] eqn:Hb;
    [|apply mock_has_sequences].
  unfold convert_body in Hb. inv_bind Hb.
  destruct (negb (truthy x)).
  - injection Hb as <-. apply mock_has_sequences.
  - inv_bind Hb. apply convert_entry_shape in Hb as (a & b & c0 & d & vs & _ & ->).
    exists vs. eexists. split; reflexivity.
Qed.

Lemma convert_groups_filled data vpc_id region :
  exists group groups,
    getitem (_convert_alibaba_vpc_format data vpc_id region) (lit "security_groups")
    = Ok (VList (group :: groups)).
Proof.
  unfold _convert_alibaba_vpc_format.
  destruct (convert_body data vpc_id region) as [c|e] eqn:Hb;
    [|do 2 eexists; reflexivity].
  unfold convert_body in Hb. inv_bind Hb.
  destruct (negb (truthy x)).
  - injection Hb as <-. do 2 eexists. reflexivity.
  - inv_bind Hb. apply convert_entry_shape in Hb as (a & b & c0 & d & vs & _ & ->).
    do 2 eexists. reflexivity.
Qed.

Lemma convert_nothing_found data vpc_id region vpcs :
  unwrap_vpcs data = Ok vpcs ->
  truthy vpcs = false ->
  _convert_alibaba_vpc_format data vpc_id region = _get_mock_vpc_data vpc_id region.
Proof.
  intros Hu Ht. unfold _convert_alibaba_vpc_format, convert_body.
  rewrite Hu. cbn [rbind]. rewrite Ht. reflexivity.
Qed.

Lemma find_vpc_none vpc_id entries :
  forallb (is_other_vpc vpc_id) entries = true ->
  find_vpc vpc_id entries = Ok None.
Proof.
  induction entries as [|e rest IH]; intros H; [reflexivity|].
  cbn [forallb] in H. apply andb_true_iff in H as [He Hr].
  destruct e as [| | | | |l|d]; cbn [is_other_vpc] in He; try discriminate.
  apply andb_true_iff in He as [H1 H2].
  apply negb_true_iff in H1, H2.
  cbn [find_vpc]. get_dicts. cbn [rbind]. rewrite H1, H2. auto.
Qed.

Lemma convert_entry_dict d vpc_id region vswitches :
  convert_vswitches region (VDict d) = Ok vswitches ->
  convert_entry (VDict d) vpc_id region = Ok (built_from d vpc_id region vswitches).
Proof.
  intros Hv. unfold convert_entry. get_dicts. cbn [rbind].
  rewrite !or_else_pick. cbn [rbind]. rewrite Hv. reflexivity.
Qed.

Lemma convert_vswitches_absent d region :
  lookup (lit "VSwitchIds") d = None ->
  convert_vswitches region (VDict d) = Ok [].
Proof. intros H. unfold convert_vswitches. cbn [contains]. now rewrite H. Qed.

Lemma select_first d rest vpc_id :
  forallb (is_other_vpc vpc_id) (VDict d :: rest) = true ->
  select_vpc (VList (VDict d :: rest)) vpc_id = Ok (VDict d).
Proof.
  intros H. unfold select_vpc. cbn [getitem0 rbind iter].
  rewrite (find_vpc_none _ _ H). cbn [rbind].
  destruct (truthy (VStr vpc_id)); reflexivity.
Qed.

Lemma first_entry_is_converted alibaba_data vpc_id region d rest vswitches :
  unwrap_vpcs alibaba_data = Ok (VList (VDict d :: rest)) ->
  forallb (is_other_vpc vpc_id) (VDict d :: rest) = true ->
  convert_vswitches region (VDict d) = Ok vswitches ->
  _convert_alibaba_vpc_format alibaba_data vpc_id region
  = built_from d vpc_id region vswitches.
Proof.
  intros Hu Hno Hv.
  unfold _convert_alibaba_vpc_format, convert_body.
  rewrite Hu. cbn [rbind truthy negb].
  rewrite (select_first _ _ _ Hno). cbn [rbind].
  rewrite (convert_entry_dict _ vpc_id _ _ Hv). reflexivity.
Qed.

Lemma requested_id_only_as_fallback d rest vpc_id :
  forallb (is_other_vpc vpc_id) (VDict d :: rest) = true ->
  pick d (lit "VpcId") (lit "vpc_id") (VStr vpc_id) = VStr vpc_id ->
  truthy (field d (lit "VpcId")) = false /\
  truthy (field d (lit "vpc_id")) = false.
Proof.
  intros Hno. cbn [forallb is_other_vpc] in Hno.
  apply andb_true_iff in Hno as [Hno _].
  apply andb_true_iff in Hno as [H1 H2].
  apply negb_true_iff in H1, H2.
  unfold pick. intros Hp.
  destruct (truthy (field d (lit "VpcId"))) eqn:T1.
  - rewrite Hp in H1. cbn [eq_str] in H1. now rewrite str_eqb_refl in H1.
  - destruct (truthy (field d (lit "vpc_id"))) eqn:T2; [|auto].
    rewrite Hp in H2. cbn [eq_str] in H2. now rewrite str_eqb_refl in H2.
Qed.

Lemma absent_vswitches_are_empty alibaba_data vpc_id region vpcs d :
  unwrap_vpcs alibaba_data = Ok vpcs ->
  truthy vpcs = true ->
  select_vpc vpcs vpc_id = Ok (VDict d) ->
  lookup (lit "VSwitchIds") d = None ->
  getitem (_convert_alibaba_vpc_format alibaba_data vpc_id region) (lit "vswitches")
  = Ok (VList []).
Proof.
  intros Hu Ht Hs Hl.
  unfold _convert_alibaba_vpc_format, convert_body.
  rewrite Hu. cbn [rbind]. rewrite Ht. cbn [negb]. rewrite Hs. cbn [rbind].
  rewrite (convert_entry_dict d vpc_id region [] (convert_vswitches_absent d region Hl)).
  reflexivity.
Qed.

End NormalizerFacts.

(** *** The transformer *)

Section TransformFacts.

Lemma transform_vswitch_spec vswitch subnet :
  transform_vswitch vswitch = Ok subnet -> subnet_of vswitch subnet.
Proof.
  unfold transform_vswitch. intros H.
  inv_bind H. inv_bind H. inv_bind H. inv_bind H. inv_bind H.
  injection H as <-.
  apply replace_dash_v_ok in Hx0 as (s & -> & ->).
  exists s. repeat split; auto.
  intros Hs. rewrite Hx. cbn. now rewrite (replace_dash_unchanged s Hs).
Qed.

Lemma subnets_of_vswitches (B : Builtins) (alibaba_data transformed : value) :
  transform_body B alibaba_data = Ok transformed ->
  exists vswitches subnets,
    (v <- getitem alibaba_data (lit "vswitches") ;; iter v) = Ok vswitches /\
    getitem transformed (lit "subnets") = Ok (VList subnets) /\
    Forall2 subnet_of vswitches subnets.
Proof.
  unfold transform_body. intros H.
  inv_bind H. inv_bind H. inv_bind H. inv_bind H. inv_bind H. inv_bind H.
  inv_bind H. inv_bind H. inv_bind H. injection H as <-.
  exists x3, x4. split; [|split].
  - rewrite Hx2. exact Hx3.
  - reflexivity.
  - apply for_each_Forall2 in Hx4.
    eapply Forall2_impl; [|exact Hx4]. intros a b. apply transform_vswitch_spec.
Qed.

End TransformFacts.

(** *** The matcher and the fenced block *)

Section StringFacts.

Lemma is_prefix_app p r : is_prefix p (p ++ r) = true.
Proof. induction p as [|c p IH]; simpl; [reflexivity|]. now rewrite N.eqb_refl. Qed.

Lemma is_prefix_true p s : is_prefix p s = true -> s = p ++ skipn (length p) s.
Proof.
  revert s. induction p as [|c p IH]; intros s H; [reflexivity|].
  destruct s as [|d s]; simpl in H; [discriminate|].
  apply andb_true_iff in H as [Hc Hp]. apply N.eqb_eq in Hc. subst d.
  simpl. f_equal. auto.
Qed.

Lemma skipn_prefix (p r : str) : skipn (length p) (p ++ r) = r.
Proof. induction p; simpl; auto. Qed.

Lemma lstrip_app a b :
  lstrip (a ++ b) = if forallb is_space a then lstrip b else lstrip a ++ b.
Proof.
  induction a as [|c a IH]; simpl; [reflexivity|].
  destruct (is_space c); simpl; [exact IH | reflexivity].
Qed.

Lemma lstrip_all_space a : forallb is_space a = true -> lstrip a = [].
Proof.
  induction a as [|c a IH]; simpl; [reflexivity|].
  destruct (is_space c); simpl; [exact IH | discriminate].
Qed.

Lemma lstrip_nonspace c s : is_space c = false -> lstrip (c :: s) = c :: s.
Proof. simpl. now intros ->. Qed.

Lemma lstrip_head s :
  lstrip s = [] \/ exists c s', lstrip s = c :: s' /\ is_space c = false.
Proof.
  induction s as [|c s IH]; [now left|].
  cbn [lstrip]. destruct (is_space c) eqn:Hc; [exact IH|].
  right. eauto.
Qed.

Lemma lstrip_idempotent s : lstrip (lstrip s) = lstrip s.
Proof.
  destruct (lstrip_head s) as [-> | (c & s' & -> & Hc)]; [reflexivity|].
  now apply lstrip_nonspace.
Qed.

Lemma lstrip_split s : exists ws, s = ws ++ lstrip s /\ forallb is_space ws = true.
Proof.
  induction s as [|c s (ws & IH & Hws)]; [exists []; auto|].
  cbn [lstrip]. destruct (is_space c) eqn:Hc.
  - exists (c :: ws). cbn. rewrite Hc, Hws. split; [now f_equal | reflexivity].
  - exists []. auto.
Qed.

Lemma forallb_rev {A} (f : A -> bool) l : forallb f (rev l) = forallb f l.
Proof.
  induction l as [|x l IH]; simpl; [reflexivity|].
  rewrite forallb_app, IH. simpl. rewrite andb_true_r. apply andb_comm.
Qed.

Lemma rstrip_cons c s :
  rstrip (c :: s) = if forallb is_space (c :: s) then [] else c :: rstrip s.
Proof.
  unfold rstrip. simpl rev. rewrite lstrip_app, forallb_rev.
  cbn [forallb].
  destruct (forallb is_space s) eqn:Hs.
  - rewrite andb_true_r. cbn [lstrip].
    destruct (is_space c); [reflexivity|].
    rewrite lstrip_all_space by (now rewrite forallb_rev). reflexivity.
  - rewrite andb_false_r. rewrite rev_app_distr. reflexivity.
Qed.

Lemma rstrip_all_space s : forallb is_space s = true -> rstrip s = [].
Proof.
  intros H. unfold rstrip. rewrite lstrip_all_space; [reflexivity|].
  now rewrite forallb_rev.
Qed.

Lemma strip_idempotent s : strip (strip s) = strip s.
Proof.
  unfold strip.
  assert (Hl : lstrip (rstrip (lstrip s)) = rstrip (lstrip s)).
  { destruct (lstrip_head s) as [-> | (c & s' & -> & Hc)]; [reflexivity|].
    rewrite rstrip_cons. cbn [forallb]. rewrite Hc. cbn [andb].
    now apply lstrip_nonspace. }
  rewrite Hl. unfold rstrip at 1 2. rewrite rev_involutive.
  now rewrite lstrip_idempotent.
Qed.

End StringFacts.

Section MatcherFacts.
Variable R : Type.

Lemma re_lit_app p (k : str -> option R) r : re_lit p k (p ++ r) = k r.
Proof. unfold re_lit. now rewrite is_prefix_app, skipn_prefix. Qed.

Lemma re_spaces_lstrip (k : str -> option R) s r :
  k (lstrip s) = Some r -> re_spaces k s = Some r.
Proof.
  induction s as [|c s IH]; simpl; [auto|].
  destruct (is_space c); [|auto]. intros H. now rewrite (IH H).
Qed.

Lemma re_spaces_sound (k : str -> option R) s r :
  re_spaces k s = Some r ->
  exists ws u, s = ws ++ u /\ forallb is_space ws = true /\ k u = Some r.
Proof.
  induction s as [|c s IH]; simpl; intros H.
  - exists [], []. auto.
  - destruct (is_space c) eqn:Hc.
    + destruct (re_spaces k s) as [r'|] eqn:Hs.
      * injection H as ->. destruct (IH eq_refl) as (ws & u & -> & Hws & Hk).
        exists (c :: ws), u. simpl. rewrite Hc. auto.
      * exists [], (c :: s). auto.
    + exists [], (c :: s). auto.
Qed.

(** Before a literal that starts with a non-blank, the greedy blanks take
    all there is and never give one back. *)
Lemma re_spaces_lit c p (k : str -> option R) s :
  is_space c = false ->
  re_spaces (re_lit (c :: p) k) s = re_lit (c :: p) k (lstrip s).
Proof.
  intros Hc. induction s as [|d s IH]; simpl; [reflexivity|].
  destruct (is_space d) eqn:Hd; [|reflexivity].
  rewrite IH. destruct (re_lit (c :: p) k (lstrip s)) eqn:Hl; [reflexivity|].
  unfold re_lit. simpl. destruct (N.eqb_spec c d) as [->|]; [|reflexivity].
  rewrite Hc in Hd. discriminate.
Qed.

Lemma re_lazy_any_unfold (k : str -> str -> option R) g s :
  re_lazy_any k g s =
  match k g s with
  | Some r => Some r
  | None => match s with
            | c :: s' => re_lazy_any k (g ++ [c]) s'
            | [] => None
            end
  end.
Proof. destruct s; reflexivity. Qed.

Lemma re_lazy_any_sound (k : str -> str -> option R) g s r :
  re_lazy_any k g s = Some r ->
  exists a u, s = a ++ u /\ k (g ++ a) u = Some r.
Proof.
  revert g. induction s as [|c s IH]; intros g; simpl.
  - destruct (k g []) eqn:Hk; [|discriminate]. intros H. injection H as ->.
    exists [], []. split; [reflexivity | now rewrite app_nil_r].
  - destruct (k g (c :: s)) eqn:Hk.
    + intros H. injection H as ->. exists [], (c :: s).
      split; [reflexivity | now rewrite app_nil_r].
    + intros H. destruct (IH _ H) as (a & u & -> & Hu).
      exists (c :: a), u. split; [reflexivity|]. now rewrite <- app_assoc in Hu.
Qed.

Lemma search_unfold (pattern : str -> option R) s :
  search pattern s =
  match pattern s with
  | Some r => Some r
  | None => match s with
            | [] => None
            | _ :: s' => search pattern s'
            end
  end.
Proof. destruct s; reflexivity. Qed.

End MatcherFacts.

Section FencedBlockFacts.

Lemma split_at_first_unfold p s :
  split_at_first p s =
  if is_prefix p s then Some ([], skipn (length p) s)
  else match s with
       | [] => None
       | c :: s' =>
           match split_at_first p s' with
           | Some (before, after) => Some (c :: before, after)
           | None => None
           end
       end.
Proof. destruct s; reflexivity. Qed.

Lemma split_at_first_app p s before after :
  split_at_first p s = Some (before, after) -> s = before ++ p ++ after.
Proof.
  revert before. induction s as [|c s IH]; intros before; simpl.
  - destruct (is_prefix p []) eqn:Hp; [|discriminate].
    intros H. injection H as <- <-. now apply is_prefix_true in Hp.
  - destruct (is_prefix p (c :: s)) eqn:Hp.
    + intros H. injection H as <- <-. now apply is_prefix_true in Hp.
    + destruct (split_at_first p s) as [[b a]|]; [|discriminate].
      intros H. injection H as <- <-. simpl. f_equal. now apply IH.
Qed.

Lemma split_at_first_cons p c b rest after :
  split_at_first p (c :: rest) = Some (c :: b, after) ->
  is_prefix p (c :: rest) = false /\ split_at_first p rest = Some (b, after).
Proof.
  simpl. destruct (is_prefix p (c :: rest)); [discriminate|].
  destruct (split_at_first p rest) as [[b' a']|]; [|discriminate].
  intros H. injection H as <- <-. auto.
Qed.

Lemma split_at_first_here p s :
  is_prefix p s = true -> split_at_first p s = Some ([], skipn (length p) s).
Proof. destruct s; simpl; now intros ->. Qed.

Lemma split_at_first_occurs p a b : split_at_first p (a ++ p ++ b) <> None.
Proof.
  induction a as [|c a IH]; simpl.
  - rewrite split_at_first_here by apply is_prefix_app. discriminate.
  - destruct (is_prefix p (c :: a ++ p ++ b)); [discriminate|].
    destruct (split_at_first p (a ++ p ++ b)) as [[? ?]|];
      [discriminate|contradiction].
Qed.

Lemma split_at_first_suffix p ws b after :
  split_at_first p (ws ++ b ++ p ++ after) = Some (ws ++ b, after) ->
  split_at_first p (b ++ p ++ after) = Some (b, after).
Proof.
  induction ws as [|c ws IH]; [auto|].
  cbn [app]. intros H. apply split_at_first_cons in H as [_ H]. auto.
Qed.

Lemma split_at_first_none_suffix p a t :
  split_at_first p (a ++ t) = None -> split_at_first p t = None.
Proof.
  induction a as [|c a IH]; [auto|]. cbn [app]. simpl.
  destruct (is_prefix p (c :: a ++ t)); [discriminate|].
  destruct (split_at_first p (a ++ t)) as [[? ?]|]; [discriminate|auto].
Qed.

Lemma fence_tail_eq group u :
  fence_tail group u = re_lit fence (fun rest => Some (group, rest)) (lstrip u).
Proof. unfold fence_tail, fence. apply re_spaces_lit. reflexivity. Qed.

Lemma lstrip_fence post : lstrip (fence ++ post) = fence ++ post.
Proof. reflexivity. Qed.

(** As long as the body before the first fence is not blank, the fence is
    not what follows the blanks. *)
Lemma no_fence_after_blanks b post :
  split_at_first fence (b ++ fence ++ post) = Some (b, post) ->
  forallb is_space b = false ->
  is_prefix fence (lstrip (b ++ fence ++ post)) = false.
Proof.
  induction b as [|c b IH]; intros Hs Hb; [discriminate|].
  simpl app in Hs. apply split_at_first_cons in Hs as [Hp Hs].
  simpl in Hb. simpl app. simpl lstrip.
  destruct (is_space c); simpl in Hb; [auto | exact Hp].
Qed.

(** The lazy group stops where the body, trimmed on the right, ends. *)
Lemma lazy_scan b : forall g post,
  split_at_first fence (b ++ fence ++ post) = Some (b, post) ->
  re_lazy_any fence_tail g (b ++ fence ++ post) = Some (g ++ rstrip b, post).
Proof.
  induction b as [|c b IH]; intros g post Hs.
  - rewrite re_lazy_any_unfold, fence_tail_eq. cbn [app].
    rewrite lstrip_fence, re_lit_app. now rewrite app_nil_r.
  - destruct (forallb is_space (c :: b)) eqn:Hb.
    + rewrite rstrip_all_space by exact Hb. rewrite app_nil_r.
      rewrite re_lazy_any_unfold, fence_tail_eq.
      rewrite lstrip_app, Hb, lstrip_fence, re_lit_app. reflexivity.
    + pose proof (no_fence_after_blanks _ _ Hs Hb) as Hn.
      rewrite re_lazy_any_unfold, fence_tail_eq. unfold re_lit at 1. rewrite Hn.
      cbn [app] in Hs |- *. apply split_at_first_cons in Hs as [Hp Hs].
      rewrite (IH _ _ Hs). rewrite rstrip_cons, Hb. now rewrite <- app_assoc.
Qed.

Lemma code_block_pattern_eq s :
  code_block_pattern s = re_lit open_tag after_tag s.
Proof. reflexivity. Qed.

Lemma after_tag_found t body post :
  split_at_first fence t = Some (body, post) ->
  after_tag t = Some (strip body, post).
Proof.
  intros Hs. unfold after_tag. apply re_spaces_lstrip.
  pose proof (split_at_first_app _ _ _ _ Hs) as ->.
  destruct (lstrip_split body) as (ws & Hb & Hws).
  assert (Hl : lstrip (body ++ fence ++ post) = lstrip body ++ fence ++ post).
  { rewrite lstrip_app. destruct (forallb is_space body) eqn:Ha; [|reflexivity].
    now rewrite (lstrip_all_space body Ha), lstrip_fence. }
  rewrite Hl. rewrite Hb in Hs. rewrite <- app_assoc in Hs.
  apply split_at_first_suffix in Hs.
  rewrite (lazy_scan _ _ _ Hs). reflexivity.
Qed.

Lemma after_tag_sound t group rest :
  after_tag t = Some (group, rest) -> exists a, t = a ++ fence ++ rest.
Proof.
  unfold after_tag. intros H.
  apply re_spaces_sound in H as (ws & u & -> & _ & H).
  apply re_lazy_any_sound in H as (a & u' & -> & H).
  unfold fence_tail in H. apply re_spaces_sound in H as (ws' & v & -> & _ & H).
  unfold re_lit in H. destruct (is_prefix fence v) eqn:Hp; [|discriminate].
  injection H as _ <-. apply is_prefix_true in Hp.
  exists (ws ++ a ++ ws'). rewrite Hp at 1. now rewrite <- !app_assoc.
Qed.

Lemma after_tag_none t :
  split_at_first fence t = None -> after_tag t = None.
Proof.
  intros Hs. destruct (after_tag t) as [[g r]|] eqn:H; [|reflexivity].
  apply after_tag_sound in H as (a & ->).
  now apply split_at_first_occurs in Hs.
Qed.

(** [re.search] with the pattern of the code finds the first fenced block
    of the specification, trimmed. *)
Lemma search_code_block s :
  search code_block_pattern s = first_block_match s.
Proof.
  induction s as [|c s IH].
  - reflexivity.
  - rewrite search_unfold. unfold first_block_match.
    rewrite split_at_first_unfold. rewrite code_block_pattern_eq.
    unfold re_lit at 1.
    destruct (is_prefix open_tag (c :: s)) eqn:Hp.
    + destruct (split_at_first fence (skipn (length open_tag) (c :: s)))
        as [[body post]|] eqn:Hf.
      * now rewrite (after_tag_found _ _ _ Hf).
      * rewrite (after_tag_none _ Hf). rewrite IH. unfold first_block_match.
        destruct (split_at_first open_tag s) as [[pre' rest']|] eqn:Hs;
          [|reflexivity].
        enough (Hn : split_at_first fence rest' = None) by now rewrite Hn.
        apply split_at_first_app in Hs. apply is_prefix_true in Hp.
        remember (skipn (length open_tag) (c :: s)) as rest eqn:Hr. clear Hr.
        apply (f_equal (@tl N)) in Hp. cbn [tl] in Hp.
        change (tl (open_tag ++ rest)) with (tl open_tag ++ rest) in Hp.
        rewrite Hs in Hp. rewrite app_assoc in Hp.
        apply app_eq_app in Hp as (l & [(Hl & Hrest) | (Hl & Hrest)]).
        -- rewrite Hrest in Hf. now apply split_at_first_none_suffix in Hf.
        -- apply (f_equal (@length N)) in Hl.
           rewrite !length_app in Hl.
           change (length (tl open_tag)) with 12 in Hl.
           change (length open_tag) with 13 in Hl. lia.
    + destruct (split_at_first open_tag s) as [[pre' rest']|] eqn:Hs;
        rewrite IH; unfold first_block_match; rewrite Hs; reflexivity.
Qed.

Lemma findall_head n : forall s,
  length s < n ->
  hd_error (findall_steps n s) = option_map fst (search code_block_pattern s).
Proof.
  induction n as [|n IH]; intros s Hn; [lia|].
  rewrite search_unfold. cbn [findall_steps].
  destruct (code_block_pattern s) as [[group rest]|]; [reflexivity|].
  destruct s as [|c s]; [reflexivity|].
  apply IH. simpl in Hn. lia.
Qed.

(** The first item of [re.findall] is the first fenced block, trimmed;
    there is none exactly when the text has no fenced block. *)
Lemma findall_first response :
  hd_error (findall response) = option_map strip (first_fenced_block response).
Proof.
  unfold findall. rewrite findall_head by lia.
  rewrite search_code_block. unfold first_block_match, first_fenced_block.
  destruct (split_at_first open_tag response) as [[pre rest]|]; [|reflexivity].
  destruct (split_at_first fence rest) as [[body post]|]; reflexivity.
Qed.

Lemma extract_fenced response body :
  first_fenced_block response = Some body ->
  _extract_typescript_code response = strip body.
Proof.
  intros H. pose proof (findall_first response) as Hf. rewrite H in Hf.
  unfold _extract_typescript_code.
  destruct (findall response) as [|first rest]; [discriminate|].
  cbn in Hf. injection Hf as ->. apply strip_idempotent.
Qed.

Lemma scan_lines_none lines :
  forallb (fun line => negb (starts_code line)) lines = true ->
  scan_lines false lines = [].
Proof.
  induction lines as [|line rest IH]; [reflexivity|].
  cbn [forallb scan_lines]. intros H. apply andb_true_iff in H as [Hl Hr].
  apply negb_true_iff in Hl. rewrite Hl. auto.
Qed.

Lemma extract_empty response :
  first_fenced_block response = None ->
  no_code_line response = true ->
  _extract_typescript_code response = [].
Proof.
  intros H Hl. pose proof (findall_first response) as Hf. rewrite H in Hf.
  unfold _extract_typescript_code.
  destruct (findall response) as [|first rest]; [|discriminate].
  now rewrite (scan_lines_none _ Hl).
Qed.

End FencedBlockFacts.

(** *** Computations *)

Section MonadFacts.

Lemma mbind_ok {A C} (m : M A) (k : A -> M C) w a w' :
  m w = Some (Ok a, w') -> mbind m k w = k a w'.
Proof. unfold mbind. now intros ->. Qed.

Lemma mbind_raise {A C} (m : M A) (k : A -> M C) w e w' :
  m w = Some (Raise e, w') -> mbind m k w = Some (Raise e, w').
Proof. unfold mbind. now intros ->. Qed.

Lemma mbind_lift {A C} (r : result A) (k : A -> M C) w :
  mbind (lift r) k w
  = match r with Ok a => k a w | Raise e => Some (Raise e, w) end.
Proof. destruct r; reflexivity. Qed.

Lemma try_except_ok {A} (m : M A) h w a w' :
  m w = Some (Ok a, w') -> try_except m h w = Some (Ok a, w').
Proof. unfold try_except. now intros ->. Qed.

Lemma try_except_raise {A} (m : M A) h w e w' :
  m w = Some (Raise e, w') -> try_except m h w = h e w'.
Proof. unfold try_except. now intros ->. Qed.

Lemma with_session_cases {A} k method (call : M A) w :
  with_session k method call w = call w \/
  with_session k method call w = Some (Raise (no_attribute VNone method), w).
Proof.
  unfold with_session, mbind, get_world.
  destruct (holder k w) as [[[|]]|]; auto.
Qed.

End MonadFacts.

Ltac run_m :=
  unfold try_except, mbind, run_process, mkdir, write_file, log_error, emit,
    lift, ret, raise, check, get_world, set_holder, set_current_project_name,
    next_bedrock_rank, next_tool_rank.

(** *** Releasing the sessions *)

Section CleanupFacts.

Lemma cleanup_if_held_run E k w :
  exists w',
    cleanup_if_held E k w = Some (Ok tt, w') /\
    events w' = events w ++ release_trace E k w /\
    aliyun_client w' = aliyun_client w /\
    cdk_generator w' = cdk_generator w.
Proof.
  unfold cleanup_if_held, release_trace, mbind, get_world.
  destruct (holder k w) as [c|]; cbn.
  - unfold Sys.cleanup, try_except, mbind, emit, check.
    destruct (aclose E k) as [e|]; cbn.
    + eexists. split; [reflexivity|]. cbn. rewrite <- app_assoc. auto.
    + eexists. split; [reflexivity|]. cbn. auto.
  - eexists. split; [reflexivity|]. rewrite app_nil_r. auto.
Qed.

Lemma release_trace_same_holders E k w w' :
  aliyun_client w' = aliyun_client w ->
  cdk_generator w' = cdk_generator w ->
  release_trace E k w' = release_trace E k w.
Proof.
  intros Ha Hc. unfold release_trace, holder. destruct k; now rewrite ?Ha, ?Hc.
Qed.

(** Whatever the workflow did and however it ended, [run_migration] ends
    the same way, after having released what the workflow holds. *)
Lemma run_migration_with_releases
  (E : Env) (workflow : MigrationState -> M MigrationState)
  (cfg : source_config) (name dir : str)
  (w w1 : World) (r1 : result MigrationState) :
  workflow (initial_state cfg name dir) w = Some (r1, w1) ->
  exists w',
    run_migration_with E workflow cfg name dir w = Some (r1, w') /\
    events w' = events w1 ++ failure_log r1
                  ++ release_trace E CdkGen w1 ++ release_trace E Alibaba w1.
Proof.
  intros Hw. unfold run_migration_with.
  destruct r1 as [final_state | e].
  - destruct (cleanup_if_held_run E CdkGen w1) as (w2 & Hr2 & Hev2 & Ha2 & Hc2).
    destruct (cleanup_if_held_run E Alibaba w2) as (w3 & Hr3 & Hev3 & Ha3 & Hc3).
    exists w3. split.
    + apply try_except_ok.
      rewrite (mbind_ok _ _ _ _ _ Hw), (mbind_ok _ _ _ _ _ Hr2),
        (mbind_ok _ _ _ _ _ Hr3).
      reflexivity.
    + rewrite Hev3, Hev2, (release_trace_same_holders E Alibaba w1 w2 Ha2 Hc2).
      cbn [failure_log app]. now rewrite <- app_assoc.
  - rewrite (try_except_raise _ _ _ _ _ (mbind_raise _ _ _ _ _ Hw)).
    set (w1' := {| aliyun_client := aliyun_client w1;
                   cdk_generator := cdk_generator w1;
                   current_project_name := current_project_name w1;
                   bedrock_calls := bedrock_calls w1;
                   tool_calls := tool_calls w1;
                   events := events w1 ++ failure_log (@Raise MigrationState e) |}).
    assert (Hlog : log_error (lit "Workflow execution failed: " ++ exn_text e) w1
                   = Some (Ok tt, w1')) by reflexivity.
    destruct (cleanup_if_held_run E CdkGen w1') as (w2 & Hr2 & Hev2 & Ha2 & Hc2).
    destruct (cleanup_if_held_run E Alibaba w2) as (w3 & Hr3 & Hev3 & Ha3 & Hc3).
    exists w3. split.
    + rewrite (mbind_ok _ _ _ _ _ Hlog), (mbind_ok _ _ _ _ _ Hr2),
        (mbind_ok _ _ _ _ _ Hr3).
      reflexivity.
    + rewrite Hev3, Hev2.
      rewrite (release_trace_same_holders E Alibaba w1' w2 Ha2 Hc2).
      rewrite (release_trace_same_holders E CdkGen w1 w1' eq_refl eq_refl).
      rewrite (release_trace_same_holders E Alibaba w1 w1' eq_refl eq_refl).
      cbn [events w1']. now rewrite <- !app_assoc.
Qed.

Lemma tracked_sessions_are_released E w1 :
  sessions_tracked w1 ->
  forall k, In (EvConnect k) (events w1) ->
            In (EvAclose k) (release_trace E CdkGen w1 ++ release_trace E Alibaba w1).
Proof.
  intros Ht k Hk. specialize (Ht k Hk). apply in_or_app.
  unfold release_trace. destruct k; [right | left];
    (destruct (holder _ w1); [now left | contradiction]).
Qed.

End CleanupFacts.

(** *** The deploy stage *)

Section DeployFacts.

Lemma deploy_outcomes (E : Env) (state : MigrationState) (w : World)
  (p1 p2 p3 : completed_process) :
  subprocess_run E npm_install (project_dir state) = Ok p1 ->
  subprocess_run E cdk_bootstrap (project_dir state) = Ok p2 ->
  subprocess_run E cdk_deploy (project_dir state) = Ok p3 ->
  exists state' w',
    deploy_to_aws E state w = Some (Ok state', w') /\
    (returncode p1 = 0%Z /\ returncode p3 = 0%Z ->
       status state' = lit "completed" /\
       getitem (deployment_result state') (lit "status") = Ok (VStr (lit "deployed")) /\
       events w' = events w ++ [EvSubprocess npm_install (project_dir state);
                                EvSubprocess cdk_bootstrap (project_dir state);
                                EvSubprocess cdk_deploy (project_dir state)]) /\
    (returncode p1 <> 0%Z \/ returncode p3 <> 0%Z ->
       status state' = lit "error" /\
       deployment_result state' = deployment_result state).
Proof.
  intros H1 H2 H3. unfold deploy_to_aws. fold (project_dir state).
  fold npm_install cdk_bootstrap cdk_deploy.
  run_m. cbn. rewrite H1.
  destruct (Z.eqb_spec (returncode p1) 0) as [Hz1 | Hz1]; cbn.
  - rewrite H2. cbn. rewrite H3.
    destruct (Z.eqb_spec (returncode p3) 0) as [Hz3 | Hz3]; cbn.
    + do 2 eexists. split; [reflexivity|]. split.
      * intros _. cbn. repeat split. now rewrite <- !app_assoc.
      * intros [H | H]; contradiction.
    + do 2 eexists. split; [reflexivity|]. split.
      * intros [_ H]. contradiction.
      * intros _. split; reflexivity.
  - do 2 eexists. split; [reflexivity|]. split.
    + intros [H _]. contradiction.
    + intros _. split; reflexivity.
Qed.

End DeployFacts.

(** *** The extract stage when the provider raises *)

Section ExtractStageFacts.

Lemma describe_vpcs_raises E args w c :
  aliyun_client w = Some c ->
  (session c = false \/
   forall args, exists e, aliyun_call_tool E describe_tool args = Raise e) ->
  exists e w',
    describe_vpcs E args w = Some (Raise e, w') /\
    aliyun_client w' = aliyun_client w.
Proof.
  intros Hc Hs. unfold describe_vpcs, with_session. run_m. cbn.
  rewrite Hc. destruct c as [[|]].
  - destruct Hs as [Hs | Hs]; [discriminate|].
    destruct (Hs args) as (e & He). fold describe_tool. rewrite He.
    do 2 eexists. split; [reflexivity | exact Hc].
  - do 2 eexists. split; [reflexivity | exact Hc].
Qed.

Lemma get_vpc_info_mock E vpc_id region w c :
  aliyun_client w = Some c ->
  (session c = false \/
   forall args, exists e, aliyun_call_tool E describe_tool args = Raise e) ->
  exists w',
    get_vpc_info E vpc_id region w
    = Some (Ok (_get_mock_vpc_data vpc_id region), w').
Proof.
  intros Hc Hs. unfold get_vpc_info.
  match goal with |- context [describe_vpcs E ?a] =>
    destruct (describe_vpcs_raises E a w c Hc Hs) as (e & w' & Hd & _) end.
  rewrite (try_except_raise _ _ _ _ _ (mbind_raise _ _ _ _ _ Hd)).
  eexists. reflexivity.
Qed.

Lemma list_vpcs_error E region w c :
  aliyun_client w = Some c ->
  (session c = false \/
   forall args, exists e, aliyun_call_tool E describe_tool args = Raise e) ->
  exists e w',
    list_vpcs E region w
    = Some (Ok (VDict [(lit "error", VStr (exn_text e))]), w').
Proof.
  intros Hc Hs. unfold list_vpcs.
  match goal with |- context [describe_vpcs E ?a] =>
    destruct (describe_vpcs_raises E a w c Hc Hs) as (e & w' & Hd & _) end.
  rewrite (try_except_raise _ _ _ _ _ (mbind_raise _ _ _ _ _ Hd)).
  do 2 eexists. reflexivity.
Qed.

Lemma client_setup E w :
  provider_raises E w ->
  exists w' c,
    (match aliyun_client w with
     | None => construct E Alibaba ;; _ <- connect E Alibaba ;; ret tt
     | Some _ => ret tt
     end)%M w = Some (Ok tt, w') /\
    aliyun_client w' = Some c /\
    (session c = false \/
     forall args, exists e, aliyun_call_tool E describe_tool args = Raise e).
Proof.
  intros [Hc Hs]. unfold session_after_connect in Hs.
  unfold construct, connect. run_m. cbn.
  destruct (aliyun_client w) as [c|] eqn:Ha.
  - exists w, c. auto.
  - destruct Hc as [Hc | Hc]; [contradiction|]. rewrite Hc. cbn.
    destruct (connect_result E Alibaba) as [|e|e]; cbn; do 2 eexists;
      (split; [reflexivity|]); cbn; (split; [reflexivity|]); cbn;
      destruct Hs as [Hs|Hs]; try discriminate; auto.
Qed.

Lemma extract_with_provider_down (E : Env) (state : MigrationState) (w : World) :
  provider_raises E w ->
  exists state' w',
    extract_alibaba_vpc E state w = Some (Ok state', w') /\
    status state' = lit "vpc_extracted" /\
    alibaba_vpc_data state'
      = _get_mock_vpc_data (requested_id state) (requested_region state) /\
    getitem (alibaba_vpc_data state') (lit "vpc_id")
      = Ok (VStr (match requested_id state with
                  | [] => lit "vpc-mock-123456"
                  | _ => requested_id state
                  end)).
Proof.
  intros Hp. destruct (client_setup E w Hp) as (w1 & c & Hset & Hc & Hs).
  unfold extract_alibaba_vpc.
  fold (requested_id state). fold (requested_region state).
  set (vpc_id := requested_id state). set (region := requested_region state).
  destruct vpc_id as [|ch rest] eqn:Hid.
  - destruct (list_vpcs_error E region w1 c Hc Hs) as (e & w2 & Hl).
    do 2 eexists. split.
    + apply try_except_ok.
      rewrite (mbind_ok _ _ w w w eq_refl).
      rewrite (mbind_ok _ _ _ _ _ Hset). cbn [truthy].
      rewrite (mbind_ok _ _ _ _ _ (mbind_ok _ _ _ _ _ Hl)). reflexivity.
    + repeat split.
  - destruct (get_vpc_info_mock E (ch :: rest) region w1 c Hc Hs) as (w2 & Hg).
    do 2 eexists. split.
    + apply try_except_ok.
      rewrite (mbind_ok _ _ w w w eq_refl).
      rewrite (mbind_ok _ _ _ _ _ Hset). cbn [truthy].
      rewrite (mbind_ok _ _ _ _ _ Hg). reflexivity.
    + repeat split.
Qed.

End ExtractStageFacts.

(** *** The code generator *)

Section GeneratorFacts.

Lemma invoke_model_run E messages w :
  exists w',
    invoke_model E messages w = Some (cdk_bedrock E (bedrock_calls w), w') /\
    bedrock_calls w' = S (bedrock_calls w).
Proof. eexists. split; reflexivity. Qed.

Lemma tool_call_run E name input w :
  exists r w',
    with_session CdkGen "call_tool"
      (rank <- next_tool_rank ;;
       emit (EvToolCall rank name input) ;;
       lift (cdk_call_tool E rank name input))%M w = Some (r, w') /\
    bedrock_calls w' = bedrock_calls w.
Proof.
  destruct (with_session_cases CdkGen "call_tool"
              (rank <- next_tool_rank ;;
               emit (EvToolCall rank name input) ;;
               lift (cdk_call_tool E rank name input))%M w) as [-> | ->].
  - do 2 eexists. split; reflexivity.
  - do 2 eexists. split; reflexivity.
Qed.

Lemma scan_blocks_outcome E blocks : forall final_text amc messages w,
  exists r w',
    scan_blocks E blocks final_text amc messages w = Some (r, w') /\
    pass_outcome E w r w'.
Proof.
  induction blocks as [|content rest IH]; intros final_text amc messages w.
  - do 2 eexists. split; [reflexivity|]. left. split; [reflexivity|]. discriminate.
  - cbn [scan_blocks]. rewrite mbind_lift.
    destruct (getitem content (lit "type")) as [type|e].
    2:{ do 2 eexists. split; [reflexivity|]. left. split; [reflexivity|]. discriminate. }
    destruct (eq_str type (lit "text")).
    { rewrite mbind_lift. destruct (getitem content (lit "text")) as [text|e].
      - apply IH.
      - do 2 eexists. split; [reflexivity|]. left. split; [reflexivity|]. discriminate. }
    destruct (eq_str type (lit "tool_use")); [|apply IH].
    rewrite mbind_lift. destruct (getitem content (lit "name")) as [name|e].
    2:{ do 2 eexists. split; [reflexivity|]. left. split; [reflexivity|]. discriminate. }
    rewrite mbind_lift. destruct (getitem content (lit "input")) as [input|e].
    2:{ do 2 eexists. split; [reflexivity|]. left. split; [reflexivity|]. discriminate. }
    destruct (tool_call_run E name input w) as (r & w1 & Hcall & Hcalls).
    destruct r as [result|e].
    2:{ rewrite (mbind_raise _ _ _ _ _ Hcall).
        do 2 eexists. split; [reflexivity|]. left. split; [exact Hcalls|]. discriminate. }
    rewrite (mbind_ok _ _ _ _ _ Hcall). rewrite mbind_lift.
    destruct (getitem content (lit "id")) as [id|e].
    2:{ do 2 eexists. split; [reflexivity|]. left. split; [exact Hcalls|]. discriminate. }
    rewrite mbind_lift. destruct (tool_result_content result) as [shown|e].
    2:{ do 2 eexists. split; [reflexivity|]. left. split; [exact Hcalls|]. discriminate. }
    match goal with |- context [invoke_model E ?m] =>
      destruct (invoke_model_run E m w1) as (w2 & Hinv & Hcalls2) end.
    unfold mbind at 1. rewrite Hinv.
    destruct (cdk_bedrock E (bedrock_calls w1)) as [response|e] eqn:Hb.
    + do 2 eexists. split; [reflexivity|]. right. split; [congruence|].
      rewrite <- Hcalls, Hb. eauto.
    + do 2 eexists. split; [reflexivity|]. right. split; [congruence|].
      now rewrite <- Hcalls, Hb.
Qed.

Lemma generation_loop_bounded E n e (Hn : cdk_bedrock E n = Raise e) steps :
  forall response final_text messages w,
    bedrock_calls w <= n ->
    n < bedrock_calls w + steps ->
    exists r w',
      generation_loop E steps response final_text messages w = Some (r, w') /\
      bedrock_calls w' <= S n /\
      (bedrock_calls w' = S n -> r = Raise e).
Proof.
  induction steps as [|steps IH]; intros response final_text messages w Hle Hlt; [lia|].
  cbn [generation_loop]. rewrite mbind_lift.
  destruct (getitem response (lit "content")) as [content|e1].
  2:{ do 2 eexists. split; [reflexivity|]. split; lia. }
  rewrite mbind_lift. destruct (iter content) as [blocks|e1].
  2:{ do 2 eexists. split; [reflexivity|]. split; lia. }
  destruct (scan_blocks_outcome E blocks final_text [] messages w)
    as (r & w1 & Hscan & [[Hc Hno] | [Hc Hyes]]).
  - unfold mbind. rewrite Hscan.
    destruct r as [[ft | resp ft msgs] | e1].
    + do 2 eexists. split; [reflexivity|]. split; lia.
    + exfalso. eapply Hno. reflexivity.
    + do 2 eexists. split; [reflexivity|]. split; lia.
  - unfold mbind. rewrite Hscan.
    destruct (cdk_bedrock E (bedrock_calls w)) as [resp | e1] eqn:Hb.
    + destruct Hyes as (ft & msgs & ->).
      assert (bedrock_calls w <> n) by (intros Heq; rewrite Heq in Hb; congruence).
      apply IH; lia.
    + subst r. do 2 eexists. split; [reflexivity|]. split; [lia|].
      intros Heq. assert (bedrock_calls w = n) by lia. congruence.
Qed.

Lemma list_tools_run E w :
  exists r w',
    with_session CdkGen "list_tools"
      (emit EvListTools ;; lift (cdk_list_tools E))%M w = Some (r, w') /\
    bedrock_calls w' = bedrock_calls w.
Proof.
  destruct (with_session_cases CdkGen "list_tools"
              (emit EvListTools ;; lift (cdk_list_tools E))%M w) as [-> | ->].
  - do 2 eexists. split; reflexivity.
  - do 2 eexists. split; reflexivity.
Qed.

Lemma backend_failure_returned
  (E : Env) (steps : nat) (description : str) (w : World) (n : nat) (e : exn) :
  cdk_bedrock E n = Raise e ->
  bedrock_calls w <= n ->
  n - bedrock_calls w <= steps ->
  exists text w',
    generate_cdk_code E steps description w = Some (Ok text, w') /\
    bedrock_calls w' <= S n /\
    (bedrock_calls w' = S n -> text = lit "Error: " ++ exn_text e).
Proof.
  intros Hn Hle Hsteps. unfold generate_cdk_code.
  match goal with |- context [try_except ?m ?h] => set (body := m); set (handler := h) end.
  assert (Hbody : exists r w',
             body w = Some (r, w') /\ bedrock_calls w' <= S n /\
             (bedrock_calls w' = S n -> r = Raise e)).
  { unfold body.
    destruct (list_tools_run E w) as (r0 & w0 & Hs & Hc0).
    destruct r0 as [tools | e1].
    2:{ rewrite (mbind_raise _ _ _ _ _ Hs). do 2 eexists.
        split; [reflexivity|]. split; lia. }
    rewrite (mbind_ok _ _ _ _ _ Hs).
    match goal with |- context [invoke_model E ?m] =>
      destruct (invoke_model_run E m w0) as (w1 & Hinv & Hc1) end.
    unfold mbind at 1. rewrite Hinv. rewrite Hc0 in *.
    destruct (cdk_bedrock E (bedrock_calls w)) as [response | e1] eqn:Hb.
    2:{ do 2 eexists. split; [reflexivity|]. split; [lia|].
        intros Heq. assert (bedrock_calls w = n) by lia. congruence. }
    assert (bedrock_calls w <> n) by (intros Heq; rewrite Heq in Hb; congruence).
    match goal with |- context [generation_loop E steps response ?ft ?m] =>
      destruct (generation_loop_bounded E n e Hn steps response ft m w1)
        as (r & w2 & Hloop & Hbound & Hlast); [lia | lia |] end.
    unfold mbind. rewrite Hloop.
    destruct r as [final_text | e1].
    - unfold lift. destruct (join_texts final_text) as [text | e1].
      + do 2 eexists. split; [reflexivity|]. split; [lia|].
        intros Heq. specialize (Hlast Heq). discriminate.
      + do 2 eexists. split; [reflexivity|]. split; [lia|].
        intros Heq. specialize (Hlast Heq). discriminate.
    - do 2 eexists. split; [reflexivity|]. split; [lia|].
      intros Heq. specialize (Hlast Heq). now injection Hlast as ->. }
  destruct Hbody as (r & w1 & Hrun & Hbound & Hlast).
  destruct r as [text | e1].
  - exists text, w1. split; [now apply try_except_ok|]. split; [lia|].
    intros Heq. specialize (Hlast Heq). discriminate.
  - rewrite (try_except_raise _ _ _ _ _ Hrun). unfold handler.
    do 2 eexists. split; [reflexivity|]. cbn. split; [lia|].
    intros Heq. specialize (Hlast Heq). now injection Hlast as ->.
Qed.

Lemma scan_blocks_plain E before : forall rest final_text amc messages w texts,
  plain_texts before = Some texts ->
  scan_blocks E (before ++ rest) final_text amc messages w
  = scan_blocks E rest (final_text ++ map VStr texts)
                (amc ++ filter is_text_block before) messages w.
Proof.
  induction before as [|block before IH]; intros rest final_text amc messages w texts H.
  - injection H as <-. cbn. now rewrite !app_nil_r.
  - cbn [plain_texts] in H.
    destruct (plain_block block) as [t|] eqn:Hb; [|discriminate].
    destruct (plain_texts before) as [ts|] eqn:Hts; [|discriminate].
    injection H as <-. cbn [app scan_blocks filter]. rewrite mbind_lift.
    unfold plain_block in Hb. unfold is_text_block.
    destruct (getitem block (lit "type")) as [type|]; [|discriminate].
    destruct (eq_str type (lit "text")).
    + rewrite mbind_lift.
      destruct (getitem block (lit "text")) as [[| | | |s| |]|]; try discriminate.
      injection Hb as <-.
      rewrite (IH rest (final_text ++ [VStr s]) (amc ++ [block]) messages w ts eq_refl).
      cbn [map app]. now rewrite <- !app_assoc.
    + destruct (eq_str type (lit "tool_use")); [discriminate|].
      injection Hb as <-.
      now rewrite (IH rest final_text amc messages w ts eq_refl).
Qed.

Lemma scan_blocks_all_plain E blocks final_text amc messages w texts :
  plain_texts blocks = Some texts ->
  scan_blocks E blocks final_text amc messages w
  = Some (Ok (NoToolUse (final_text ++ map VStr texts)), w).
Proof.
  intros H.
  pose proof (scan_blocks_plain E blocks [] final_text amc messages w texts H) as Hs.
  rewrite app_nil_r in Hs. rewrite Hs. reflexivity.
Qed.

Lemma texts_of_strs rank texts : texts_of rank (map VStr texts) = Ok texts.
Proof.
  revert rank. induction texts as [|t texts IH]; intros rank; [reflexivity|].
  cbn [map texts_of]. now rewrite IH.
Qed.

Lemma join_texts_strs texts : join_texts (map VStr texts) = Ok (join [10%N] texts).
Proof. unfold join_texts. now rewrite texts_of_strs. Qed.

Lemma one_round_trip
  (E : Env) (steps : nat) (description : str) (w : World) (texts1 texts2 : list str) :
  one_tool_round E w texts1 texts2 ->
  2 <= steps ->
  exists w',
    generate_cdk_code E steps description w
      = Some (Ok (join [10%N] (texts1 ++ texts2)), w') /\
    bedrock_calls w' = 2 + bedrock_calls w /\
    tool_calls w' = 1 + tool_calls w.
Proof.
  intros (tools & response1 & content1 & before & request & after & name & input & id
          & items & shown & response2 & content2 & blocks2
          & Hh & Hl & Hb1 & Hc1 & Hi1 & Hp1 & Hreq & Hcall & Hshown & Hb2 & Hc2 & Hi2 & Hp2)
         Hsteps.
  destruct steps as [|[|steps]]; [lia | lia |].
  unfold generate_cdk_code.
  unfold tool_request in Hreq.
  destruct (getitem request (lit "type")) as [type|] eqn:Hty; [|discriminate].
  destruct (eq_str type (lit "text")) eqn:Htext; [discriminate|].
  destruct (eq_str type (lit "tool_use")) eqn:Htool; [|discriminate].
  destruct (getitem request (lit "name")) as [name'|] eqn:Hname; [|discriminate].
  destruct (getitem request (lit "input")) as [input'|] eqn:Hinput; [|discriminate].
  destruct (getitem request (lit "id")) as [id'|] eqn:Hid; [|discriminate].
  injection Hreq as -> -> ->.
  unfold holder in Hh.
  eexists. split.
  - apply try_except_ok.
    unfold with_session, invoke_model, holder. run_m. cbn.
    rewrite Hh, Hl. cbn. rewrite Hb1. cbn. rewrite Hc1. cbn. rewrite Hi1.
    unfold mbind at 1.
    rewrite (scan_blocks_plain E before _ _ _ _ _ texts1 Hp1).
    cbn. rewrite Hty. cbn. rewrite Htext, Htool, Hname. cbn. rewrite Hinput. cbn.
    unfold with_session, invoke_model, holder. run_m. cbn.
    rewrite Hh. cbn. rewrite Hcall. cbn. rewrite Hid. cbn. rewrite Hshown. cbn.
    rewrite Hb2. cbn. rewrite Hc2. cbn. rewrite Hi2.
    rewrite (scan_blocks_all_plain E blocks2 _ _ _ _ texts2 Hp2).
    rewrite <- map_app, join_texts_strs. reflexivity.
  - split; reflexivity.
Qed.

End GeneratorFacts.

(** *** The generate stage *)

Section GenerateStageFacts.

Lemma empty_code_written
  (E : Env) (steps : nat) (state : MigrationState) (w w1 : World)
  (project_path cdk_code : str) :
  obtain_cdk_code E steps state w = Some (Ok (project_path, cdk_code), w1) ->
  _extract_typescript_code cdk_code = [] ->
  fs_write E (stack_file_of project_path (target_project_name state)) [] = None ->
  fs_write E (bin_file_of project_path (target_project_name state))
           (bin_content_of (target_project_name state)) = None ->
  exists state' w',
    generate_cdk_project E steps state w = Some (Ok state', w') /\
    status state' = lit "cdk_generated" /\
    Workflow.cdk_code state' = cdk_code /\
    events w' = events w1
                ++ [EvWrite (stack_file_of project_path (target_project_name state)) [];
                    EvWrite (bin_file_of project_path (target_project_name state))
                            (bin_content_of (target_project_name state))].
Proof.
  intros Hcode Hempty Hstack Hbin.
  unfold generate_cdk_project. do 2 eexists. split.
  - apply try_except_ok. rewrite (mbind_ok _ _ _ _ _ Hcode).
    cbn [fst snd]. rewrite Hempty.
    unfold _fix_bin_file. run_m. cbn.
    rewrite Hstack. cbn. rewrite Hbin. reflexivity.
  - cbn. repeat split. now rewrite <- app_assoc.
Qed.

End GenerateStageFacts.

(** *** Every connected client is held: an invariant of the run *)

Section TrackingFacts.

Lemma keeps_ret {A} (a : A) : keeps (ret a).
Proof. intros w r w' H E. injection E as _ <-. exact H. Qed.

Lemma keeps_raise {A} (e : exn) : keeps (@raise A e).
Proof. intros w r w' H E. injection E as _ <-. exact H. Qed.

Lemma keeps_lift {A} (r : result A) : keeps (lift r).
Proof. intros w r' w' H E. injection E as _ <-. exact H. Qed.

Lemma keeps_diverge {A} : keeps (@diverge A).
Proof. intros w r w' H E. discriminate. Qed.

Lemma keeps_get_world : keeps get_world.
Proof. intros w r w' H E. injection E as _ <-. exact H. Qed.

Lemma keeps_check o : keeps (check o).
Proof. destruct o; [apply keeps_raise | apply keeps_ret]. Qed.

Lemma keeps_bind {A C} (m : M A) (k : A -> M C) :
  keeps m -> (forall a, keeps (k a)) -> keeps (mbind m k).
Proof.
  intros Hm Hk w r w' H E. unfold mbind in E.
  destruct (m w) as [[[a|e] w1]|] eqn:Em; [| |discriminate].
  - exact (Hk a w1 r w' (Hm w _ w1 H Em) E).
  - injection E as _ <-. exact (Hm w _ w1 H Em).
Qed.

Lemma keeps_try {A} (m : M A) (h : exn -> M A) :
  keeps m -> (forall e, keeps (h e)) -> keeps (try_except m h).
Proof.
  intros Hm Hh w r w' H E. unfold try_except in E.
  destruct (m w) as [[[a|e] w1]|] eqn:Em; [| |discriminate].
  - injection E as _ <-. exact (Hm w _ w1 H Em).
  - exact (Hh e w1 r w' (Hm w _ w1 H Em) E).
Qed.

Lemma keeps_emit ev : is_connect ev = false -> keeps (emit ev).
Proof.
  intros Hev w r w' H E. injection E as _ <-. intros k Hk. cbn in Hk.
  apply in_app_or in Hk as [Hk | [Hk | []]].
  - destruct k; exact (H _ Hk).
  - subst ev. discriminate.
Qed.

Lemma keeps_log_error msg : keeps (log_error msg).
Proof. now apply keeps_emit. Qed.

Lemma keeps_set_holder k c : keeps (set_holder k (Some c)).
Proof.
  intros w r w' H E. injection E as _ <-. intros k' Hk. cbn in Hk.
  specialize (H k' Hk). destruct k, k'; cbn; auto; discriminate.
Qed.

Lemma keeps_set_current_project_name name : keeps (set_current_project_name name).
Proof. intros w r w' H E. injection E as _ <-. intros k Hk. destruct k; exact (H _ Hk). Qed.

Lemma keeps_next_bedrock_rank : keeps next_bedrock_rank.
Proof. intros w r w' H E. injection E as _ <-. intros k Hk. destruct k; exact (H _ Hk). Qed.

Lemma keeps_next_tool_rank : keeps next_tool_rank.
Proof. intros w r w' H E. injection E as _ <-. intros k Hk. destruct k; exact (H _ Hk). Qed.

(** A client is connected right after it is made. *)
Lemma keeps_construct_connect E k :
  keeps (construct E k ;; _ <- connect E k ;; ret tt)%M.
Proof.
  intros w r w' H Eq. unfold construct, connect, mbind, check, set_holder, emit,
    log_error, emit, ret, raise in Eq.
  destruct (boto3_client E k) as [e|].
  - injection Eq as _ <-. exact H.
  - destruct (connect_result E k); cbn in Eq; injection Eq as _ <-;
      intros k' Hk; cbn in Hk;
      repeat (apply in_app_or in Hk as [Hk | [Hk | []]]); try discriminate;
      try (injection Hk as <-; destruct k; cbn; discriminate);
      specialize (H k' Hk); destruct k, k'; cbn; auto; discriminate.
Qed.

Lemma keeps_with_session {A} k method (call : M A) :
  keeps call -> keeps (with_session k method call).
Proof.
  intros Hc. unfold with_session. apply keeps_bind; [apply keeps_get_world|].
  intros w. destruct (holder k w) as [[[|]]|]; auto using keeps_raise.
Qed.

End TrackingFacts.

Create HintDb keeps.

#[local] Hint Resolve keeps_ret keeps_raise keeps_lift keeps_diverge keeps_get_world
  keeps_check keeps_log_error keeps_set_holder keeps_set_current_project_name
  keeps_next_bedrock_rank keeps_next_tool_rank keeps_construct_connect : keeps.

Ltac keeps_step :=
  match goal with
  | |- keeps _ => solve [auto with keeps]
  | |- keeps (mbind _ _) => apply keeps_bind; [|intros ?]
  | |- keeps (try_except _ _) => apply keeps_try; [|intros ?]
  | |- keeps (with_session _ _ _) => apply keeps_with_session
  | |- keeps (emit _) => apply keeps_emit; reflexivity
  | |- keeps (match ?x with _ => _ end) => destruct x
  | |- keeps (if ?x then _ else _) => destruct x
  | |- keeps (let _ := _ in _) => cbv zeta
  end.

Ltac keeps_all := repeat keeps_step.

Lemma keeps_run_process E argv cwd : keeps (run_process E argv cwd).
Proof. unfold run_process. keeps_all. Qed.

Lemma keeps_mkdir E path : keeps (mkdir E path).
Proof. unfold mkdir. keeps_all. Qed.

Lemma keeps_write_file E path content : keeps (write_file E path content).
Proof. unfold write_file. keeps_all. Qed.

Lemma keeps_describe_vpcs E args : keeps (describe_vpcs E args).
Proof. unfold describe_vpcs. keeps_all. Qed.

#[local] Hint Resolve keeps_run_process keeps_mkdir keeps_write_file
  keeps_describe_vpcs : keeps.

Lemma keeps_parse E raw vpc_id region :
  keeps (_parse_vpc_data_with_llm E raw vpc_id region).
Proof. unfold _parse_vpc_data_with_llm. keeps_all. Qed.

Lemma keeps_convert_logged alibaba_data vpc_id region :
  keeps (_convert_alibaba_vpc_format_logged alibaba_data vpc_id region).
Proof. unfold _convert_alibaba_vpc_format_logged. keeps_all. Qed.

#[local] Hint Resolve keeps_parse keeps_convert_logged : keeps.

Lemma keeps_get_vpc_info E vpc_id region : keeps (get_vpc_info E vpc_id region).
Proof. unfold get_vpc_info. keeps_all. Qed.

Lemma keeps_list_vpcs E region : keeps (list_vpcs E region).
Proof. unfold list_vpcs. keeps_all. Qed.

#[local] Hint Resolve keeps_get_vpc_info keeps_list_vpcs : keeps.

Lemma keeps_extract E state : keeps (extract_alibaba_vpc E state).
Proof. unfold extract_alibaba_vpc. keeps_all. Qed.

Lemma keeps_transform E state : keeps (transform_vpc_data E state).
Proof. unfold transform_vpc_data. keeps_all. Qed.

Lemma keeps_invoke_model E messages : keeps (invoke_model E messages).
Proof. unfold invoke_model. keeps_all. Qed.

#[local] Hint Resolve keeps_invoke_model : keeps.

Lemma keeps_scan_blocks E blocks : forall final_text amc messages,
  keeps (scan_blocks E blocks final_text amc messages).
Proof.
  induction blocks as [|content rest IH]; intros final_text amc messages;
    cbn [scan_blocks]; keeps_all.
Qed.

#[local] Hint Resolve keeps_scan_blocks : keeps.

Lemma keeps_generation_loop E steps : forall response final_text messages,
  keeps (generation_loop E steps response final_text messages).
Proof.
  induction steps as [|steps IH]; intros response final_text messages;
    cbn [generation_loop]; keeps_all.
Qed.

#[local] Hint Resolve keeps_generation_loop : keeps.

Lemma keeps_generate_cdk_code E steps description :
  keeps (generate_cdk_code E steps description).
Proof. unfold generate_cdk_code. keeps_all. Qed.

#[local] Hint Resolve keeps_generate_cdk_code : keeps.

Lemma keeps_obtain E steps state : keeps (obtain_cdk_code E steps state).
Proof. unfold obtain_cdk_code. keeps_all. Qed.

#[local] Hint Resolve keeps_obtain : keeps.

Lemma keeps_generate E steps state : keeps (generate_cdk_project E steps state).
Proof. unfold generate_cdk_project, _fix_bin_file. keeps_all. Qed.

Lemma keeps_deploy E state : keeps (deploy_to_aws E state).
Proof. unfold deploy_to_aws. keeps_all. Qed.

Lemma keeps_handle_error state : keeps (handle_error state).
Proof. unfold handle_error. keeps_all. Qed.

#[local] Hint Resolve keeps_extract keeps_transform keeps_generate keeps_deploy
  keeps_handle_error : keeps.

Lemma keeps_run_from E steps limit : forall current state,
  keeps (run_from limit (_build_workflow E steps) current state).
Proof.
  induction limit as [|limit IH]; intros current state; cbn [run_from]; [keeps_all|].
  cbn [nodes edges _build_workflow assoc].
  repeat match goal with
         | |- context [String.eqb current ?n] => destruct (String.eqb current n)
         end; keeps_all.
Qed.

Lemma ainvoke_tracks_sessions E steps state :
  keeps (ainvoke (_build_workflow E steps) state).
Proof. apply keeps_run_from. Qed.

(** What follows for [run_migration] itself: a run that starts with its
    sessions tracked ends with every session it connected closed. *)
Lemma run_migration_releases
  (E : Env) (steps : nat) (cfg : source_config) (name dir : str)
  (w w1 : World) (r1 : result MigrationState) :
  sessions_tracked w ->
  ainvoke (_build_workflow E steps) (initial_state cfg name dir) w = Some (r1, w1) ->
  exists w',
    run_migration E steps cfg name dir w = Some (r1, w') /\
    events w' = events w1 ++ failure_log r1
                  ++ release_trace E CdkGen w1 ++ release_trace E Alibaba w1 /\
    (forall k, In (EvConnect k) (events w1) ->
               In (EvAclose k) (release_trace E CdkGen w1 ++ release_trace E Alibaba w1)).
Proof.
  intros Ht Hrun.
  destruct (run_migration_with_releases E _ cfg name dir w w1 r1 Hrun) as (w' & Hr & Hev).
  exists w'. split; [exact Hr|]. split; [exact Hev|].
  apply tracked_sessions_are_released.
  exact (ainvoke_tracks_sessions E steps _ w r1 w1 Ht Hrun).
Qed.

(* ================================================================== *)
(** ** The claims                                                       *)
(* ================================================================== *)

(** C1.  The claim: when the transform stage raises, it sets [status] to
    ["error"] with a non-empty [error_message], and the engine skips the
    generate and deploy stages (no subprocess is started) and goes to the
    error-handling step.  The code does the first and not the second: the
    graph of [_build_workflow] has no edge into [handle_error] and no
    conditional edge at all.  Here the listing of the provider holds one
    VPC without [cidr_block]; the transform stage reports the missing key,
    and the run goes on through [generate_cdk] and [deploy_aws], starts
    four processes, never runs [handle_error] and ends as ["completed"]. *)
Theorem transform_failure_does_not_stop_the_run :
  (exists state' w',
     transform_vpc_data calm bare_state fresh = Some (Ok state', w') /\
     status state' = lit "error" /\
     error_message state' = lit "'cidr_block'") /\
  (exists final w,
     run_migration calm 5 no_vpc_id (lit "demo-app") (lit "output") fresh
       = Some (Ok final, w) /\
     nodes_run (events w)
       = ["extract_vpc"; "transform_data"; "generate_cdk"; "deploy_aws"]%string /\
     processes_run (events w) = [cdk_init; npm_install; cdk_bootstrap; cdk_deploy] /\
     status final = lit "completed").
Proof.
  split.
  - do 2 eexists. split; [vm_compute; reflexivity|]. split; reflexivity.
  - do 2 eexists. split; [vm_compute; reflexivity|]. repeat split.
Qed.

(** C2, as stated, fails: [npm install] exits with 1, [cdk deploy] would
    exit with 0, and the stage ends in ["error"]. *)
Lemma install_failure_is_fatal :
  exists state' w',
    subprocess_run install_fails cdk_deploy (project_dir generated_state)
      = Ok (exit_with 0) /\
    deploy_to_aws install_fails generated_state fresh = Some (Ok state', w') /\
    status state' = lit "error" /\
    error_message state' = lit "npm install failed: failed".
Proof.
  do 2 eexists. split; [reflexivity|].
  split; [vm_compute; reflexivity|]. split; reflexivity.
Qed.

(** C2, amended.  When the three commands of the deploy stage can be
    started, they run in that order in the project directory; a non-zero
    exit of the install step or of the deploy step ends the stage in
    ["error"]; the exit status of the bootstrap step is never looked at;
    and when install and deploy exit with 0 the stage sets
    [deployment_result.status] to ["deployed"] and [status] to
    ["completed"]. *)
Theorem deploy_fatal_steps (E : Env) (state : MigrationState) (w : World)
  (p1 p2 p3 : completed_process) :
  subprocess_run E npm_install (project_dir state) = Ok p1 ->
  subprocess_run E cdk_bootstrap (project_dir state) = Ok p2 ->
  subprocess_run E cdk_deploy (project_dir state) = Ok p3 ->
  exists state' w',
    deploy_to_aws E state w = Some (Ok state', w') /\
    (returncode p1 = 0%Z /\ returncode p3 = 0%Z ->
       status state' = lit "completed" /\
       getitem (deployment_result state') (lit "status") = Ok (VStr (lit "deployed")) /\
       events w' = events w ++ [EvSubprocess npm_install (project_dir state);
                                EvSubprocess cdk_bootstrap (project_dir state);
                                EvSubprocess cdk_deploy (project_dir state)]) /\
    (returncode p1 <> 0%Z \/ returncode p3 <> 0%Z ->
       status state' = lit "error" /\
       deployment_result state' = deployment_result state).
Proof. exact (deploy_outcomes E state w p1 p2 p3). Qed.

Lemma deploy_fatal_steps_witness :
  subprocess_run bootstrap_fails npm_install (project_dir generated_state)
    = Ok (exit_with 0) /\
  subprocess_run bootstrap_fails cdk_bootstrap (project_dir generated_state)
    = Ok (exit_with 1) /\
  subprocess_run bootstrap_fails cdk_deploy (project_dir generated_state)
    = Ok (exit_with 0) /\
  exists state' w',
    deploy_to_aws bootstrap_fails generated_state fresh = Some (Ok state', w') /\
    status state' = lit "completed" /\
    getitem (deployment_result state') (lit "status") = Ok (VStr (lit "deployed")).
Proof.
  split; [reflexivity|]. split; [reflexivity|]. split; [reflexivity|].
  destruct (deploy_fatal_steps bootstrap_fails generated_state fresh
              (exit_with 0) (exit_with 1) (exit_with 0)
              eq_refl eq_refl eq_refl) as (state' & w' & Hrun & Hok & _).
  exists state', w'. split; [exact Hrun|].
  destruct (Hok (conj eq_refl eq_refl)) as (Hs & Hd & _). split; assumption.
Defined.

(** C3.  For every run in which the provider raises during extraction,
    the extract stage still completes with [status] ["vpc_extracted"],
    with the synthetic VPC whose [vpc_id] is the requested one, or the
    fixed mock id when none was requested. *)
Theorem extract_survives_provider_failure
  (E : Env) (state : MigrationState) (w : World) :
  provider_raises E w ->
  exists state' w',
    extract_alibaba_vpc E state w = Some (Ok state', w') /\
    status state' = lit "vpc_extracted" /\
    alibaba_vpc_data state'
      = _get_mock_vpc_data (requested_id state) (requested_region state) /\
    getitem (alibaba_vpc_data state') (lit "vpc_id")
      = Ok (VStr (match requested_id state with
                  | [] => lit "vpc-mock-123456"
                  | _ => requested_id state
                  end)).
Proof. exact (extract_with_provider_down E state w). Qed.

Lemma extract_survives_provider_failure_witness :
  provider_raises provider_down fresh /\
  exists state' w',
    extract_alibaba_vpc provider_down (demo_state vpc_1) fresh = Some (Ok state', w') /\
    status state' = lit "vpc_extracted" /\
    getitem (alibaba_vpc_data state') (lit "vpc_id") = Ok (VStr (lit "vpc-1")).
Proof.
  assert (Hp : provider_raises provider_down fresh).
  { split; [right; reflexivity|]. right. intros args. eexists. reflexivity. }
  split; [exact Hp|].
  destruct (extract_survives_provider_failure provider_down (demo_state vpc_1) fresh Hp)
    as (state' & w' & Hrun & Hs & _ & Hid).
  exists state', w'. split; [exact Hrun|]. split; [exact Hs | exact Hid].
Defined.

(** C4, as stated, fails: the backend raises at its first invocation and
    [generate_cdk_code] returns, as its result, a text that starts with
    ["Error: "]; no exception reaches the caller. *)
Lemma backend_failure_does_not_propagate :
  cdk_bedrock model_down 0 = Raise (Exn ExternalError (lit "throttled")) /\
  exists w',
    generate_cdk_code model_down 3 (lit "a VPC") generator_ready
      = Some (Ok (lit "Error: throttled"), w').
Proof.
  split; [reflexivity|]. eexists. vm_compute. reflexivity.
Qed.

(** C4, amended.  When the backend raises at its invocation of rank [n],
    [generate_cdk_code], given the passes to get there, returns a text and
    raises nothing; it invokes the backend no more after the failure
    (no retry); and when the failing invocation is made, the text it
    returns is ["Error: "] followed by the message of the exception. *)
Theorem backend_failure_is_returned
  (E : Env) (steps : nat) (description : str) (w : World) (n : nat) (e : exn) :
  cdk_bedrock E n = Raise e ->
  bedrock_calls w <= n ->
  n - bedrock_calls w <= steps ->
  exists text w',
    generate_cdk_code E steps description w = Some (Ok text, w') /\
    bedrock_calls w' <= S n /\
    (bedrock_calls w' = S n -> text = lit "Error: " ++ exn_text e).
Proof. exact (backend_failure_returned E steps description w n e). Qed.

Lemma backend_failure_is_returned_witness :
  cdk_bedrock model_down 0 = Raise (Exn ExternalError (lit "throttled")) /\
  bedrock_calls generator_ready <= 0 /\
  0 - bedrock_calls generator_ready <= 3 /\
  exists text w',
    generate_cdk_code model_down 3 (lit "a VPC") generator_ready = Some (Ok text, w') /\
    bedrock_calls w' <= 1.
Proof.
  split; [reflexivity|]. split; [apply le_n|]. split; [apply Nat.le_0_l|].
  destruct (backend_failure_is_returned model_down 3 (lit "a VPC") generator_ready 0
              (Exn ExternalError (lit "throttled")) eq_refl (le_n 0) (Nat.le_0_l 3))
    as (text & w' & Hrun & Hle & _).
  exists text, w'. split; [exact Hrun | exact Hle].
Defined.

(** C5, as stated, fails: the first vswitch of the synthetic VPC is named
    [demo-subnet-1] and its subnet [demo_subnet_1]. *)
Lemma hyphenated_name_is_rewritten :
  exists transformed vswitch others subnet others',
    transform_body demo_builtins mock_vpc = Ok transformed /\
    getitem mock_vpc (lit "vswitches") = Ok (VList (vswitch :: others)) /\
    getitem transformed (lit "subnets") = Ok (VList (subnet :: others')) /\
    ~ passes_unchanged vswitch subnet.
Proof.
  do 5 eexists. split; [vm_compute; reflexivity|].
  split; [reflexivity|]. split; [reflexivity|].
  intros (Hname & _). vm_compute in Hname. discriminate.
Qed.

(** C5, amended.  Whenever the transformer succeeds, its subnets are, in
    order, those of the vswitches of its input: the CIDR passes through
    unchanged, the name passes through with every [-] replaced by [_]
    (unchanged when it holds none), and [map_public_ip_on_launch] is
    true. *)
Theorem subnets_follow_vswitches (B : Builtins) (alibaba_data transformed : value) :
  transform_body B alibaba_data = Ok transformed ->
  exists vswitches subnets,
    (v <- getitem alibaba_data (lit "vswitches") ;; iter v) = Ok vswitches /\
    getitem transformed (lit "subnets") = Ok (VList subnets) /\
    Forall2 subnet_of vswitches subnets.
Proof. exact (subnets_of_vswitches B alibaba_data transformed). Qed.

Lemma subnets_follow_vswitches_witness :
  exists transformed,
    transform_body demo_builtins mock_vpc = Ok transformed /\
    exists vswitches subnets,
      getitem transformed (lit "subnets") = Ok (VList subnets) /\
      Forall2 subnet_of vswitches subnets.
Proof.
  eexists. split; [vm_compute; reflexivity|].
  match goal with
  | |- exists vswitches subnets, getitem ?t _ = _ /\ _ =>
      destruct (subnets_follow_vswitches demo_builtins mock_vpc t)
        as (vswitches & subnets & _ & Hs & Hf); [vm_compute; reflexivity|]
  end.
  exists vswitches, subnets. split; [exact Hs | exact Hf].
Defined.

(** The call of the normalizer raises nothing: it returns the value of
    [_convert_alibaba_vpc_format] and logs what [conversion_log] says. *)
Lemma convert_logged_run alibaba_data vpc_id region w :
  exists w',
    _convert_alibaba_vpc_format_logged alibaba_data vpc_id region w
    = Some (Ok (_convert_alibaba_vpc_format alibaba_data vpc_id region), w') /\
    events w' = events w ++ conversion_log alibaba_data vpc_id region.
Proof.
  unfold _convert_alibaba_vpc_format_logged, _convert_alibaba_vpc_format, conversion_log.
  run_m. destruct (convert_body alibaba_data vpc_id region) as [converted|e];
    eexists; (split; [reflexivity|]); cbn; [now rewrite app_nil_r | reflexivity].
Qed.

(** C6, as stated, fails: the response is the empty object, in which
    every piece of data is absent, and neither sequence of the record is
    empty: the record is the synthetic one, with its two vswitches and its
    security group.  For a response whose only VPC says nothing of
    security groups, [security_groups] holds the one group the normalizer
    makes up. *)
Lemma absent_data_gives_filled_sequences :
  _convert_alibaba_vpc_format (VDict []) (lit "vpc-1") (lit "cn-hangzhou")
  = _get_mock_vpc_data (lit "vpc-1") (lit "cn-hangzhou") /\
  (exists first second,
     getitem (_convert_alibaba_vpc_format (VDict []) (lit "vpc-1") (lit "cn-hangzhou"))
             (lit "vswitches")
     = Ok (VList [first; second])) /\
  (exists group,
     getitem (_convert_alibaba_vpc_format (VDict []) (lit "vpc-1") (lit "cn-hangzhou"))
             (lit "security_groups")
     = Ok (VList [group])) /\
  (exists group,
     getitem (_convert_alibaba_vpc_format only_vpc_a (lit "vpc-a") (lit "cn-hangzhou"))
             (lit "security_groups")
     = Ok (VList [group]) /\
     getitem group (lit "name") = Ok (VStr (lit "default-sg"))) /\
  getitem (_convert_alibaba_vpc_format (VDict []) (lit "vpc-1") (lit "cn-hangzhou"))
          (lit "vswitches")
  <> Ok (VList []) /\
  getitem (_convert_alibaba_vpc_format (VDict []) (lit "vpc-1") (lit "cn-hangzhou"))
          (lit "security_groups")
  <> Ok (VList []) /\
  getitem (_convert_alibaba_vpc_format only_vpc_a (lit "vpc-a") (lit "cn-hangzhou"))
          (lit "security_groups")
  <> Ok (VList []).
Proof.
  split; [reflexivity|]. split; [do 2 eexists; reflexivity|].
  split; [eexists; reflexivity|]. split; [eexists; split; reflexivity|].
  repeat split; discriminate.
Qed.

(** C6, amended.  For every parsed response, well formed or not, the
    normalizer returns a record whose [vswitches] and [security_groups]
    are present and are sequences, and it raises nothing: whatever is
    raised while unwrapping, selecting or converting is logged and
    replaced by the synthetic record.  The sequences are not empty when
    data is absent: [security_groups] is never empty; when no VPC is
    found, or when an exception is caught, the record is the synthetic
    one; [vswitches] is the empty sequence for a selected VPC that embeds
    no vswitch ids. *)
Theorem normalizer_total_with_sequences (alibaba_data : value) (vpc_id region : str) :
  has_sequences (_convert_alibaba_vpc_format alibaba_data vpc_id region) /\
  (exists group groups,
     getitem (_convert_alibaba_vpc_format alibaba_data vpc_id region)
             (lit "security_groups")
     = Ok (VList (group :: groups))) /\
  (forall w, exists w',
     _convert_alibaba_vpc_format_logged alibaba_data vpc_id region w
     = Some (Ok (_convert_alibaba_vpc_format alibaba_data vpc_id region), w') /\
     events w' = events w ++ conversion_log alibaba_data vpc_id region) /\
  (forall e,
     convert_body alibaba_data vpc_id region = Raise e ->
     _convert_alibaba_vpc_format alibaba_data vpc_id region
     = _get_mock_vpc_data vpc_id region) /\
  (forall vpcs,
     unwrap_vpcs alibaba_data = Ok vpcs ->
     truthy vpcs = false ->
     _convert_alibaba_vpc_format alibaba_data vpc_id region
     = _get_mock_vpc_data vpc_id region) /\
  (exists first second,
     getitem (_get_mock_vpc_data vpc_id region) (lit "vswitches")
     = Ok (VList [first; second])) /\
  (forall vpcs d,
     unwrap_vpcs alibaba_data = Ok vpcs ->
     truthy vpcs = true ->
     select_vpc vpcs vpc_id = Ok (VDict d) ->
     lookup (lit "VSwitchIds") d = None ->
     getitem (_convert_alibaba_vpc_format alibaba_data vpc_id region) (lit "vswitches")
     = Ok (VList [])).
Proof.
  split; [apply convert_has_sequences|].
  split; [apply convert_groups_filled|].
  split; [intros w; apply convert_logged_run|]. split; [|split; [|split]].
  - intros e He. unfold _convert_alibaba_vpc_format. now rewrite He.
  - intros vpcs. apply convert_nothing_found.
  - do 2 eexists. reflexivity.
  - intros vpcs d. apply absent_vswitches_are_empty.
Qed.

Lemma normalizer_total_with_sequences_witness :
  _convert_alibaba_vpc_format (VInt 5) (lit "vpc-1") (lit "cn-hangzhou")
  = _get_mock_vpc_data (lit "vpc-1") (lit "cn-hangzhou") /\
  getitem (_convert_alibaba_vpc_format only_vpc_a (lit "vpc-a") (lit "cn-hangzhou"))
          (lit "vswitches")
  = Ok (VList []).
Proof.
  split.
  - destruct (normalizer_total_with_sequences (VInt 5) (lit "vpc-1") (lit "cn-hangzhou"))
      as (_ & _ & _ & Hmock & _).
    eapply Hmock. reflexivity.
  - destruct (normalizer_total_with_sequences only_vpc_a (lit "vpc-a") (lit "cn-hangzhou"))
      as (_ & _ & _ & _ & _ & _ & Hempty).
    apply (Hempty (VList [VDict vpc_a]) vpc_a); reflexivity.
Defined.

(** C7.  However the workflow ends, with a final state (completed or
    error) or with an exception, [run_migration] ends the same way: the
    same state is returned or the same exception raised again.  Before
    that it closes the code generator and then the Alibaba client when the
    workflow holds them, so that every session that was connected is
    closed; an exception of a closing is logged and changes nothing
    else. *)
Theorem sessions_released_whatever_the_outcome
  (E : Env) (workflow : MigrationState -> M MigrationState)
  (cfg : source_config) (name dir : str)
  (w w1 : World) (r1 : result MigrationState) :
  workflow (initial_state cfg name dir) w = Some (r1, w1) ->
  sessions_tracked w1 ->
  exists w',
    run_migration_with E workflow cfg name dir w = Some (r1, w') /\
    events w' = events w1 ++ failure_log r1
                  ++ release_trace E CdkGen w1 ++ release_trace E Alibaba w1 /\
    (forall k, In (EvConnect k) (events w1) ->
               In (EvAclose k) (release_trace E CdkGen w1 ++ release_trace E Alibaba w1)).
Proof.
  intros Hrun Ht.
  destruct (run_migration_with_releases E workflow cfg name dir w w1 r1 Hrun)
    as (w' & Hr & Hev).
  exists w'. split; [exact Hr|]. split; [exact Hev|].
  now apply tracked_sessions_are_released.
Qed.

Lemma sessions_released_whatever_the_outcome_witness :
  exists final w',
    run_migration close_fails 5 vpc_1 (lit "demo-app") (lit "output") fresh
      = Some (Ok final, w') /\
    status final = lit "completed" /\
    In (EvAclose CdkGen) (events w') /\
    In (EvAclose Alibaba) (events w') /\
    In (EvLogError (lit "Error during cleanup: cancel scope")) (events w').
Proof.
  eassert (Hrun : ainvoke (_build_workflow close_fails 5)
                          (initial_state vpc_1 (lit "demo-app") (lit "output")) fresh
                  = Some (Ok _, _)) by (vm_compute; reflexivity).
  match type of Hrun with
  | _ = Some (Ok ?final, ?w1) =>
      assert (Ht : sessions_tracked w1)
        by (intros k _; destruct k; discriminate);
      destruct (sessions_released_whatever_the_outcome
                  close_fails (ainvoke (_build_workflow close_fails 5))
                  vpc_1 (lit "demo-app") (lit "output") fresh w1 (Ok final) Hrun Ht)
        as (w' & Hr & Hev & Hclosed);
      exists final, w'
  end.
  split; [exact Hr|]. split; [reflexivity|].
  rewrite Hev. repeat split; apply in_or_app; right; vm_compute; tauto.
Defined.

(** C8.  A conversation with exactly one tool round trip makes
    [generate_cdk_code] return, as soon as it is given two passes, the
    accumulated texts joined by newlines; and for every text with a fenced
    block tagged [typescript], the extraction returns the contents of the
    first such block, trimmed. *)
Theorem round_trip_and_fenced_extraction :
  (forall (E : Env) (steps : nat) (description : str) (w : World)
          (texts1 texts2 : list str),
     one_tool_round E w texts1 texts2 ->
     2 <= steps ->
     exists w',
       generate_cdk_code E steps description w
         = Some (Ok (join [10%N] (texts1 ++ texts2)), w') /\
       bedrock_calls w' = 2 + bedrock_calls w /\
       tool_calls w' = 1 + tool_calls w) /\
  (forall response body : str,
     first_fenced_block response = Some body ->
     _extract_typescript_code response = strip body).
Proof. split; [exact one_round_trip | exact extract_fenced]. Qed.

Lemma round_trip_and_fenced_extraction_witness :
  one_tool_round calm generator_ready [opening_words] [fenced_answer] /\
  first_fenced_block generated_text
    = Some ([10%N] ++ lit "import * as cdk from 'aws-cdk-lib';" ++ [10%N]) /\
  exists w',
    generate_cdk_code calm 2 (lit "a VPC") generator_ready
      = Some (Ok generated_text, w') /\
    _extract_typescript_code generated_text
      = lit "import * as cdk from 'aws-cdk-lib';".
Proof.
  assert (Hround : one_tool_round calm generator_ready [opening_words] [fenced_answer]).
  { exists (VList []),
      (reply [text_block opening_words; tool_use_block]),
      (VList [text_block opening_words; tool_use_block]),
      [text_block opening_words], tool_use_block, [],
      (VStr (lit "CDKGeneralGuidance")), (VDict []), (VStr (lit "toolu_01")),
      [{| item_type := lit "text"; item_text := Some (lit "Use aws-cdk-lib v2.") |}],
      [VDict [(lit "type", VStr (lit "text"));
              (lit "text", VStr (lit "Use aws-cdk-lib v2."))]],
      (reply [text_block fenced_answer]),
      (VList [text_block fenced_answer]),
      [text_block fenced_answer].
    repeat split. }
  assert (Hblock : first_fenced_block generated_text
                   = Some ([10%N] ++ lit "import * as cdk from 'aws-cdk-lib';" ++ [10%N]))
    by (vm_compute; reflexivity).
  split; [exact Hround|]. split; [exact Hblock|].
  destruct round_trip_and_fenced_extraction as (Hloop & Hextract).
  destruct (Hloop calm 2 (lit "a VPC") generator_ready
              [opening_words] [fenced_answer] Hround (le_n 2))
    as (w' & Hrun & _).
  exists w'. split; [exact Hrun|].
  rewrite (Hextract generated_text _ Hblock). vm_compute. reflexivity.
Defined.

(** C9.  When the generate stage holds a response of the generator with
    no fenced [typescript] block and no line that starts with a token
    introducing code, the extraction yields the empty text, and the stage
    does not fail for that: the empty text is written as it is to the
    stack definition file (a disk that takes the two writes of the stage
    is all that is needed) and the stage ends with [status]
    ["cdk_generated"]. *)
Theorem empty_extraction_still_generates
  (E : Env) (steps : nat) (state : MigrationState) (w w1 : World)
  (project_path cdk_code : str) :
  obtain_cdk_code E steps state w = Some (Ok (project_path, cdk_code), w1) ->
  first_fenced_block cdk_code = None ->
  no_code_line cdk_code = true ->
  fs_write E (stack_file_of project_path (target_project_name state)) [] = None ->
  fs_write E (bin_file_of project_path (target_project_name state))
           (bin_content_of (target_project_name state)) = None ->
  _extract_typescript_code cdk_code = [] /\
  exists state' w',
    generate_cdk_project E steps state w = Some (Ok state', w') /\
    status state' = lit "cdk_generated" /\
    Workflow.cdk_code state' = cdk_code /\
    events w' = events w1
                ++ [EvWrite (stack_file_of project_path (target_project_name state)) [];
                    EvWrite (bin_file_of project_path (target_project_name state))
                            (bin_content_of (target_project_name state))].
Proof.
  intros Hcode Hnone Hlines Hstack Hbin.
  pose proof (extract_empty cdk_code Hnone Hlines) as Hempty.
  split; [exact Hempty|].
  exact (empty_code_written E steps state w w1 project_path cdk_code
           Hcode Hempty Hstack Hbin).
Qed.

Lemma empty_extraction_still_generates_witness :
  first_fenced_block prose = None /\
  no_code_line prose = true /\
  exists state' w',
    generate_cdk_project model_prose 2 transformed_state fresh = Some (Ok state', w') /\
    status state' = lit "cdk_generated" /\
    Workflow.cdk_code state' = prose /\
    In (EvWrite (lit "output/demo-app/lib/demo-app-stack.ts") []) (events w').
Proof.
  split; [reflexivity|]. split; [reflexivity|].
  eassert (Hcode : obtain_cdk_code model_prose 2 transformed_state fresh
                   = Some (Ok (lit "output/demo-app", prose), _))
    by (vm_compute; reflexivity).
  match type of Hcode with
  | _ = Some (_, ?w1) =>
      destruct (empty_extraction_still_generates
                  model_prose 2 transformed_state fresh w1
                  (lit "output/demo-app") prose
                  Hcode eq_refl eq_refl eq_refl eq_refl)
        as (_ & state' & w' & Hrun & Hs & Hc & Hev)
  end.
  exists state', w'. split; [exact Hrun|]. split; [exact Hs|]. split; [exact Hc|].
  rewrite Hev. apply in_or_app. right. left. reflexivity.
Defined.

(** C10, as stated, fails: the collection holds one VPC, [vpc-a], whose
    [VSwitchIds] is [null]; [vpc-b] is requested; the conversion raises on
    the [null] and the normalizer returns the synthetic record, whose
    [vpc_id] is the requested id although the entry carries an id. *)
Lemma malformed_entry_gives_the_mock :
  unwrap_vpcs only_vpc_a_null_ids = Ok (VList [VDict vpc_a_null_ids]) /\
  forallb (is_other_vpc (lit "vpc-b")) [VDict vpc_a_null_ids] = true /\
  _convert_alibaba_vpc_format only_vpc_a_null_ids (lit "vpc-b") (lit "cn-hangzhou")
  = _get_mock_vpc_data (lit "vpc-b") (lit "cn-hangzhou") /\
  getitem (_convert_alibaba_vpc_format only_vpc_a_null_ids (lit "vpc-b") (lit "cn-hangzhou"))
          (lit "vpc_id")
  = Ok (VStr (lit "vpc-b")) /\
  truthy (field vpc_a_null_ids (lit "VpcId")) = true.
Proof. repeat split. Qed.

(** C10, amended.  When the unwrapped collection is a non-empty list of
    objects, an id is requested, no entry has it under [VpcId] or
    [vpc_id], and the vswitch ids embedded in the first entry (if any)
    convert without an exception, the normalizer returns the record built
    from the first entry; its [vpc_id] is the requested id only when the
    first entry has no truthy value under either name. *)
Theorem first_entry_when_no_match
  (alibaba_data : value) (vpc_id region : str)
  (d : list (str * value)) (rest vswitches : list value) :
  unwrap_vpcs alibaba_data = Ok (VList (VDict d :: rest)) ->
  vpc_id <> [] ->
  forallb (is_other_vpc vpc_id) (VDict d :: rest) = true ->
  convert_vswitches region (VDict d) = Ok vswitches ->
  _convert_alibaba_vpc_format alibaba_data vpc_id region
  = built_from d vpc_id region vswitches /\
  (pick d (lit "VpcId") (lit "vpc_id") (VStr vpc_id) = VStr vpc_id ->
   truthy (field d (lit "VpcId")) = false /\
   truthy (field d (lit "vpc_id")) = false).
Proof.
  intros Hu _ Hno Hv. split.
  - exact (first_entry_is_converted alibaba_data vpc_id region d rest vswitches Hu Hno Hv).
  - exact (requested_id_only_as_fallback d rest vpc_id Hno).
Qed.

Lemma first_entry_when_no_match_witness :
  unwrap_vpcs only_vpc_a = Ok (VList [VDict vpc_a]) /\
  lit "vpc-b" <> [] /\
  forallb (is_other_vpc (lit "vpc-b")) [VDict vpc_a] = true /\
  convert_vswitches (lit "cn-hangzhou") (VDict vpc_a) = Ok [] /\
  getitem (_convert_alibaba_vpc_format only_vpc_a (lit "vpc-b") (lit "cn-hangzhou"))
          (lit "vpc_id")
  = Ok (VStr (lit "vpc-a")).
Proof.
  assert (Hid : lit "vpc-b" <> []) by discriminate.
  split; [reflexivity|]. split; [exact Hid|]. split; [reflexivity|].
  split; [reflexivity|].
  destruct (first_entry_when_no_match only_vpc_a (lit "vpc-b") (lit "cn-hangzhou")
              vpc_a [] [] eq_refl Hid eq_refl eq_refl) as (Hbuilt & _).
  rewrite Hbuilt. reflexivity.
Defined.

(* ================================================================== *)
(** ** Further facts                                                    *)
(* ================================================================== *)

Import VSwitches Props Cases.

(** *** What a computation yields, whether it ends, what it adds *)

Section ComputationFacts.

Lemma mbind_cases {A C} (m : M A) (k : A -> M C) w r w' :
  mbind m k w = Some (r, w') ->
  (exists a w1, m w = Some (Ok a, w1) /\ k a w1 = Some (r, w')) \/
  (exists e, m w = Some (Raise e, w') /\ r = Raise e).
Proof.
  unfold mbind. destruct (m w) as [[[a|e] w1]|]; intros H; [| |discriminate].
  - left. eauto.
  - right. injection H as <- <-. eauto.
Qed.

Lemma try_except_cases {A} (m : M A) (h : exn -> M A) w r w' :
  try_except m h w = Some (r, w') ->
  (exists a, m w = Some (Ok a, w') /\ r = Ok a) \/
  (exists e w1, m w = Some (Raise e, w1) /\ h e w1 = Some (r, w')).
Proof.
  unfold try_except. destruct (m w) as [[[a|e] w1]|]; intros H; [| |discriminate].
  - left. injection H as <- <-. eauto.
  - right. eauto.
Qed.

(** [yields] *)

Lemma yields_weaken {A} (Q Q' : result A -> Prop) (m : M A) :
  yields Q m -> (forall r, Q r -> Q' r) -> yields Q' m.
Proof. intros H HQ w r w' E. exact (HQ r (H w r w' E)). Qed.

Lemma yields_ret {A} (Q : result A -> Prop) (a : A) : Q (Ok a) -> yields Q (ret a).
Proof. intros H w r w' E. injection E as <- _. exact H. Qed.

Lemma yields_lift {A} (Q : result A -> Prop) (r : result A) : Q r -> yields Q (lift r).
Proof. intros H w r' w' E. injection E as <- _. exact H. Qed.

Lemma yields_bind {A C} (P : C -> Prop) (m : M A) (k : A -> M C) :
  (forall a, yields (okif P) (k a)) -> yields (okif P) (mbind m k).
Proof.
  intros Hk w r w' E. apply mbind_cases in E as [(a & w1 & _ & E) | (e & _ & ->)].
  - exact (Hk a w1 r w' E).
  - exact I.
Qed.

Lemma yields_bind_ok {A C} (P : C -> Prop) (m : M A) (k : A -> M C) :
  yields (isok anything) m -> (forall a, yields (isok P) (k a)) ->
  yields (isok P) (mbind m k).
Proof.
  intros Hm Hk w r w' E. apply mbind_cases in E as [(a & w1 & _ & E) | (e & Em & ->)].
  - exact (Hk a w1 r w' E).
  - exact (Hm w _ w' Em).
Qed.

Lemma yields_try {A} (P : A -> Prop) (m : M A) (h : exn -> M A) :
  yields (okif P) m -> (forall e, yields (isok P) (h e)) ->
  yields (isok P) (try_except m h).
Proof.
  intros Hm Hh w r w' E.
  apply try_except_cases in E as [(a & Em & ->) | (e & w1 & _ & E)].
  - exact (Hm w _ w' Em).
  - exact (Hh e w1 r w' E).
Qed.

Lemma yields_log_error msg : yields (isok anything) (log_error msg).
Proof. intros w r w' E. injection E as <- _. exact I. Qed.

(** [ends] *)

Lemma ends_weaken {A} (Q Q' : result A -> Prop) (m : M A) :
  ends Q m -> (forall r, Q r -> Q' r) -> ends Q' m.
Proof. intros H HQ w. destruct (H w) as (r & w' & E & Hr). eauto. Qed.

Lemma ends_yields {A} (Q Q' : result A -> Prop) (m : M A) :
  ends Q m -> yields Q' m -> ends Q' m.
Proof. intros H Hy w. destruct (H w) as (r & w' & E & Hr). eauto. Qed.

Lemma ends_ret {A} (a : A) : ends (okif anything) (ret a).
Proof. intros w. do 2 eexists. split; [reflexivity | exact I]. Qed.

Lemma ends_raise {A} (e : exn) : ends (okif anything) (@raise A e).
Proof. intros w. do 2 eexists. split; [reflexivity | exact I]. Qed.

Lemma ends_lift {A} (r : result A) : ends (okif anything) (lift r).
Proof. intros w. do 2 eexists. split; [reflexivity|]. now destruct r. Qed.

Lemma ends_get_world : ends (okif anything) get_world.
Proof. intros w. do 2 eexists. split; [reflexivity | exact I]. Qed.

Lemma ends_check o : ends (okif anything) (check o).
Proof. destruct o; [apply ends_raise | apply ends_ret]. Qed.

Lemma ends_emit ev : ends (okif anything) (emit ev).
Proof. intros w. do 2 eexists. split; [reflexivity | exact I]. Qed.

Lemma ends_log_error msg : ends (okif anything) (log_error msg).
Proof. apply ends_emit. Qed.

Lemma ends_set_holder k c : ends (okif anything) (set_holder k c).
Proof. intros w. do 2 eexists. split; [reflexivity | exact I]. Qed.

Lemma ends_bind {A C} (m : M A) (k : A -> M C) :
  ends (okif anything) m -> (forall a, ends (okif anything) (k a)) ->
  ends (okif anything) (mbind m k).
Proof.
  intros Hm Hk w. destruct (Hm w) as ([a|e] & w1 & E & _).
  - destruct (Hk a w1) as (r & w' & E' & Hr). exists r, w'.
    split; [|exact Hr]. now rewrite (mbind_ok _ _ _ _ _ E).
  - exists (Raise e), w1. split; [|exact I]. now rewrite (mbind_raise _ _ _ _ _ E).
Qed.

Lemma ends_try {A} (m : M A) (h : exn -> M A) :
  ends (okif anything) m -> (forall e, ends (okif anything) (h e)) ->
  ends (okif anything) (try_except m h).
Proof.
  intros Hm Hh w. destruct (Hm w) as ([a|e] & w1 & E & _).
  - exists (Ok a), w1. split; [|exact I]. now rewrite (try_except_ok _ _ _ _ _ E).
  - destruct (Hh e w1) as (r & w' & E' & Hr). exists r, w'.
    split; [|exact Hr]. now rewrite (try_except_raise _ _ _ _ _ E).
Qed.

Lemma ends_with_session {A} k method (call : M A) :
  ends (okif anything) call -> ends (okif anything) (with_session k method call).
Proof.
  intros Hc. unfold with_session. apply ends_bind; [apply ends_get_world|].
  intros w. destruct (holder k w) as [[[|]]|]; auto using ends_raise.
Qed.

(** [adds] *)

Lemma adds_nothing {A} (P : event -> bool) (m : M A) :
  (forall w r w', m w = Some (r, w') -> events w' = events w) -> adds P m.
Proof.
  intros H w r w' E. exists []. rewrite app_nil_r. split; [eauto | reflexivity].
Qed.

Lemma adds_ret {A} P (a : A) : adds P (ret a).
Proof. apply adds_nothing. intros w r w' E. now injection E as _ <-. Qed.

Lemma adds_raise {A} P (e : exn) : adds P (@raise A e).
Proof. apply adds_nothing. intros w r w' E. now injection E as _ <-. Qed.

Lemma adds_lift {A} P (r : result A) : adds P (lift r).
Proof. apply adds_nothing. intros w r' w' E. now injection E as _ <-. Qed.

Lemma adds_diverge {A} P : adds P (@diverge A).
Proof. intros w r w' E. discriminate. Qed.

Lemma adds_get_world P : adds P get_world.
Proof. apply adds_nothing. intros w r w' E. now injection E as _ <-. Qed.

Lemma adds_check P o : adds P (check o).
Proof. destruct o; [apply adds_raise | apply adds_ret]. Qed.

Lemma adds_set_holder P k c : adds P (set_holder k c).
Proof. apply adds_nothing. intros w r w' E. now injection E as _ <-. Qed.

Lemma adds_set_current_project_name P name : adds P (set_current_project_name name).
Proof. apply adds_nothing. intros w r w' E. now injection E as _ <-. Qed.

Lemma adds_next_bedrock_rank P : adds P next_bedrock_rank.
Proof. apply adds_nothing. intros w r w' E. now injection E as _ <-. Qed.

Lemma adds_next_tool_rank P : adds P next_tool_rank.
Proof. apply adds_nothing. intros w r w' E. now injection E as _ <-. Qed.

Lemma adds_emit P ev : P ev = true -> adds P (emit ev).
Proof.
  intros H w r w' E. injection E as _ <-. exists [ev]. cbn. now rewrite H.
Qed.

Lemma adds_bind {A C} P (m : M A) (k : A -> M C) :
  adds P m -> (forall a, adds P (k a)) -> adds P (mbind m k).
Proof.
  intros Hm Hk w r w' E. apply mbind_cases in E as [(a & w1 & Em & E) | (e & Em & _)].
  - destruct (Hm w _ w1 Em) as (t1 & H1 & P1).
    destruct (Hk a w1 r w' E) as (t2 & H2 & P2).
    exists (t1 ++ t2). rewrite H2, H1, <- app_assoc, forallb_app, P1, P2. auto.
  - exact (Hm w _ w' Em).
Qed.

Lemma adds_try {A} P (m : M A) (h : exn -> M A) :
  adds P m -> (forall e, adds P (h e)) -> adds P (try_except m h).
Proof.
  intros Hm Hh w r w' E.
  apply try_except_cases in E as [(a & Em & _) | (e & w1 & Em & E)].
  - exact (Hm w _ w' Em).
  - destruct (Hm w _ w1 Em) as (t1 & H1 & P1).
    destruct (Hh e w1 r w' E) as (t2 & H2 & P2).
    exists (t1 ++ t2). rewrite H2, H1, <- app_assoc, forallb_app, P1, P2. auto.
Qed.

Lemma adds_with_session {A} P k method (call : M A) :
  adds P call -> adds P (with_session k method call).
Proof.
  intros Hc. unfold with_session. apply adds_bind; [apply adds_get_world|].
  intros w. destruct (holder k w) as [[[|]]|]; auto using adds_raise.
Qed.

End ComputationFacts.

Section MoreComputationFacts.

Lemma yields_raise {A} (Q : result A -> Prop) (e : exn) :
  Q (Raise e) -> yields Q (@raise A e).
Proof. intros H w r w' E. injection E as <- _. exact H. Qed.

Lemma mbind_then {A B C} (m1 : M A) (m2 : A -> M B) (k : B -> M C) w b w1 :
  mbind m1 m2 w = Some (Ok b, w1) ->
  mbind m1 (fun a => mbind (m2 a) k) w = k b w1.
Proof.
  unfold mbind. destruct (m1 w) as [[[a|e] w0]|]; try discriminate.
  now intros ->.
Qed.

(** What the three say together. *)
Lemma ends_with {A} (Q : result A -> Prop) (P : event -> bool) (m : M A) :
  ends (okif anything) m -> yields Q m -> adds P m ->
  forall w, exists r w' trace,
    m w = Some (r, w') /\ Q r /\
    events w' = events w ++ trace /\ forallb P trace = true.
Proof.
  intros He Hy Ha w. destruct (He w) as (r & w' & E & _).
  destruct (Ha w r w' E) as (trace & Ht & HP).
  exists r, w', trace. eauto using Hy.
Qed.

End MoreComputationFacts.

Create HintDb ends.
Create HintDb adds.

#[local] Hint Resolve ends_ret ends_raise ends_lift ends_get_world ends_check
  ends_emit ends_log_error ends_set_holder : ends.

#[local] Hint Resolve adds_ret adds_raise adds_lift adds_diverge adds_get_world
  adds_check adds_set_holder adds_set_current_project_name adds_next_bedrock_rank
  adds_next_tool_rank : adds.

Ltac ends_step :=
  match goal with
  | |- ends _ _ => solve [auto with ends]
  | |- ends _ (mbind _ _) => apply ends_bind; [|intros ?]
  | |- ends _ (try_except _ _) => apply ends_try; [|intros ?]
  | |- ends _ (with_session _ _ _) => apply ends_with_session
  | |- ends _ (match ?x with _ => _ end) => destruct x
  | |- ends _ (if ?x then _ else _) => destruct x
  | |- ends _ (let _ := _ in _) => cbv zeta
  end.

Ltac ends_all := repeat ends_step.

Ltac adds_step :=
  match goal with
  | |- adds _ _ => solve [auto with adds]
  | |- adds _ (mbind _ _) => apply adds_bind; [|intros ?]
  | |- adds _ (try_except _ _) => apply adds_try; [|intros ?]
  | |- adds _ (with_session _ _ _) => apply adds_with_session
  | |- adds _ (log_error _) => apply adds_emit; first [reflexivity | solve [auto]]
  | |- adds _ (emit _) => apply adds_emit; first [reflexivity | solve [auto]]
  | |- adds _ (match ?x with _ => _ end) => destruct x
  | |- adds _ (if ?x then _ else _) => destruct x
  | |- adds _ (let _ := _ in _) => cbv zeta
  end.

Ltac adds_all := repeat adds_step.

Ltac yields_step :=
  match goal with
  | |- yields (okif _) (mbind _ _) => apply yields_bind; intros ?
  | |- yields (isok _) (mbind (log_error _) _) =>
      apply yields_bind_ok; [apply yields_log_error | intros ?]
  | |- yields _ (ret _) => apply yields_ret
  | |- yields (okif _) (raise _) => apply yields_raise; exact I
  | |- yields (okif _) (lift _) => apply yields_lift
  | |- yields _ (match ?x with _ => _ end) => destruct x
  | |- yields _ (if ?x then _ else _) => destruct x
  | |- yields _ (let _ := _ in _) => cbv zeta
  end.

Ltac yields_all := repeat yields_step.

(** *** The stages, whatever the collaborators do *)

Section StageFacts.

Variable E : Env.

Lemma ends_run_process argv cwd : ends (okif anything) (run_process E argv cwd).
Proof. unfold run_process. ends_all. Qed.

Lemma ends_mkdir path : ends (okif anything) (mkdir E path).
Proof. unfold mkdir. ends_all. Qed.

Lemma ends_write_file path content : ends (okif anything) (write_file E path content).
Proof. unfold write_file. ends_all. Qed.

Lemma ends_construct k : ends (okif anything) (construct E k).
Proof. unfold construct. ends_all. Qed.

Lemma ends_connect k : ends (okif anything) (connect E k).
Proof. unfold connect. ends_all. Qed.

Lemma ends_describe_vpcs args : ends (okif anything) (describe_vpcs E args).
Proof. unfold describe_vpcs. ends_all. Qed.

Hint Resolve ends_run_process ends_mkdir ends_write_file ends_construct ends_connect
  ends_describe_vpcs : ends.

Lemma ends_parse raw vpc_id region :
  ends (okif anything) (_parse_vpc_data_with_llm E raw vpc_id region).
Proof. unfold _parse_vpc_data_with_llm. ends_all. Qed.

Lemma ends_convert_logged alibaba_data vpc_id region :
  ends (okif anything) (_convert_alibaba_vpc_format_logged alibaba_data vpc_id region).
Proof. unfold _convert_alibaba_vpc_format_logged. ends_all. Qed.

Hint Resolve ends_parse ends_convert_logged : ends.

Lemma ends_get_vpc_info vpc_id region : ends (okif anything) (get_vpc_info E vpc_id region).
Proof. unfold get_vpc_info. ends_all. Qed.

Lemma ends_list_vpcs region : ends (okif anything) (list_vpcs E region).
Proof. unfold list_vpcs. ends_all. Qed.

Hint Resolve ends_get_vpc_info ends_list_vpcs : ends.

Lemma ends_extract state : ends (okif anything) (extract_alibaba_vpc E state).
Proof. unfold extract_alibaba_vpc. ends_all. Qed.

Lemma ends_transform state : ends (okif anything) (transform_vpc_data E state).
Proof. unfold transform_vpc_data. ends_all. Qed.

Lemma ends_deploy state : ends (okif anything) (deploy_to_aws E state).
Proof. unfold deploy_to_aws. ends_all. Qed.

End StageFacts.

(** *** What the stages add to the trace and what they return *)

Section StageTraces.

Variable E : Env.
Variable P : event -> bool.

Hypothesis P_log : forall msg, P (EvLogError msg) = true.

Section Provider.

Hypothesis P_connect : P (EvConnect Alibaba) = true.
Hypothesis P_call : forall tool args, P (EvProviderCall tool args) = true.
Hypothesis P_llm : P EvParseLLM = true.

Lemma adds_construct k : adds P (construct E k).
Proof. unfold construct. adds_all. Qed.

Lemma adds_connect_alibaba : adds P (connect E Alibaba).
Proof. unfold connect. adds_all. Qed.

Lemma adds_describe_vpcs args : adds P (describe_vpcs E args).
Proof. unfold describe_vpcs. adds_all. Qed.

Hint Resolve adds_construct adds_connect_alibaba adds_describe_vpcs : adds.

Lemma adds_parse raw vpc_id region :
  adds P (_parse_vpc_data_with_llm E raw vpc_id region).
Proof. unfold _parse_vpc_data_with_llm. adds_all. Qed.

Lemma adds_convert_logged alibaba_data vpc_id region :
  adds P (_convert_alibaba_vpc_format_logged alibaba_data vpc_id region).
Proof. unfold _convert_alibaba_vpc_format_logged. adds_all. Qed.

Hint Resolve adds_parse adds_convert_logged : adds.

Lemma adds_get_vpc_info vpc_id region : adds P (get_vpc_info E vpc_id region).
Proof. unfold get_vpc_info. adds_all. Qed.

Lemma adds_list_vpcs region : adds P (list_vpcs E region).
Proof. unfold list_vpcs. adds_all. Qed.

Hint Resolve adds_get_vpc_info adds_list_vpcs : adds.

Lemma adds_extract state : adds P (extract_alibaba_vpc E state).
Proof. unfold extract_alibaba_vpc. adds_all. Qed.

End Provider.

Lemma adds_transform state : adds P (transform_vpc_data E state).
Proof. unfold transform_vpc_data. adds_all. Qed.

End StageTraces.

Section StageResults.

Variable E : Env.

Lemma yields_extract state :
  yields (isok (fun state' =>
                  exists data,
                    state' = set_status (lit "vpc_extracted")
                               (set_alibaba_vpc_data data state)))
         (extract_alibaba_vpc E state).
Proof.
  unfold extract_alibaba_vpc. apply yields_try.
  - yields_all; cbn; eauto.
  - intros e. yields_all. cbn. eauto.
Qed.

Lemma yields_transform state :
  yields (isok (fun state' =>
                  (exists transformed,
                     state' = set_status (lit "data_transformed")
                                (set_transformed_data transformed state)) \/
                  (exists msg,
                     state' = set_status (lit "error") (set_error_message msg state))))
         (transform_vpc_data E state).
Proof.
  unfold transform_vpc_data. apply yields_try.
  - yields_all; cbn; eauto.
  - intros e. yields_all. cbn. eauto.
Qed.

Lemma yields_generate steps state :
  yields (isok (fun state' =>
                  (exists project_path cdk_code,
                     state' = set_status (lit "cdk_generated")
                                (set_cdk_project_path project_path
                                   (set_cdk_code cdk_code state))) \/
                  (exists msg,
                     state' = set_status (lit "error") (set_error_message msg state))))
         (generate_cdk_project E steps state).
Proof.
  unfold generate_cdk_project. apply yields_try.
  - yields_all; cbn; eauto.
  - intros e. yields_all. cbn. eauto.
Qed.

Lemma yields_deploy state :
  yields (isok (fun state' =>
                  (exists output,
                     state' = set_status (lit "completed")
                                (set_deployment_result
                                   (VDict [(lit "status", VStr (lit "deployed"));
                                           (lit "output", VStr output);
                                           (lit "project_path", VStr (project_dir state))])
                                   state)) \/
                  (exists msg,
                     state' = set_status (lit "error") (set_error_message msg state))))
         (deploy_to_aws E state).
Proof.
  unfold deploy_to_aws. apply yields_try.
  - yields_all; cbn; eauto.
  - intros e. yields_all. cbn. eauto.
Qed.

End StageResults.

(** *** No stage touches the trace of the engine *)

Section EngineTrace.

Variable E : Env.

Lemma not_node_log msg : not_node (EvLogError msg) = true.
Proof. reflexivity. Qed.

Lemma quiet_extract state : adds not_node (extract_alibaba_vpc E state).
Proof. apply adds_extract; reflexivity. Qed.

Lemma quiet_transform state : adds not_node (transform_vpc_data E state).
Proof. apply adds_transform; reflexivity. Qed.

Lemma quiet_run_process argv cwd : adds not_node (run_process E argv cwd).
Proof. unfold run_process. adds_all. Qed.

Lemma quiet_mkdir path : adds not_node (mkdir E path).
Proof. unfold mkdir. adds_all. Qed.

Lemma quiet_write_file path content : adds not_node (write_file E path content).
Proof. unfold write_file. adds_all. Qed.

Lemma quiet_construct k : adds not_node (construct E k).
Proof. unfold construct. adds_all. Qed.

Lemma quiet_connect k : adds not_node (connect E k).
Proof. unfold connect. adds_all. Qed.

Lemma quiet_invoke_model messages : adds not_node (invoke_model E messages).
Proof. unfold invoke_model. adds_all. Qed.

Hint Resolve quiet_run_process quiet_mkdir quiet_write_file quiet_construct
  quiet_connect quiet_invoke_model : adds.

Lemma quiet_scan_blocks blocks : forall final_text amc messages,
  adds not_node (scan_blocks E blocks final_text amc messages).
Proof.
  induction blocks as [|content rest IH]; intros final_text amc messages;
    cbn [scan_blocks]; adds_all.
Qed.

Hint Resolve quiet_scan_blocks : adds.

Lemma quiet_generation_loop steps : forall response final_text messages,
  adds not_node (generation_loop E steps response final_text messages).
Proof.
  induction steps as [|steps IH]; intros response final_text messages;
    cbn [generation_loop]; adds_all.
Qed.

Hint Resolve quiet_generation_loop : adds.

Lemma quiet_generate_cdk_code steps description :
  adds not_node (generate_cdk_code E steps description).
Proof. unfold generate_cdk_code. adds_all. Qed.

Hint Resolve quiet_generate_cdk_code : adds.

Lemma quiet_obtain steps state : adds not_node (obtain_cdk_code E steps state).
Proof. unfold obtain_cdk_code. adds_all. Qed.

Hint Resolve quiet_obtain : adds.

Lemma quiet_generate steps state : adds not_node (generate_cdk_project E steps state).
Proof. unfold generate_cdk_project, _fix_bin_file. adds_all. Qed.

Lemma quiet_deploy state : adds not_node (deploy_to_aws E state).
Proof. unfold deploy_to_aws. adds_all. Qed.

Lemma nodes_run_app t1 t2 : nodes_run (t1 ++ t2) = nodes_run t1 ++ nodes_run t2.
Proof. unfold nodes_run. apply flat_map_app. Qed.

Lemma nodes_run_quiet trace : forallb not_node trace = true -> nodes_run trace = [].
Proof.
  induction trace as [|ev trace IH]; [reflexivity|].
  cbn [forallb]. intros H. apply andb_true_iff in H as [Hev Ht].
  destruct ev; try discriminate; cbn; auto.
Qed.

(** A stage that ends left a state and no mark of a node. *)
Lemma stage_step (Q : MigrationState -> Prop) (m : M MigrationState) w r w1 :
  yields (isok Q) m -> adds not_node m ->
  m w = Some (r, w1) ->
  exists state', r = Ok state' /\ Q state' /\
                 nodes_run (events w1) = nodes_run (events w).
Proof.
  intros Hy Ha Em. pose proof (Hy w r w1 Em) as Hr.
  destruct (Ha w r w1 Em) as (trace & Ht & HP).
  destruct r as [state'|e]; [|contradiction].
  exists state'. split; [reflexivity|]. split; [exact Hr|].
  rewrite Ht, nodes_run_app, (nodes_run_quiet _ HP). apply app_nil_r.
Qed.

Lemma ainvoke_unfold steps state :
  ainvoke (_build_workflow E steps) state
  = (emit (EvNode "extract_vpc") ;;
     state1 <- extract_alibaba_vpc E state ;;
     emit (EvNode "transform_data") ;;
     state2 <- transform_vpc_data E state1 ;;
     emit (EvNode "generate_cdk") ;;
     state3 <- generate_cdk_project E steps state2 ;;
     emit (EvNode "deploy_aws") ;;
     state4 <- deploy_to_aws E state3 ;;
     ret state4)%M.
Proof. reflexivity. Qed.

End EngineTrace.

(** *** The whole run *)

Section RunFacts.

Variable E : Env.

Lemma release_trace_quiet k w : nodes_run (release_trace E k w) = [].
Proof.
  unfold release_trace. destruct (holder k w); [|reflexivity].
  destruct (aclose E k); reflexivity.
Qed.

Lemma failure_log_quiet {A} (r : result A) : nodes_run (failure_log r) = [].
Proof. destruct r; reflexivity. Qed.

(** What a workflow that ends has done and left. *)
Lemma ainvoke_outcome steps cfg name dir w r w1 :
  ainvoke (_build_workflow E steps) (initial_state cfg name dir) w = Some (r, w1) ->
  nodes_run (events w1)
  = nodes_run (events w)
      ++ ["extract_vpc"; "transform_data"; "generate_cdk"; "deploy_aws"]%string /\
  exists final,
    r = Ok final /\
    same_inputs (initial_state cfg name dir) final /\
    ((status final = lit "completed" /\
      getitem (deployment_result final) (lit "status") = Ok (VStr (lit "deployed")))
     \/
     (status final = lit "error" /\ deployment_result final = VDict [])).
Proof.
  rewrite ainvoke_unfold. intros H.
  apply mbind_cases in H as [(u0 & w0 & E0 & H) | (e & E0 & _)]; [|discriminate].
  injection E0 as _ <-.
  apply mbind_cases in H as [(x1 & v1 & E1 & H) | (e & E1 & ->)].
  2:{ destruct (stage_step _ _ _ _ _ (yields_extract E _) (quiet_extract E _) E1)
        as (? & ? & _); discriminate. }
  destruct (stage_step _ _ _ _ _ (yields_extract E _) (quiet_extract E _) E1)
    as (s1 & Hs1 & (data & ->) & N1).
  injection Hs1 as ->.
  apply mbind_cases in H as [(u1 & w1' & E1' & H) | (e & E1' & _)]; [|discriminate].
  injection E1' as _ <-.
  apply mbind_cases in H as [(x2 & v2 & E2 & H) | (e & E2 & ->)].
  2:{ destruct (stage_step _ _ _ _ _ (yields_transform E _) (quiet_transform E _) E2)
        as (? & ? & _); discriminate. }
  destruct (stage_step _ _ _ _ _ (yields_transform E _) (quiet_transform E _) E2)
    as (s2 & Hs2 & Q2 & N2).
  injection Hs2 as ->.
  apply mbind_cases in H as [(u2 & w2' & E2' & H) | (e & E2' & _)]; [|discriminate].
  injection E2' as _ <-.
  apply mbind_cases in H as [(x3 & v3 & E3 & H) | (e & E3 & ->)].
  2:{ destruct (stage_step _ _ _ _ _ (yields_generate E steps _) (quiet_generate E steps _) E3)
        as (? & ? & _); discriminate. }
  destruct (stage_step _ _ _ _ _ (yields_generate E steps _) (quiet_generate E steps _) E3)
    as (s3 & Hs3 & Q3 & N3).
  injection Hs3 as ->.
  apply mbind_cases in H as [(u3 & w3' & E3' & H) | (e & E3' & _)]; [|discriminate].
  injection E3' as _ <-.
  apply mbind_cases in H as [(x4 & v4 & E4 & H) | (e & E4 & ->)].
  2:{ destruct (stage_step _ _ _ _ _ (yields_deploy E _) (quiet_deploy E _) E4)
        as (? & ? & _); discriminate. }
  destruct (stage_step _ _ _ _ _ (yields_deploy E _) (quiet_deploy E _) E4)
    as (s4 & Hs4 & Q4 & N4).
  injection Hs4 as ->.
  injection H as <- <-.
  split.
  - rewrite N4. cbn [events]. rewrite nodes_run_app, N3. cbn [events].
    rewrite nodes_run_app, N2. cbn [events]. rewrite nodes_run_app, N1.
    cbn [events]. rewrite nodes_run_app. cbn. now rewrite <- !app_assoc.
  - exists s4. split; [reflexivity|].
    assert (F2 : same_inputs (initial_state cfg name dir) s2 /\
                 deployment_result s2 = VDict []).
    { destruct Q2 as [(t & ->) | (msg & ->)]; repeat split. }
    assert (F3 : same_inputs (initial_state cfg name dir) s3 /\
                 deployment_result s3 = VDict []).
    { destruct F2 as ((A & B & C) & D).
      destruct Q3 as [(p & c & ->) | (msg & ->)]; repeat split; assumption. }
    destruct F3 as ((A & B & C) & D).
    destruct Q4 as [(out & ->) | (msg & ->)].
    + split; [repeat split; assumption|]. left. split; reflexivity.
    + split; [repeat split; assumption|]. right. split; [reflexivity | exact D].
Qed.

Lemma run_migration_outcome steps cfg name dir w r w' :
  run_migration E steps cfg name dir w = Some (r, w') ->
  exists w1,
    ainvoke (_build_workflow E steps) (initial_state cfg name dir) w = Some (r, w1) /\
    events w' = events w1 ++ failure_log r
                  ++ release_trace E CdkGen w1 ++ release_trace E Alibaba w1.
Proof.
  intros H.
  destruct (ainvoke (_build_workflow E steps) (initial_state cfg name dir) w)
    as [[r1 w1]|] eqn:Ha.
  - destruct (run_migration_with_releases E _ cfg name dir w w1 r1 Ha)
      as (w2 & Hr & Hev).
    unfold run_migration in H. rewrite Hr in H. injection H as <- <-.
    exists w1. split; [reflexivity | exact Hev].
  - unfold run_migration, run_migration_with, try_except, mbind in H.
    rewrite Ha in H. discriminate.
Qed.

End RunFacts.

(* ================================================================== *)
(** ** Further properties of the code                                   *)
(* ================================================================== *)

(** X1.  Whenever a run of [run_migration] returns, the engine has run
    the four stages [extract_vpc], [transform_data], [generate_cdk],
    [deploy_aws], once each and in this order, whatever each of them
    reported; no other node runs, [handle_error] in particular. *)
Theorem every_run_visits_the_four_stages
  (E : Env) (steps : nat) (cfg : source_config) (name dir : str)
  (w w' : World) (r : result MigrationState) :
  run_migration E steps cfg name dir w = Some (r, w') ->
  nodes_run (events w')
  = nodes_run (events w)
      ++ ["extract_vpc"; "transform_data"; "generate_cdk"; "deploy_aws"]%string.
Proof.
  intros H. destruct (run_migration_outcome E steps cfg name dir w r w' H)
    as (w1 & Ha & Hev).
  destruct (ainvoke_outcome E steps cfg name dir w r w1 Ha) as (Hn & _).
  rewrite Hev, !nodes_run_app, Hn, failure_log_quiet, !release_trace_quiet.
  now rewrite !app_nil_r.
Qed.

Lemma every_run_visits_the_four_stages_witness :
  exists final w',
    run_migration install_fails 5 vpc_1 (lit "demo-app") (lit "output") fresh
      = Some (Ok final, w') /\
    status final = lit "error" /\
    nodes_run (events w')
    = ["extract_vpc"; "transform_data"; "generate_cdk"; "deploy_aws"]%string.
Proof.
  eassert (Hrun : run_migration install_fails 5 vpc_1 (lit "demo-app") (lit "output") fresh
                  = Some (Ok _, _)) by (vm_compute; reflexivity).
  match type of Hrun with
  | _ = Some (Ok ?final, ?w') =>
      exists final, w'; split; [exact Hrun|]; split; [reflexivity|];
      exact (every_run_visits_the_four_stages
               install_fails 5 vpc_1 (lit "demo-app") (lit "output") fresh w' (Ok final) Hrun)
  end.
Defined.

(** X2.  [run_migration] raises nothing: whenever it returns, it returns
    a state, whose inputs are those of the call and whose [status] is
    ["completed"], with a [deployment_result] whose [status] is
    ["deployed"], or ["error"], with the empty [deployment_result] of the
    start; no run ends on the status of an earlier stage. *)
Theorem run_ends_completed_or_error
  (E : Env) (steps : nat) (cfg : source_config) (name dir : str)
  (w w' : World) (r : result MigrationState) :
  run_migration E steps cfg name dir w = Some (r, w') ->
  exists final,
    r = Ok final /\
    same_inputs (initial_state cfg name dir) final /\
    ((status final = lit "completed" /\
      getitem (deployment_result final) (lit "status") = Ok (VStr (lit "deployed")))
     \/
     (status final = lit "error" /\ deployment_result final = VDict [])).
Proof.
  intros H. destruct (run_migration_outcome E steps cfg name dir w r w' H)
    as (w1 & Ha & _).
  exact (proj2 (ainvoke_outcome E steps cfg name dir w r w1 Ha)).
Qed.

Lemma run_ends_completed_or_error_witness :
  exists final w',
    run_migration calm 5 vpc_1 (lit "demo-app") (lit "output") fresh
      = Some (Ok final, w') /\
    status final = lit "completed" /\
    getitem (deployment_result final) (lit "status") = Ok (VStr (lit "deployed")).
Proof.
  eassert (Hrun : run_migration calm 5 vpc_1 (lit "demo-app") (lit "output") fresh
                  = Some (Ok _, _)) by (vm_compute; reflexivity).
  match type of Hrun with
  | _ = Some (Ok ?final, ?w') =>
      exists final, w'; split; [exact Hrun|];
      destruct (run_ends_completed_or_error
                  calm 5 vpc_1 (lit "demo-app") (lit "output") fresh w' (Ok final) Hrun)
        as (final' & Heq & _ & [Hdone | [Herr _]])
  end.
  - injection Heq as <-. exact Hdone.
  - injection Heq as <-. vm_compute in Herr. discriminate.
Defined.

(** X3.  The extract stage always ends, raises nothing and never reports
    an error: it returns the state it was given with [alibaba_vpc_data]
    set and [status] ["vpc_extracted"], nothing else changed
    ([error_message] included).  All it does outside is to connect the
    Alibaba client, call the provider, ask the LLM to parse, and log: it
    starts no process and writes no file. *)
Theorem extract_always_ends_extracted (E : Env) (state : MigrationState) (w : World) :
  exists data w' trace,
    extract_alibaba_vpc E state w
    = Some (Ok (set_status (lit "vpc_extracted") (set_alibaba_vpc_data data state)), w') /\
    events w' = events w ++ trace /\
    forallb extract_event trace = true.
Proof.
  assert (Ha : adds extract_event (extract_alibaba_vpc E state))
    by (apply adds_extract; reflexivity).
  destruct (ends_with _ _ _ (ends_extract E state) (yields_extract E state) Ha w)
    as ([state'|e] & w' & trace & Hrun & Hq & Ht & HP); [|contradiction].
  destruct Hq as (data & ->). exists data, w', trace. auto.
Qed.

(** X4.  When the workflow has no Alibaba client yet and the client
    cannot be made (its constructor raises), the extract stage takes its
    own fixed record: the id is [vpc-fallback-123456] and the region
    [cn-hangzhou] whatever id and region were requested; the failure is
    logged and no client is kept. *)
Theorem extract_without_client_takes_the_fixed_record
  (E : Env) (state : MigrationState) (w : World) (e : exn) :
  aliyun_client w = None ->
  boto3_client E Alibaba = Some e ->
  exists w',
    extract_alibaba_vpc E state w
    = Some (Ok (set_status (lit "vpc_extracted")
                  (set_alibaba_vpc_data fallback_vpc_data state)), w') /\
    getitem fallback_vpc_data (lit "vpc_id") = Ok (VStr (lit "vpc-fallback-123456")) /\
    getitem fallback_vpc_data (lit "region") = Ok (VStr (lit "cn-hangzhou")) /\
    events w' = events w
                ++ [EvLogError ([10060%N] ++ lit " Failed to extract VPC data: "
                                  ++ exn_text e)] /\
    aliyun_client w' = None.
Proof.
  intros Hc Hb. unfold extract_alibaba_vpc, construct. run_m. cbn.
  rewrite Hc, Hb. cbn. eexists. split; [reflexivity|].
  repeat split. exact Hc.
Qed.

Lemma extract_without_client_takes_the_fixed_record_witness :
  aliyun_client fresh = None /\
  boto3_client no_credentials Alibaba = Some (Exn ExternalError (lit "no region")) /\
  exists w',
    extract_alibaba_vpc no_credentials (demo_state vpc_1) fresh
    = Some (Ok (set_status (lit "vpc_extracted")
                  (set_alibaba_vpc_data fallback_vpc_data (demo_state vpc_1))), w').
Proof.
  split; [reflexivity|]. split; [reflexivity|].
  destruct (extract_without_client_takes_the_fixed_record
              no_credentials (demo_state vpc_1) fresh
              (Exn ExternalError (lit "no region")) eq_refl eq_refl)
    as (w' & Hrun & _).
  exists w'. exact Hrun.
Defined.

(** X5.  When [cdk init] exits with a non-zero status, the generate stage
    stops there: it ends in ["error"] with the message
    ["CDK init failed: "] followed by the standard error of the command;
    the directory has been made, the code generator is neither made nor
    connected, and no file is written. *)
Theorem failed_init_stops_the_generate_stage
  (E : Env) (steps : nat) (state : MigrationState) (w : World) (p : completed_process) :
  fs_mkdir E (project_path_of state) = None ->
  subprocess_run E cdk_init (project_path_of state) = Ok p ->
  returncode p <> 0%Z ->
  exists w',
    generate_cdk_project E steps state w
    = Some (Ok (set_status (lit "error")
                  (set_error_message (lit "CDK init failed: " ++ stderr p) state)), w') /\
    events w' = events w
                ++ [EvMkdir (project_path_of state);
                    EvSubprocess cdk_init (project_path_of state);
                    EvLogError ([10060%N] ++ lit " Failed to generate CDK project: "
                                  ++ lit "CDK init failed: " ++ stderr p)] /\
    cdk_generator w' = cdk_generator w.
Proof.
  intros Hdir Hinit Hrc.
  unfold generate_cdk_project, obtain_cdk_code.
  fold (project_path_of state). fold cdk_init.
  run_m. cbn. rewrite Hdir. cbn. rewrite Hinit.
  destruct (Z.eqb_spec (returncode p) 0) as [Hz|_]; [contradiction|]. cbn.
  eexists. split; [reflexivity|]. cbn. split; [|reflexivity].
  now rewrite <- !app_assoc.
Qed.

Lemma failed_init_stops_the_generate_stage_witness :
  fs_mkdir init_fails (project_path_of transformed_state) = None /\
  subprocess_run init_fails cdk_init (project_path_of transformed_state)
    = Ok (exit_with 1) /\
  returncode (exit_with 1) <> 0%Z /\
  exists w',
    generate_cdk_project init_fails 5 transformed_state fresh
    = Some (Ok (set_status (lit "error")
                  (set_error_message (lit "CDK init failed: failed") transformed_state)),
            w') /\
    cdk_generator w' = None.
Proof.
  assert (Hrc : returncode (exit_with 1) <> 0%Z) by discriminate.
  split; [reflexivity|]. split; [reflexivity|]. split; [exact Hrc|].
  destruct (failed_init_stops_the_generate_stage
              init_fails 5 transformed_state fresh (exit_with 1) eq_refl eq_refl Hrc)
    as (w' & Hrun & _ & Hgen).
  exists w'. split; [exact Hrun | exact Hgen].
Defined.

(** X6.  A code generator whose server could not be started is not
    noticed by the generate stage: [connect_to_cdk_server] logs and
    returns [False], the stage goes on, [generate_cdk_code] returns the
    text of the [AttributeError] on the missing session without invoking
    the backend, no code is found in that text, and the stage writes an
    empty stack definition file and ends with [status]
    ["cdk_generated"]. *)
Theorem unconnected_generator_gives_an_empty_stack
  (E : Env) (steps : nat) (state : MigrationState) (w : World)
  (e : exn) (p : completed_process) (description : str) :
  cdk_generator w = None ->
  boto3_client E CdkGen = None ->
  connect_result E CdkGen = FailedBeforeSession e ->
  fs_mkdir E (project_path_of state) = None ->
  subprocess_run E cdk_init (project_path_of state) = Ok p ->
  returncode p = 0%Z ->
  _create_cdk_description E (target_project_name state) (transformed_data state)
    = Ok description ->
  fs_write E (stack_file_of (project_path_of state) (target_project_name state)) []
    = None ->
  fs_write E (bin_file_of (project_path_of state) (target_project_name state))
           (bin_content_of (target_project_name state)) = None ->
  exists w',
    generate_cdk_project E steps state w
    = Some (Ok (set_status (lit "cdk_generated")
                  (set_cdk_project_path (project_path_of state)
                     (set_cdk_code no_session_text state))), w') /\
    events w' = events w
                ++ [EvMkdir (project_path_of state);
                    EvSubprocess cdk_init (project_path_of state);
                    EvConnect CdkGen;
                    EvLogError (lit "Error connecting to CDK MCP server: " ++ exn_text e);
                    EvLogError (lit "Error generating CDK code: "
                                  ++ exn_text (no_attribute VNone "list_tools"));
                    EvWrite (stack_file_of (project_path_of state)
                                           (target_project_name state)) [];
                    EvWrite (bin_file_of (project_path_of state)
                                         (target_project_name state))
                            (bin_content_of (target_project_name state))] /\
    bedrock_calls w' = bedrock_calls w.
Proof.
  intros Hgen Hboto Hconn Hdir Hinit Hrc Hdesc Hstack Hbin.
  assert (Hcode : _extract_typescript_code no_session_text = [])
    by (vm_compute; reflexivity).
  unfold generate_cdk_project, obtain_cdk_code, _fix_bin_file, generate_cdk_code,
    construct, connect, with_session, holder.
  fold (project_path_of state). fold cdk_init.
  run_m. cbn. rewrite Hdir. cbn. rewrite Hinit, Hrc. cbn.
  rewrite Hgen, Hboto. cbn. rewrite Hconn. cbn. rewrite Hdesc. cbn.
  change (lit "Error: " ++ lit "'" ++ lit "NoneType"
            ++ lit "' object has no attribute '" ++ lit "list_tools" ++ lit "'")
    with no_session_text.
  unfold stack_file_of, bin_file_of, project_path_of in Hstack, Hbin.
  unfold stack_file_of, bin_file_of, project_path_of.
  rewrite Hcode, Hstack. cbn. rewrite Hbin. cbn.
  eexists. split; [reflexivity|]. cbn. split; [|reflexivity].
  rewrite <- !(@app_assoc event). reflexivity.
Qed.

Lemma unconnected_generator_gives_an_empty_stack_witness :
  exists description w',
    _create_cdk_description no_cdk_server (target_project_name transformed_state)
                            (transformed_data transformed_state) = Ok description /\
    generate_cdk_project no_cdk_server 5 transformed_state fresh
    = Some (Ok (set_status (lit "cdk_generated")
                  (set_cdk_project_path (lit "output/demo-app")
                     (set_cdk_code no_session_text transformed_state))), w') /\
    In (EvWrite (lit "output/demo-app/lib/demo-app-stack.ts") []) (events w').
Proof.
  eassert (Hdesc : _create_cdk_description no_cdk_server
                     (target_project_name transformed_state)
                     (transformed_data transformed_state) = Ok _)
    by (vm_compute; reflexivity).
  match type of Hdesc with
  | _ = Ok ?description =>
      exists description;
      destruct (unconnected_generator_gives_an_empty_stack
                  no_cdk_server 5 transformed_state fresh
                  (Exn ExternalError (lit "uvx not found")) (exit_with 0) description
                  eq_refl eq_refl eq_refl eq_refl eq_refl eq_refl Hdesc eq_refl eq_refl)
        as (w' & Hrun & Hev & _)
  end.
  exists w'. split; [exact Hdesc|]. split; [exact Hrun|].
  rewrite Hev. apply in_or_app. right. do 5 right. left. reflexivity.
Defined.

(** X7.  Once the generator has answered, the generate stage writes to
    the stack definition file the code it extracts from the answer, and
    keeps in [cdk_code] the answer as it came, not the code written.
    When that first write fails, the stage ends in ["error"] with the
    text of the exception, the entry-point file is not written, and
    neither [cdk_code] nor [cdk_project_path] is set. *)
Theorem stack_file_gets_the_extracted_code
  (E : Env) (steps : nat) (state : MigrationState) (w w1 : World)
  (project_path cdk_code : str) :
  obtain_cdk_code E steps state w = Some (Ok (project_path, cdk_code), w1) ->
  (fs_write E (stack_file_of project_path (target_project_name state))
            (_extract_typescript_code cdk_code) = None ->
   fs_write E (bin_file_of project_path (target_project_name state))
            (bin_content_of (target_project_name state)) = None ->
   exists w',
     generate_cdk_project E steps state w
     = Some (Ok (set_status (lit "cdk_generated")
                   (set_cdk_project_path project_path (set_cdk_code cdk_code state))),
             w') /\
     events w' = events w1
                 ++ [EvWrite (stack_file_of project_path (target_project_name state))
                             (_extract_typescript_code cdk_code);
                     EvWrite (bin_file_of project_path (target_project_name state))
                             (bin_content_of (target_project_name state))]) /\
  (forall e,
     fs_write E (stack_file_of project_path (target_project_name state))
              (_extract_typescript_code cdk_code) = Some e ->
     exists w',
       generate_cdk_project E steps state w
       = Some (Ok (set_status (lit "error") (set_error_message (exn_text e) state)), w') /\
       files_written (events w')
       = files_written (events w1)
           ++ [(stack_file_of project_path (target_project_name state),
                _extract_typescript_code cdk_code)]).
Proof.
  intros Hcode. split.
  - intros Hstack Hbin. unfold generate_cdk_project. eexists. split.
    + apply try_except_ok. rewrite (mbind_ok _ _ _ _ _ Hcode). cbn [fst snd].
      unfold _fix_bin_file. run_m. cbn. rewrite Hstack. cbn. rewrite Hbin. reflexivity.
    + cbn. now rewrite <- (@app_assoc event).
  - intros e Hstack. unfold generate_cdk_project. eexists. split.
    + erewrite try_except_raise.
      2:{ rewrite (mbind_ok _ _ _ _ _ Hcode). cbn [fst snd].
          unfold _fix_bin_file. run_m. cbn. rewrite Hstack. reflexivity. }
      reflexivity.
    + cbn. unfold files_written. rewrite !flat_map_app. cbn. now rewrite app_nil_r.
Qed.

Lemma stack_file_gets_the_extracted_code_witness :
  exists w1 w',
    obtain_cdk_code calm 2 transformed_state fresh
    = Some (Ok (lit "output/demo-app", generated_text), w1) /\
    generate_cdk_project calm 2 transformed_state fresh
    = Some (Ok (set_status (lit "cdk_generated")
                  (set_cdk_project_path (lit "output/demo-app")
                     (set_cdk_code generated_text transformed_state))), w') /\
    In (EvWrite (lit "output/demo-app/lib/demo-app-stack.ts")
                (lit "import * as cdk from 'aws-cdk-lib';")) (events w').
Proof.
  eassert (Hcode : obtain_cdk_code calm 2 transformed_state fresh
                   = Some (Ok (lit "output/demo-app", generated_text), _))
    by (vm_compute; reflexivity).
  match type of Hcode with
  | _ = Some (_, ?w1) =>
      exists w1;
      destruct (stack_file_gets_the_extracted_code
                  calm 2 transformed_state fresh w1 (lit "output/demo-app") generated_text
                  Hcode) as (Hwritten & _);
      destruct (Hwritten eq_refl eq_refl) as (w' & Hrun & Hev)
  end.
  exists w'. split; [exact Hcode|]. split; [exact Hrun|].
  rewrite Hev. apply in_or_app. right. left. vm_compute. reflexivity.
Defined.

(** X8.  The exit status of [cdk bootstrap] is not looked at, but the
    command has to start: when [npm install] succeeded and
    [cdk bootstrap] cannot be run (the call raises), the deploy stage ends
    in ["error"] with the text of the exception and [cdk deploy] is not
    run. *)
Theorem bootstrap_must_start
  (E : Env) (state : MigrationState) (w : World) (p1 : completed_process) (e : exn) :
  subprocess_run E npm_install (project_dir state) = Ok p1 ->
  returncode p1 = 0%Z ->
  subprocess_run E cdk_bootstrap (project_dir state) = Raise e ->
  exists w',
    deploy_to_aws E state w
    = Some (Ok (set_status (lit "error") (set_error_message (exn_text e) state)), w') /\
    processes_run (events w')
    = processes_run (events w) ++ [npm_install; cdk_bootstrap].
Proof.
  intros H1 Hz H2. unfold deploy_to_aws. fold (project_dir state).
  fold npm_install cdk_bootstrap cdk_deploy.
  run_m. cbn. rewrite H1, Hz. cbn. rewrite H2.
  eexists. split; [reflexivity|]. cbn.
  unfold processes_run. rewrite !flat_map_app. cbn.
  now rewrite app_nil_r, <- app_assoc.
Qed.

Lemma bootstrap_must_start_witness :
  exists w',
    deploy_to_aws no_cdk_binary generated_state fresh
    = Some (Ok (set_status (lit "error")
                  (set_error_message (lit "[Errno 2] No such file or directory: 'cdk'")
                     generated_state)), w') /\
    processes_run (events w') = [npm_install; cdk_bootstrap].
Proof.
  exact (bootstrap_must_start
           no_cdk_binary generated_state fresh (exit_with 0)
           (Exn ExternalError (lit "[Errno 2] No such file or directory: 'cdk'"))
           eq_refl eq_refl eq_refl).
Defined.

(** X9.  The deploy stage does not read the [status] it is given: when
    [npm install] and [cdk deploy] exit with 0 it ends ["completed"],
    with the standard output of [cdk deploy] and the directory in
    [deployment_result], also for a state that arrives with [status]
    ["error"], whose [error_message] it leaves in place. *)
Theorem deploy_does_not_read_the_status
  (E : Env) (state : MigrationState) (w : World) (p1 p2 p3 : completed_process) :
  subprocess_run E npm_install (project_dir state) = Ok p1 ->
  subprocess_run E cdk_bootstrap (project_dir state) = Ok p2 ->
  subprocess_run E cdk_deploy (project_dir state) = Ok p3 ->
  returncode p1 = 0%Z ->
  returncode p3 = 0%Z ->
  exists state' w',
    deploy_to_aws E state w = Some (Ok state', w') /\
    status state' = lit "completed" /\
    error_message state' = error_message state /\
    deployment_result state'
    = VDict [(lit "status", VStr (lit "deployed"));
             (lit "output", VStr (stdout p3));
             (lit "project_path", VStr (project_dir state))].
Proof.
  intros H1 H2 H3 Hz1 Hz3. unfold deploy_to_aws. fold (project_dir state).
  fold npm_install cdk_bootstrap cdk_deploy.
  run_m. cbn. rewrite H1, Hz1. cbn. rewrite H2. cbn. rewrite H3, Hz3. cbn.
  do 2 eexists. split; [reflexivity|]. repeat split.
Qed.

Lemma deploy_does_not_read_the_status_witness :
  status (set_status (lit "error")
            (set_error_message (lit "'cidr_block'") (demo_state no_vpc_id)))
  = lit "error" /\
  exists state' w',
    deploy_to_aws calm
      (set_status (lit "error")
         (set_error_message (lit "'cidr_block'") (demo_state no_vpc_id))) fresh
    = Some (Ok state', w') /\
    status state' = lit "completed" /\
    error_message state' = lit "'cidr_block'".
Proof.
  split; [reflexivity|].
  destruct (deploy_does_not_read_the_status
              calm
              (set_status (lit "error")
                 (set_error_message (lit "'cidr_block'") (demo_state no_vpc_id)))
              fresh (exit_with 0) (exit_with 0) (exit_with 0)
              eq_refl eq_refl eq_refl eq_refl eq_refl)
    as (state' & w' & Hrun & Hs & Hm & _).
  exists state', w'. split; [exact Hrun|]. split; [exact Hs | exact Hm].
Defined.

(** X10.  The transform stage reports the first thing it misses and
    leaves no partial result: for a record without [vpc_name] (the empty
    record of the start, or a record in the provider's own format), it
    ends in ["error"] with the message ['vpc_name']; for a record with a
    text [vpc_name] and no [cidr_block], with ['cidr_block'];
    [transformed_data] stays as it was, and the failure is logged. *)
Theorem transform_reports_the_missing_key
  (E : Env) (state : MigrationState) (w : World) (d : list (str * value)) :
  alibaba_vpc_data state = VDict d ->
  (lookup (lit "vpc_name") d = None ->
   exists w',
     transform_vpc_data E state w
     = Some (Ok (set_status (lit "error")
                   (set_error_message (lit "'vpc_name'") state)), w') /\
     events w' = events w
                 ++ [EvLogError ([10060%N] ++ lit " Failed to transform data: "
                                   ++ lit "'vpc_name'")]) /\
  (forall name,
     lookup (lit "vpc_name") d = Some (VStr name) ->
     lookup (lit "cidr_block") d = None ->
     exists w',
       transform_vpc_data E state w
       = Some (Ok (set_status (lit "error")
                     (set_error_message (lit "'cidr_block'") state)), w') /\
       events w' = events w
                   ++ [EvLogError ([10060%N] ++ lit " Failed to transform data: "
                                     ++ lit "'cidr_block'")]).
Proof.
  intros Hd. split.
  - intros Hn. unfold transform_vpc_data, transform_body. rewrite Hd.
    cbn [getitem]. rewrite Hn. eexists. split; reflexivity.
  - intros name Hn Hc. unfold transform_vpc_data, transform_body. rewrite Hd.
    cbn [getitem]. rewrite Hn. cbn [rbind replace_dash_v]. rewrite Hc.
    eexists. split; reflexivity.
Qed.

Lemma transform_reports_the_missing_key_witness :
  alibaba_vpc_data bare_state = VDict [(lit "vpc_id", VStr (lit "vpc-1"));
                                       (lit "vpc_name", VStr (lit "legacy-vpc"))] /\
  exists w',
    transform_vpc_data calm bare_state fresh
    = Some (Ok (set_status (lit "error")
                  (set_error_message (lit "'cidr_block'") bare_state)), w').
Proof.
  split; [reflexivity|].
  destruct (transform_reports_the_missing_key calm bare_state fresh
              [(lit "vpc_id", VStr (lit "vpc-1"));
               (lit "vpc_name", VStr (lit "legacy-vpc"))] eq_refl)
    as (_ & Hcidr).
  destruct (Hcidr (lit "legacy-vpc") eq_refl eq_refl) as (w' & Hrun & _).
  exists w'. exact Hrun.
Defined.

(** *** The normalizer: unwrapping and selection *)

Section MoreNormalizerFacts.

Lemma find_vpc_found vpc_id before d after :
  forallb (is_other_vpc vpc_id) before = true ->
  has_id vpc_id d = true ->
  find_vpc vpc_id (before ++ VDict d :: after) = Ok (Some (VDict d)).
Proof.
  intros Hb Hd. induction before as [|x before IH].
  - cbn [app find_vpc]. get_dicts. cbn [rbind].
    unfold has_id in Hd.
    destruct (eq_str (field d (lit "VpcId")) vpc_id); [reflexivity|].
    cbn [orb] in Hd. now rewrite Hd.
  - cbn [forallb] in Hb. apply andb_true_iff in Hb as [Hx Hb].
    destruct x as [| | | | |l|dx]; cbn [is_other_vpc] in Hx; try discriminate.
    apply andb_true_iff in Hx as [H1 H2]. apply negb_true_iff in H1, H2.
    cbn [app find_vpc]. get_dicts. cbn [rbind]. rewrite H1, H2. auto.
Qed.

Lemma getitem0_nonempty (x : value) l : getitem0 (VList (x :: l)) = Ok x.
Proof. reflexivity. Qed.

Lemma convert_selected alibaba_data vpc_id region vpcs d vswitches :
  unwrap_vpcs alibaba_data = Ok vpcs ->
  truthy vpcs = true ->
  select_vpc vpcs vpc_id = Ok (VDict d) ->
  convert_vswitches region (VDict d) = Ok vswitches ->
  _convert_alibaba_vpc_format alibaba_data vpc_id region
  = built_from d vpc_id region vswitches.
Proof.
  intros Hu Ht Hs Hv. unfold _convert_alibaba_vpc_format, convert_body.
  rewrite Hu. cbn [rbind]. rewrite Ht. cbn [negb]. rewrite Hs. cbn [rbind].
  now rewrite (convert_entry_dict d vpc_id region vswitches Hv).
Qed.

Lemma truthy_nonempty_id (vpc_id : str) : vpc_id <> [] -> truthy (VStr vpc_id) = true.
Proof. destruct vpc_id; [contradiction | reflexivity]. Qed.

End MoreNormalizerFacts.

(** X11.  The normalizer converts the entry that was asked for: when an
    id is requested, the first entry of the collection that has it under
    [VpcId] or [vpc_id] is the one converted, wherever it stands; when
    none is requested, the first entry is, whatever follows it. *)
Theorem requested_entry_is_converted
  (alibaba_data : value) (vpc_id region : str)
  (before after : list value) (d : list (str * value)) (vswitches : list value) :
  unwrap_vpcs alibaba_data = Ok (VList (before ++ VDict d :: after)) ->
  convert_vswitches region (VDict d) = Ok vswitches ->
  (vpc_id <> [] ->
   forallb (is_other_vpc vpc_id) before = true ->
   has_id vpc_id d = true ->
   _convert_alibaba_vpc_format alibaba_data vpc_id region
   = built_from d vpc_id region vswitches) /\
  (before = [] ->
   _convert_alibaba_vpc_format alibaba_data [] region
   = built_from d [] region vswitches).
Proof.
  intros Hu Hv. split.
  - intros Hid Hb Hd.
    apply (convert_selected alibaba_data vpc_id region _ d vswitches Hu); [| |exact Hv].
    + destruct before; reflexivity.
    + unfold select_vpc. rewrite (truthy_nonempty_id vpc_id Hid).
      assert (Hf : exists first, getitem0 (VList (before ++ VDict d :: after)) = Ok first)
        by (destruct before; cbn; eauto).
      destruct Hf as (first & ->). cbn [rbind iter].
      now rewrite (find_vpc_found vpc_id before d after Hb Hd).
  - intros ->. apply (convert_selected alibaba_data [] region _ d vswitches Hu);
      [reflexivity | reflexivity | exact Hv].
Qed.

Lemma requested_entry_is_converted_witness :
  unwrap_vpcs two_vpcs = Ok (VList ([VDict vpc_a] ++ VDict vpc_b :: [])) /\
  lit "vpc-b" <> [] /\
  forallb (is_other_vpc (lit "vpc-b")) [VDict vpc_a] = true /\
  has_id (lit "vpc-b") vpc_b = true /\
  getitem (_convert_alibaba_vpc_format two_vpcs (lit "vpc-b") (lit "cn-hangzhou"))
          (lit "vpc_name")
  = Ok (VStr (lit "prod-vpc")).
Proof.
  assert (Hid : lit "vpc-b" <> []) by discriminate.
  split; [reflexivity|]. split; [exact Hid|]. split; [reflexivity|].
  split; [reflexivity|].
  eassert (Hv : convert_vswitches (lit "cn-hangzhou") (VDict vpc_b) = Ok _)
    by (vm_compute; reflexivity).
  destruct (requested_entry_is_converted two_vpcs (lit "vpc-b") (lit "cn-hangzhou")
              [VDict vpc_a] [] vpc_b _ eq_refl Hv) as (Hfound & _).
  rewrite (Hfound Hid eq_refl eq_refl). reflexivity.
Defined.

(** X12.  A response that is an object with none of the names [body],
    [Vpcs], [vpcs], [Vpc], or whose collection under [vpcs] is empty,
    gives the synthetic record, with the requested id and region. *)
Theorem no_collection_gives_the_mock
  (d : list (str * value)) (vpc_id region : str) :
  lookup (lit "body") d = None ->
  lookup (lit "Vpcs") d = None ->
  (lookup (lit "vpcs") d = None /\ lookup (lit "Vpc") d = None) \/
  lookup (lit "vpcs") d = Some (VList []) ->
  _convert_alibaba_vpc_format (VDict d) vpc_id region
  = _get_mock_vpc_data vpc_id region.
Proof.
  intros Hb HV Hv. unfold _convert_alibaba_vpc_format, convert_body, unwrap_vpcs.
  cbn [contains rbind]. rewrite Hb. cbn [rbind contains]. rewrite HV.
  cbn [rbind contains].
  destruct Hv as [[Hv HVpc] | Hv].
  - rewrite Hv. cbn [rbind contains]. rewrite HVpc. reflexivity.
  - rewrite Hv. cbn [rbind contains getitem]. rewrite Hv. reflexivity.
Qed.

Lemma no_collection_gives_the_mock_witness :
  _convert_alibaba_vpc_format
    (VDict [(lit "RequestId", VStr (lit "r-1")); (lit "TotalCount", VInt 0)])
    (lit "vpc-1") (lit "cn-hangzhou")
  = _get_mock_vpc_data (lit "vpc-1") (lit "cn-hangzhou").
Proof.
  apply (no_collection_gives_the_mock
           [(lit "RequestId", VStr (lit "r-1")); (lit "TotalCount", VInt 0)]);
    [reflexivity | reflexivity | left; split; reflexivity].
Defined.

(** X13.  The [body] envelope is transparent: a response that carries
    its data under [body] is converted as that data is, provided the data
    has no [body] of its own. *)
Theorem body_envelope_is_transparent
  (d : list (str * value)) (data : value) (vpc_id region : str) :
  lookup (lit "body") d = Some data ->
  contains (lit "body") data = Ok false ->
  _convert_alibaba_vpc_format (VDict d) vpc_id region
  = _convert_alibaba_vpc_format data vpc_id region.
Proof.
  intros Hb Hn. unfold _convert_alibaba_vpc_format, convert_body.
  assert (Hu : unwrap_vpcs (VDict d) = unwrap_vpcs data).
  { unfold unwrap_vpcs. rewrite Hn. cbn [contains rbind getitem]. rewrite Hb.
    reflexivity. }
  now rewrite Hu.
Qed.

Lemma body_envelope_is_transparent_witness :
  _convert_alibaba_vpc_format
    (VDict [(lit "statusCode", VInt 200); (lit "body", only_vpc_a)])
    (lit "vpc-a") (lit "cn-hangzhou")
  = _convert_alibaba_vpc_format only_vpc_a (lit "vpc-a") (lit "cn-hangzhou").
Proof.
  apply (body_envelope_is_transparent
           [(lit "statusCode", VInt 200); (lit "body", only_vpc_a)] only_vpc_a);
    reflexivity.
Defined.

(** X14.  A response that holds one VPC as an object under [Vpc], and no
    collection under [Vpcs] or [vpcs], is converted from that object,
    whatever id was requested. *)
Theorem single_vpc_object_is_converted
  (d entry : list (str * value)) (vpc_id region : str) (vswitches : list value) :
  lookup (lit "body") d = None ->
  lookup (lit "Vpcs") d = None ->
  lookup (lit "vpcs") d = None ->
  lookup (lit "Vpc") d = Some (VDict entry) ->
  convert_vswitches region (VDict entry) = Ok vswitches ->
  _convert_alibaba_vpc_format (VDict d) vpc_id region
  = built_from entry vpc_id region vswitches.
Proof.
  intros Hb HV Hv HVpc Hc.
  assert (Hu : unwrap_vpcs (VDict d) = Ok (VList [VDict entry])).
  { unfold unwrap_vpcs. cbn [contains rbind]. rewrite Hb. cbn [rbind contains].
    rewrite HV. cbn [rbind contains]. rewrite Hv. cbn [rbind contains].
    rewrite HVpc. cbn [rbind getitem]. rewrite HVpc. reflexivity. }
  apply (convert_selected (VDict d) vpc_id region _ entry vswitches Hu);
    [reflexivity | | exact Hc].
  unfold select_vpc. cbn [getitem0 rbind iter find_vpc]. get_dicts. cbn [rbind].
  destruct (truthy (VStr vpc_id)); [|reflexivity].
  destruct (eq_str (field entry (lit "VpcId")) vpc_id); [reflexivity|].
  destruct (eq_str (field entry (lit "vpc_id")) vpc_id); reflexivity.
Qed.

Lemma single_vpc_object_is_converted_witness :
  getitem (_convert_alibaba_vpc_format (VDict [(lit "Vpc", VDict vpc_a)])
                                       (lit "vpc-zzz") (lit "cn-hangzhou"))
          (lit "vpc_id")
  = Ok (VStr (lit "vpc-a")).
Proof.
  rewrite (single_vpc_object_is_converted
             [(lit "Vpc", VDict vpc_a)] vpc_a (lit "vpc-zzz") (lit "cn-hangzhou") []
             eq_refl eq_refl eq_refl eq_refl eq_refl).
  reflexivity.
Defined.

(** *** The normalizer: what it makes up *)

Section SyntheticFacts.

Lemma vswitch_entries_spec region ids : forall start,
  (start + N.of_nat (length ids) <= 1114015)%N ->
  exists vswitches,
    vswitch_entries region start ids = Ok vswitches /\
    length vswitches = length ids /\
    forall i vswitch_id,
      nth_error ids i = Some vswitch_id ->
      nth_error vswitches i
      = Some (synthetic_vswitch region (start + N.of_nat i) vswitch_id).
Proof.
  induction ids as [|id ids IH]; intros start Hb.
  - exists []. split; [reflexivity|]. split; [reflexivity|].
    intros [|i] x H; discriminate.
  - cbn [length] in Hb. cbn [vswitch_entries]. unfold chr.
    destruct (N.ltb_spec (97 + start) 1114112) as [_|Hge]; [|lia].
    cbn [rbind].
    destruct (IH (start + 1)%N) as (l & Hl & Hlen & Hnth); [lia|].
    rewrite Hl. cbn [rbind]. eexists. split; [reflexivity|].
    split; [cbn; now rewrite Hlen|].
    intros [|i] x H; cbn [nth_error] in *.
    + injection H as <-. unfold synthetic_vswitch. now rewrite N.add_0_r.
    + rewrite (Hnth i x H). do 2 f_equal. lia.
Qed.

Lemma shape_of_the_record data vpc_id region :
  exists v_id v_name v_cidr v_status vswitches groups,
    _convert_alibaba_vpc_format data vpc_id region
    = VDict [ (lit "vpc_id", v_id); (lit "vpc_name", v_name);
              (lit "cidr_block", v_cidr); (lit "region", VStr region);
              (lit "status", v_status); (lit "vswitches", VList vswitches);
              (lit "security_groups", groups) ] /\
    ((groups = mock_security_groups /\
      vswitches = [synthetic_mock region 0; synthetic_mock region 1]) \/
     (groups = default_security_groups vpc_id /\
      exists target, convert_vswitches region target = Ok vswitches)).
Proof.
  assert (Hmock : exists v_id v_name v_cidr v_status vswitches groups,
             _get_mock_vpc_data vpc_id region
             = VDict [ (lit "vpc_id", v_id); (lit "vpc_name", v_name);
                       (lit "cidr_block", v_cidr); (lit "region", VStr region);
                       (lit "status", v_status); (lit "vswitches", VList vswitches);
                       (lit "security_groups", groups) ] /\
             ((groups = mock_security_groups /\
               vswitches = [synthetic_mock region 0; synthetic_mock region 1]) \/
              (groups = default_security_groups vpc_id /\
               exists target, convert_vswitches region target = Ok vswitches))).
  { do 6 eexists. split; [reflexivity|]. left. split; reflexivity. }
  unfold _convert_alibaba_vpc_format.
  destruct (convert_body data vpc_id region) as [c|e] eqn:Hb; [|exact Hmock].
  unfold convert_body in Hb. inv_bind Hb.
  destruct (negb (truthy x)).
  - injection Hb as <-. exact Hmock.
  - inv_bind Hb.
    apply convert_entry_shape in Hb as (a & b & c0 & s & vs & Hvs & ->).
    do 6 eexists. split; [reflexivity|]. right. split; [reflexivity|]. eauto.
Qed.

End SyntheticFacts.

(** X15.  For a VPC that embeds the ids of its vswitches, the normalizer
    makes up one subnet per id, in order: the subnet of rank [i] (from 0)
    carries the id as it is, the name [subnet-(i+1)], the CIDR
    [10.0.(i+1).0/24], the zone made of the region and of the letter
    [chr(97+i)], and the status [Available].  But for the id, nothing of
    it is read from the provider. *)
Theorem one_subnet_per_embedded_id
  (region : str) (d h : list (str * value)) (ids : list value) :
  lookup (lit "VSwitchIds") d = Some (VDict h) ->
  lookup (lit "VSwitchId") h = Some (VList ids) ->
  (N.of_nat (length ids) <= 1114015)%N ->
  exists vswitches,
    convert_vswitches region (VDict d) = Ok vswitches /\
    length vswitches = length ids /\
    forall i vswitch_id,
      nth_error ids i = Some vswitch_id ->
      nth_error vswitches i = Some (synthetic_vswitch region (N.of_nat i) vswitch_id).
Proof.
  intros Hd Hh Hb.
  destruct (vswitch_entries_spec region ids 0) as (l & Hl & Hlen & Hnth); [lia|].
  exists l. split; [|split; [exact Hlen | exact Hnth]].
  unfold convert_vswitches. cbn [contains rbind getitem]. rewrite Hd.
  cbn [rbind contains getitem]. rewrite Hh. cbn [rbind iter getitem].
  rewrite ?Hd, ?Hh. cbn [rbind iter getitem]. rewrite ?Hh. exact Hl.
Qed.

Lemma one_subnet_per_embedded_id_witness :
  exists vswitches,
    convert_vswitches (lit "cn-hangzhou") (VDict vpc_b) = Ok vswitches /\
    length vswitches = 2 /\
    nth_error vswitches 1
    = Some (VDict [ (lit "vswitch_id", VStr (lit "vsw-2"));
                    (lit "name", VStr (lit "subnet-2"));
                    (lit "cidr_block", VStr (lit "10.0.2.0/24"));
                    (lit "availability_zone", VStr (lit "cn-hangzhou-b"));
                    (lit "status", VStr (lit "Available")) ]).
Proof.
  destruct (one_subnet_per_embedded_id (lit "cn-hangzhou") vpc_b
              [(lit "VSwitchId", VList [VStr (lit "vsw-1"); VStr (lit "vsw-2")])]
              [VStr (lit "vsw-1"); VStr (lit "vsw-2")] eq_refl eq_refl)
    as (vswitches & Hc & Hlen & Hnth); [vm_compute; discriminate|].
  exists vswitches. split; [exact Hc|]. split; [exact Hlen|].
  exact (Hnth 1 (VStr (lit "vsw-2")) eq_refl).
Defined.

(** X16.  Whatever the response, the record of the normalizer carries the
    region it was called with, never one read from the response, and its
    security groups are made up: either those of the synthetic record, or
    the single group [default-sg] whose id is [sg-] followed by the
    requested id. *)
Theorem region_and_groups_are_not_read_from_the_response
  (alibaba_data : value) (vpc_id region : str) :
  getitem (_convert_alibaba_vpc_format alibaba_data vpc_id region) (lit "region")
  = Ok (VStr region) /\
  (getitem (_convert_alibaba_vpc_format alibaba_data vpc_id region)
           (lit "security_groups") = Ok mock_security_groups
   \/
   getitem (_convert_alibaba_vpc_format alibaba_data vpc_id region)
           (lit "security_groups") = Ok (default_security_groups vpc_id)).
Proof.
  destruct (shape_of_the_record alibaba_data vpc_id region)
    as (v_id & v_name & v_cidr & v_status & vswitches & groups & -> & Hg).
  split; [reflexivity|].
  destruct Hg as [[-> _] | [-> _]]; [left | right]; reflexivity.
Qed.

(** *** The transformer: zones and security groups *)

Section MoreTransformFacts.

Lemma az_mapping_get_ok zone az :
  az_mapping_get zone = Ok az -> az = VStr (mapped_zone zone).
Proof.
  unfold az_mapping_get, mapped_zone.
  destruct zone as [| | | |s| |]; cbn [eq_str]; intros H; try discriminate;
    try (injection H as <-; reflexivity).
  destruct (str_eqb s (lit "cn-hangzhou-a")) eqn:Ha.
  - injection H as <-. apply str_eqb_eq in Ha. subst s. reflexivity.
  - destruct (str_eqb s (lit "cn-hangzhou-b")); now injection H as <-.
Qed.

Lemma transform_vswitch_zone vswitch subnet :
  transform_vswitch vswitch = Ok subnet -> zone_of vswitch subnet.
Proof.
  unfold transform_vswitch. intros H.
  inv_bind H. inv_bind H. inv_bind H. inv_bind H. inv_bind H.
  injection H as <-. apply az_mapping_get_ok in Hx3. subst.
  exists x2. split; [assumption | reflexivity].
Qed.

Lemma transform_rule_spec B rule aws_rule :
  transform_rule B rule = Ok aws_rule -> rule_of B rule aws_rule.
Proof.
  unfold transform_rule. intros H.
  inv_bind H. inv_bind H. inv_bind H. inv_bind H. inv_bind H. inv_bind H.
  injection H as <-.
  assert (x2 = x0) by congruence. subst x2.
  assert (x3 = x1) by congruence. subst x3.
  exists x, x0, x4, x1. auto.
Qed.

Lemma transform_security_group_spec B sg out :
  transform_security_group B sg = Ok out -> security_group_of B sg out.
Proof.
  unfold transform_security_group. intros H.
  inv_bind H. inv_bind H. inv_bind H. inv_bind H. inv_bind H. inv_bind H.
  injection H as <-.
  apply replace_dash_v_ok in Hx0 as (name & -> & ->).
  exists name, x1, x3, x4. repeat split; auto.
  - now rewrite Hx2.
  - apply for_each_Forall2 in Hx4.
    eapply Forall2_impl; [|exact Hx4]. intros a b. apply transform_rule_spec.
Qed.

End MoreTransformFacts.

(** X17.  Every subnet of the transformer lies in one of two zones:
    [us-east-1b] when the vswitch is in [cn-hangzhou-b], [us-east-1a] in
    every other case, a zone of another region or a value that is no text
    included. *)
Theorem subnets_land_in_two_zones (B : Builtins) (alibaba_data transformed : value) :
  transform_body B alibaba_data = Ok transformed ->
  exists vswitches subnets,
    (v <- getitem alibaba_data (lit "vswitches") ;; iter v) = Ok vswitches /\
    getitem transformed (lit "subnets") = Ok (VList subnets) /\
    Forall2 zone_of vswitches subnets.
Proof.
  unfold transform_body. intros H.
  inv_bind H. inv_bind H. inv_bind H. inv_bind H. inv_bind H. inv_bind H.
  inv_bind H. inv_bind H. inv_bind H. injection H as <-.
  exists x3, x4. split; [|split].
  - rewrite Hx2. exact Hx3.
  - reflexivity.
  - apply for_each_Forall2 in Hx4.
    eapply Forall2_impl; [|exact Hx4]. intros a b. apply transform_vswitch_zone.
Qed.

Lemma subnets_land_in_two_zones_witness :
  exists transformed vswitches subnets,
    transform_body demo_builtins (_get_mock_vpc_data [] (lit "ap-southeast-1"))
    = Ok transformed /\
    getitem transformed (lit "subnets") = Ok (VList subnets) /\
    Forall2 zone_of vswitches subnets /\
    Forall (fun subnet => getitem subnet (lit "availability_zone")
                          = Ok (VStr (lit "us-east-1a"))) subnets.
Proof.
  eassert (Ht : transform_body demo_builtins (_get_mock_vpc_data [] (lit "ap-southeast-1"))
                = Ok _) by (vm_compute; reflexivity).
  match type of Ht with
  | _ = Ok ?transformed =>
      exists transformed;
      destruct (subnets_land_in_two_zones demo_builtins _ transformed Ht)
        as (vswitches & subnets & _ & Hs & Hz)
  end.
  exists vswitches, subnets. split; [exact Ht|]. split; [exact Hs|]. split; [exact Hz|].
  cbn in Hs. injection Hs as <-. repeat constructor.
Defined.

(** X18.  Whenever the transformer succeeds, its security groups are, in
    order, those of its input: the name with [_] for every [-], a
    description that quotes the id of the group, and one ingress rule per
    rule, in order, whose two ports are the one port of the rule read by
    [int], whose protocol is that of the rule and whose only CIDR block is
    its source; the direction of a rule is not read. *)
Theorem security_groups_follow_groups (B : Builtins) (alibaba_data transformed : value) :
  transform_body B alibaba_data = Ok transformed ->
  exists groups outs,
    (g <- getitem alibaba_data (lit "security_groups") ;; iter g) = Ok groups /\
    getitem transformed (lit "security_groups") = Ok (VList outs) /\
    Forall2 (security_group_of B) groups outs.
Proof.
  unfold transform_body. intros H.
  inv_bind H. inv_bind H. inv_bind H. inv_bind H. inv_bind H. inv_bind H.
  inv_bind H. inv_bind H. inv_bind H. injection H as <-.
  exists x6, x7. split; [|split].
  - rewrite Hx5. exact Hx6.
  - reflexivity.
  - apply for_each_Forall2 in Hx7.
    eapply Forall2_impl; [|exact Hx7]. intros a b. apply transform_security_group_spec.
Qed.

Lemma security_groups_follow_groups_witness :
  exists transformed groups outs,
    transform_body demo_builtins mock_vpc = Ok transformed /\
    getitem transformed (lit "security_groups") = Ok (VList outs) /\
    Forall2 (security_group_of demo_builtins) groups outs /\
    length outs = 1.
Proof.
  eassert (Ht : transform_body demo_builtins mock_vpc = Ok _)
    by (vm_compute; reflexivity).
  match type of Ht with
  | _ = Ok ?transformed =>
      exists transformed;
      destruct (security_groups_follow_groups demo_builtins _ transformed Ht)
        as (groups & outs & _ & Hs & Hf)
  end.
  exists groups, outs. split; [exact Ht|]. split; [exact Hs|]. split; [exact Hf|].
  cbn in Hs. injection Hs as <-. reflexivity.
Defined.

(** *** The normalizer and the transformer together *)

Section CompositionFacts.

Variable B : Builtins.

Lemma well_formed_vswitch_transforms vswitch_id name cidr zone st :
  exists subnet,
    transform_vswitch
      (VDict [ (lit "vswitch_id", vswitch_id); (lit "name", VStr name);
               (lit "cidr_block", cidr); (lit "availability_zone", VStr zone);
               (lit "status", st) ]) = Ok subnet.
Proof.
  unfold transform_vswitch.
  change (getitem _ (lit "name")) with (Ok (VStr name)).
  change (getitem _ (lit "cidr_block")) with (Ok cidr).
  change (getitem _ (lit "availability_zone")) with (Ok (VStr zone)).
  cbn [rbind replace_dash_v az_mapping_get].
  destruct (str_eqb zone (lit "cn-hangzhou-a")); [eexists; reflexivity|].
  destruct (str_eqb zone (lit "cn-hangzhou-b")); eexists; reflexivity.
Qed.

Lemma synthetic_vswitches_transform region ids : forall start vswitches,
  vswitch_entries region start ids = Ok vswitches ->
  exists subnets, for_each transform_vswitch vswitches = Ok subnets.
Proof.
  induction ids as [|id ids IH]; intros start vswitches H; cbn [vswitch_entries] in H.
  - injection H as <-. exists []. reflexivity.
  - inv_bind H. inv_bind H. injection H as <-.
    destruct (IH _ _ Hx0) as (subnets & Hs).
    cbn [for_each].
    match goal with
    | |- context [transform_vswitch (VDict [(_, ?a); (_, VStr ?n); (_, ?c); (_, VStr ?z); (_, ?s)])] =>
        destruct (well_formed_vswitch_transforms a n c z s) as (subnet & ->)
    end.
    cbn [rbind]. rewrite Hs. eexists. reflexivity.
Qed.

Lemma converted_vswitches_transform region target vswitches :
  convert_vswitches region target = Ok vswitches ->
  exists subnets, for_each transform_vswitch vswitches = Ok subnets.
Proof.
  unfold convert_vswitches. intros H. inv_bind H. inv_bind H.
  destruct x0.
  - inv_bind H. inv_bind H. inv_bind H.
    exact (synthetic_vswitches_transform region _ _ _ H).
  - injection H as <-. exists []. reflexivity.
Qed.

Lemma mock_vswitches_transform region :
  exists subnets,
    for_each transform_vswitch [synthetic_mock region 0; synthetic_mock region 1]
    = Ok subnets.
Proof.
  cbn [for_each].
  destruct (well_formed_vswitch_transforms
              (VStr (lit "vsw-mock-123456")) (lit "demo-subnet-1")
              (VStr (lit "10.0.1.0/24")) (region ++ lit "-a") (VStr (lit "Available")))
    as (s1 & H1).
  destruct (well_formed_vswitch_transforms
              (VStr (lit "vsw-mock-789012")) (lit "demo-subnet-2")
              (VStr (lit "10.0.2.0/24")) (region ++ lit "-b") (VStr (lit "Available")))
    as (s2 & H2).
  change (synthetic_mock region 0)
    with (VDict [ (lit "vswitch_id", VStr (lit "vsw-mock-123456"));
                  (lit "name", VStr (lit "demo-subnet-1"));
                  (lit "cidr_block", VStr (lit "10.0.1.0/24"));
                  (lit "availability_zone", VStr (region ++ lit "-a"));
                  (lit "status", VStr (lit "Available")) ]).
  change (synthetic_mock region 1)
    with (VDict [ (lit "vswitch_id", VStr (lit "vsw-mock-789012"));
                  (lit "name", VStr (lit "demo-subnet-2"));
                  (lit "cidr_block", VStr (lit "10.0.2.0/24"));
                  (lit "availability_zone", VStr (region ++ lit "-b"));
                  (lit "status", VStr (lit "Available")) ]).
  rewrite H1. cbn [rbind]. rewrite H2. eexists. reflexivity.
Qed.

Hypothesis int_80 : exists z, int_of_str B (lit "80") = Some z.
Hypothesis int_443 : exists z, int_of_str B (lit "443") = Some z.

Lemma web_rule_transforms port direction :
  (exists z, int_of_str B port = Some z) ->
  exists aws_rule,
    transform_rule B (VDict [ (lit "protocol", VStr (lit "tcp"));
                              (lit "port", VStr port);
                              (lit "source", VStr (lit "0.0.0.0/0"));
                              (lit "direction", direction) ]) = Ok aws_rule.
Proof.
  intros (z & Hz). unfold transform_rule.
  change (getitem _ (lit "protocol")) with (Ok (VStr (lit "tcp"))).
  change (getitem _ (lit "port")) with (Ok (VStr port)).
  change (getitem _ (lit "source")) with (Ok (VStr (lit "0.0.0.0/0"))).
  cbn [rbind int]. rewrite Hz. eexists. reflexivity.
Qed.

Lemma web_group_transforms group_id name description :
  exists out,
    for_each (transform_security_group B)
      [VDict [ (lit "group_id", group_id); (lit "name", VStr name);
               (lit "description", description);
               (lit "rules", VList [
                  VDict [ (lit "protocol", VStr (lit "tcp"));
                          (lit "port", VStr (lit "80"));
                          (lit "source", VStr (lit "0.0.0.0/0"));
                          (lit "direction", VStr (lit "ingress")) ];
                  VDict [ (lit "protocol", VStr (lit "tcp"));
                          (lit "port", VStr (lit "443"));
                          (lit "source", VStr (lit "0.0.0.0/0"));
                          (lit "direction", VStr (lit "ingress")) ] ]) ]]
    = Ok out.
Proof.
  destruct (web_rule_transforms (lit "80") (VStr (lit "ingress")) int_80) as (r1 & H1).
  destruct (web_rule_transforms (lit "443") (VStr (lit "ingress")) int_443) as (r2 & H2).
  cbn [for_each]. unfold transform_security_group.
  change (getitem _ (lit "name")) with (Ok (VStr name)).
  change (getitem _ (lit "group_id")) with (Ok group_id).
  match goal with
  | |- context [getitem _ (lit "rules")] =>
      change (getitem _ (lit "rules"))
        with (Ok (VList [
                  VDict [ (lit "protocol", VStr (lit "tcp"));
                          (lit "port", VStr (lit "80"));
                          (lit "source", VStr (lit "0.0.0.0/0"));
                          (lit "direction", VStr (lit "ingress")) ];
                  VDict [ (lit "protocol", VStr (lit "tcp"));
                          (lit "port", VStr (lit "443"));
                          (lit "source", VStr (lit "0.0.0.0/0"));
                          (lit "direction", VStr (lit "ingress")) ] ]))
  end.
  cbn [rbind replace_dash_v iter for_each]. rewrite H1. cbn [rbind]. rewrite H2.
  eexists. reflexivity.
Qed.

Lemma made_up_groups_transform vpc_id groups :
  groups = mock_security_groups \/ groups = default_security_groups vpc_id ->
  exists out,
    (g <- iter groups ;; for_each (transform_security_group B) g) = Ok out.
Proof.
  intros [-> | ->].
  - destruct (web_group_transforms (VStr (lit "sg-mock-123456")) (lit "demo-sg")
                (VStr (lit "Demo security group"))) as (out & H).
    exists out. exact H.
  - destruct (web_group_transforms (VStr (lit "sg-" ++ vpc_id)) (lit "default-sg")
                (VStr (lit "Default security group"))) as (out & H).
    exists out. exact H.
Qed.

Lemma normalized_record_is_accepted data vpc_id region name :
  getitem (_convert_alibaba_vpc_format data vpc_id region) (lit "vpc_name")
  = Ok (VStr name) ->
  exists transformed,
    transform_body B (_convert_alibaba_vpc_format data vpc_id region) = Ok transformed.
Proof.
  destruct (shape_of_the_record data vpc_id region)
    as (v_id & v_name & v_cidr & v_status & vswitches & groups & -> & Hg).
  intros Hn. change (Ok v_name = Ok (VStr name)) in Hn. injection Hn as ->.
  assert (Hv : exists subnets, for_each transform_vswitch vswitches = Ok subnets).
  { destruct Hg as [[_ ->] | [_ (target & Ht)]].
    - apply mock_vswitches_transform.
    - exact (converted_vswitches_transform region target vswitches Ht). }
  assert (Hs : exists out,
             (g <- iter groups ;; for_each (transform_security_group B) g) = Ok out).
  { apply (made_up_groups_transform vpc_id). destruct Hg as [[-> _] | [-> _]]; auto. }
  destruct Hv as (subnets & Hv). destruct Hs as (out & Hs).
  unfold transform_body.
  change (getitem _ (lit "vpc_name")) with (Ok (VStr name)).
  change (getitem _ (lit "cidr_block")) with (Ok v_cidr).
  change (getitem _ (lit "vswitches")) with (Ok (VList vswitches)).
  change (getitem _ (lit "security_groups")) with (Ok groups).
  cbn [rbind replace_dash_v iter]. rewrite Hv. cbn [rbind].
  apply rbind_ok in Hs as (g & Hg1 & Hg2). rewrite Hg1. cbn [rbind]. rewrite Hg2.
  eexists. reflexivity.
Qed.

End CompositionFacts.

(** X19.  The normalizer and the transformer fit together: whatever the
    response of the provider, well formed or not, the record the
    normalizer returns is accepted by the transformer as soon as its
    [vpc_name] is a text ([int] reading ["80"] and ["443"], the ports of
    the groups the normalizer makes up). *)
Theorem normalized_records_transform
  (B : Builtins) (alibaba_data : value) (vpc_id region name : str) :
  (exists z, int_of_str B (lit "80") = Some z) ->
  (exists z, int_of_str B (lit "443") = Some z) ->
  getitem (_convert_alibaba_vpc_format alibaba_data vpc_id region) (lit "vpc_name")
  = Ok (VStr name) ->
  exists transformed,
    transform_body B (_convert_alibaba_vpc_format alibaba_data vpc_id region)
    = Ok transformed.
Proof.
  intros H80 H443 Hname.
  exact (normalized_record_is_accepted B H80 H443 alibaba_data vpc_id region name Hname).
Qed.

Lemma normalized_records_transform_witness :
  exists transformed,
    transform_body demo_builtins
      (_convert_alibaba_vpc_format two_vpcs (lit "vpc-b") (lit "cn-hangzhou"))
    = Ok transformed.
Proof.
  apply (normalized_records_transform demo_builtins two_vpcs (lit "vpc-b")
           (lit "cn-hangzhou") (lit "prod-vpc")).
  - exists 80%Z. reflexivity.
  - exists 443%Z. reflexivity.
  - reflexivity.
Defined.

(** *** Lines and words *)

Section LineFacts.

Lemma split_on_no_sep sep s :
  forallb (fun c => negb (N.eqb c sep)) s = true -> split_on sep s = [s].
Proof.
  induction s as [|c s IH]; [reflexivity|].
  cbn [forallb split_on]. intros H. apply andb_true_iff in H as [Hc Hs].
  apply negb_true_iff in Hc. rewrite Hc, (IH Hs). reflexivity.
Qed.

Lemma split_on_app sep p s :
  forallb (fun c => negb (N.eqb c sep)) p = true ->
  split_on sep (p ++ sep :: s) = p :: split_on sep s.
Proof.
  induction p as [|c p IH]; cbn [forallb app split_on]; intros H.
  - now rewrite N.eqb_refl.
  - apply andb_true_iff in H as [Hc Hp]. apply negb_true_iff in Hc.
    rewrite Hc, (IH Hp). reflexivity.
Qed.

(** [split] undoes [join] on lines that hold no newline. *)
Lemma split_on_join sep line rest :
  forallb (forallb (fun c => negb (N.eqb c sep))) (line :: rest) = true ->
  split_on sep (join [sep] (line :: rest)) = line :: rest.
Proof.
  revert line. induction rest as [|next rest IH]; intros line H.
  - cbn [forallb] in H. apply andb_true_iff in H as [H _].
    cbn [join]. now apply split_on_no_sep.
  - cbn [forallb] in H. apply andb_true_iff in H as [Hl Hr].
    change (join [sep] (line :: next :: rest))
      with (line ++ sep :: join [sep] (next :: rest)).
    rewrite (split_on_app sep line _ Hl). f_equal. apply IH. exact Hr.
Qed.

Lemma split_on_pieces sep s :
  Forall (fun piece => ~ In sep piece) (split_on sep s).
Proof.
  induction s as [|c s IH]; [repeat constructor; auto|].
  cbn [split_on]. destruct (N.eqb_spec c sep) as [->|Hc].
  - constructor; [auto | exact IH].
  - destruct (split_on sep s) as [|p ps]; [repeat constructor; intros [H|[]]; auto|].
    inversion IH as [|? ? Hp Hps]; subst. constructor; [|exact Hps].
    intros [H|H]; auto.
Qed.

Lemma scan_lines_in_code lines : scan_lines true lines = kept_lines lines.
Proof.
  induction lines as [|line rest IH]; [reflexivity|].
  cbn [scan_lines kept_lines filter].
  destruct (starts_code line); destruct (is_explanation line); cbn [negb];
    now rewrite IH.
Qed.

Lemma scan_lines_before pre line rest :
  forallb (fun l => negb (starts_code l)) pre = true ->
  starts_code line = true ->
  scan_lines false (pre ++ line :: rest) = kept_lines (line :: rest).
Proof.
  intros Hpre Hline. induction pre as [|l pre IH].
  - cbn [app scan_lines kept_lines filter]. rewrite Hline.
    destruct (is_explanation line); cbn [negb]; now rewrite scan_lines_in_code.
  - cbn [forallb] in Hpre. apply andb_true_iff in Hpre as [Hl Hpre].
    apply negb_true_iff in Hl. cbn [app scan_lines]. rewrite Hl. auto.
Qed.

Lemma lower_cp_no_dash c : c <> 45%N -> ~ In 45%N (lower_cp c).
Proof.
  intros Hc. unfold lower_cp.
  destruct ((65 <=? c) && (c <=? 90))%N eqn:Hu.
  - apply andb_true_iff in Hu as [H1 H2].
    apply N.leb_le in H1, H2. intros [H|[]]. lia.
  - destruct (N.eqb_spec c 304); [intros [H|[H|[]]]; discriminate|].
    destruct (N.eqb_spec c 8490); [intros [H|[]]; discriminate|].
    intros [H|[]]. auto.
Qed.

Lemma lower_no_dash s : ~ In 45%N s -> ~ In 45%N (lower s).
Proof.
  induction s as [|c s IH]; [auto|]. intros H Hin.
  unfold lower in Hin. cbn [flat_map] in Hin. apply in_app_or in Hin as [Hin|Hin].
  - apply (lower_cp_no_dash c); [|exact Hin]. intros ->. apply H. now left.
  - apply IH; [|exact Hin]. intros Hs. apply H. now right.
Qed.

Lemma capitalize_no_dash s : ~ In 45%N s -> ~ In 45%N (capitalize s).
Proof.
  destruct s as [|c s]; [auto|]. intros H [Hc|Hin].
  - unfold upper_cp in Hc.
    destruct ((97 <=? c) && (c <=? 122))%N eqn:Hu.
    + apply andb_true_iff in Hu as [H1 H2]. apply N.leb_le in H1, H2. lia.
    + apply H. now left.
  - apply (lower_no_dash s); [|exact Hin]. intros Hs. apply H. now right.
Qed.

Lemma split_on_chars sep s : forall piece c,
  In piece (split_on sep s) -> In c piece -> In c s.
Proof.
  induction s as [|x s IH]; intros piece c Hp Hc.
  - destruct Hp as [<-|[]]. destruct Hc.
  - cbn [split_on] in Hp. destruct (N.eqb x sep).
    + destruct Hp as [<-|Hp]; [destruct Hc|]. right. exact (IH piece c Hp Hc).
    + destruct (split_on sep s) as [|p ps].
      * destruct Hp as [<-|[]]. destruct Hc as [<-|[]]. now left.
      * destruct Hp as [<-|Hp].
        -- destruct Hc as [<-|Hc]; [now left|]. right. apply (IH p c); [now left | exact Hc].
        -- right. apply (IH piece c); [now right | exact Hc].
Qed.

Lemma lower_cp_ascii c : (c <? 128)%N = true -> is_ascii (lower_cp c) = true.
Proof.
  intros Hc. apply N.ltb_lt in Hc. unfold lower_cp, is_ascii.
  destruct ((65 <=? c) && (c <=? 90))%N eqn:Hu.
  - apply andb_true_iff in Hu as [H1 H2]. apply N.leb_le in H1, H2.
    cbn [forallb]. rewrite andb_true_r. apply N.ltb_lt. lia.
  - destruct (N.eqb_spec c 304); [lia|]. destruct (N.eqb_spec c 8490); [lia|].
    cbn [forallb]. rewrite andb_true_r. now apply N.ltb_lt.
Qed.

Lemma capitalize_ascii s : is_ascii s = true -> is_ascii (capitalize s) = true.
Proof.
  destruct s as [|c s]; [auto|]. unfold is_ascii. cbn [capitalize forallb].
  intros H. apply andb_true_iff in H as [Hc Hs]. apply andb_true_iff. split.
  - apply N.ltb_lt in Hc. unfold upper_cp.
    destruct ((97 <=? c) && (c <=? 122))%N; apply N.ltb_lt; lia.
  - unfold lower. induction s as [|d s IH]; [reflexivity|].
    cbn [forallb flat_map] in Hs |- *. apply andb_true_iff in Hs as [Hd Hs].
    rewrite forallb_app. apply andb_true_iff. split; [|exact (IH Hs)].
    exact (lower_cp_ascii d Hd).
Qed.

End LineFacts.

(** X20.  When the response holds no complete fenced block, the code
    extraction starts at the first line that, once trimmed, begins with
    [import], [export], [const], [class] or [interface]: every line
    before it is dropped, and of the lines from it on, those that hold
    one of the seven explanation phrases, in any case, are dropped,
    wherever the phrase stands in the line; the rest is joined and
    trimmed. *)
Theorem code_starts_at_the_first_code_line (pre rest : list str) (line : str) :
  forallb one_line (pre ++ line :: rest) = true ->
  first_fenced_block (join [10%N] (pre ++ line :: rest)) = None ->
  forallb (fun l => negb (starts_code l)) pre = true ->
  starts_code line = true ->
  _extract_typescript_code (join [10%N] (pre ++ line :: rest))
  = strip (join [10%N] (kept_lines (line :: rest))).
Proof.
  intros Hlines Hnone Hpre Hline.
  pose proof (findall_first (join [10%N] (pre ++ line :: rest))) as Hf.
  rewrite Hnone in Hf. unfold _extract_typescript_code.
  destruct (findall (join [10%N] (pre ++ line :: rest))) as [|first others];
    [|discriminate].
  assert (Hsplit : split_on 10 (join [10%N] (pre ++ line :: rest))
                   = pre ++ line :: rest).
  { destruct pre as [|l pre]; apply split_on_join; exact Hlines. }
  rewrite Hsplit, (scan_lines_before pre line rest Hpre Hline). reflexivity.
Qed.

Lemma code_starts_at_the_first_code_line_witness :
  first_fenced_block cut_answer = None /\
  _extract_typescript_code cut_answer
  = lit "import * as cdk from 'aws-cdk-lib';" ++ [10%N]
    ++ lit "export class DemoAppStack extends cdk.Stack {".
Proof.
  split; [reflexivity|].
  change cut_answer
    with (join [10%N] ([lit "Here is the stack:"; lit "```typescript"]
                         ++ lit "import * as cdk from 'aws-cdk-lib';"
                         :: [lit "// This CDK code creates the VPC";
                             lit "export class DemoAppStack extends cdk.Stack {"])).
  rewrite (code_starts_at_the_first_code_line
             [lit "Here is the stack:"; lit "```typescript"]
             [lit "// This CDK code creates the VPC";
              lit "export class DemoAppStack extends cdk.Stack {"]
             (lit "import * as cdk from 'aws-cdk-lib';")
             eq_refl eq_refl eq_refl eq_refl).
  vm_compute. reflexivity.
Defined.

(** X21.  For a project name in ASCII, the name of the stack class is
    in ASCII and holds no hyphen; when the project name holds none
    either, it is that name capitalized, that is with its first letter in
    upper case and the others in lower case, followed by [Stack]. *)
Theorem class_name_has_no_hyphen (project_name : str) :
  is_ascii project_name = true ->
  is_ascii (class_name_of project_name) = true /\
  ~ In 45%N (class_name_of project_name) /\
  (~ In 45%N project_name ->
   class_name_of project_name = capitalize project_name ++ lit "Stack").
Proof.
  intros Hascii. split; [|split].
  - unfold class_name_of, is_ascii. rewrite forallb_app.
    apply andb_true_iff. split; [|reflexivity].
    apply forallb_forall. intros c Hin.
    apply in_flat_map in Hin as (word & Hw & Hin).
    assert (Hword : is_ascii word = true).
    { apply forallb_forall. intros d Hd.
      unfold is_ascii in Hascii. rewrite forallb_forall in Hascii.
      exact (Hascii d (split_on_chars 45 project_name word d Hw Hd)). }
    pose proof (capitalize_ascii word Hword) as Hcap.
    unfold is_ascii in Hcap. rewrite forallb_forall in Hcap. exact (Hcap c Hin).
  - unfold class_name_of. intros Hin. apply in_app_or in Hin as [Hin|Hin].
    + apply in_flat_map in Hin as (word & Hw & Hin).
      pose proof (split_on_pieces 45 project_name) as Hp.
      rewrite Forall_forall in Hp.
      exact (capitalize_no_dash word (Hp word Hw) Hin).
    + vm_compute in Hin. repeat destruct Hin as [Hin|Hin]; try discriminate. exact Hin.
  - intros Hn. unfold class_name_of. rewrite split_on_no_sep.
    + cbn [flat_map]. now rewrite app_nil_r.
    + apply forallb_forall. intros c Hc. apply negb_true_iff.
      destruct (N.eqb_spec c 45) as [->|]; [contradiction | reflexivity].
Qed.

Lemma class_name_has_no_hyphen_witness :
  is_ascii (lit "myApp") = true /\
  ~ In 45%N (lit "myApp") /\
  class_name_of (lit "myApp") = lit "MyappStack".
Proof.
  assert (Hn : ~ In 45%N (lit "myApp")).
  { vm_compute. intros H. repeat destruct H as [H|H]; try discriminate. exact H. }
  split; [reflexivity|]. split; [exact Hn|].
  destruct (class_name_has_no_hyphen (lit "myApp") eq_refl) as (_ & _ & Hc).
  rewrite (Hc Hn). reflexivity.
Defined.

Section PromptFacts.

Variable E : Env.

Lemma subnet_lines_names subnets1 subnets2 :
  Forall2 (fun a b => getitem a (lit "name") = getitem b (lit "name"))
          subnets1 subnets2 ->
  forall start, subnet_lines E start subnets1 = subnet_lines E start subnets2.
Proof.
  induction 1 as [|a b l1 l2 Hab _ IH]; intros start; [reflexivity|].
  cbn [subnet_lines]. rewrite Hab, (IH (start + 1)%N). reflexivity.
Qed.

End PromptFacts.

(** X22.  Of the subnets, the description sent to the code generator
    reads the names only: two transformed records that differ by the
    CIDR blocks or the zones of their subnets, or by any other field of
    them, give the same description. *)
Theorem prompt_reads_only_the_names_of_subnets
  (E : Env) (project_name : str) (vpc groups : value) (subnets1 subnets2 : list value) :
  Forall2 (fun a b => getitem a (lit "name") = getitem b (lit "name"))
          subnets1 subnets2 ->
  _create_cdk_description E project_name
    (VDict [(lit "vpc", vpc); (lit "subnets", VList subnets1);
            (lit "security_groups", groups)])
  = _create_cdk_description E project_name
      (VDict [(lit "vpc", vpc); (lit "subnets", VList subnets2);
              (lit "security_groups", groups)]).
Proof.
  intros Hnames. unfold _create_cdk_description.
  change (getitem (VDict [(lit "vpc", vpc); (lit "subnets", VList subnets1);
                          (lit "security_groups", groups)]) (lit "vpc")) with (Ok vpc).
  change (getitem (VDict [(lit "vpc", vpc); (lit "subnets", VList subnets2);
                          (lit "security_groups", groups)]) (lit "vpc")) with (Ok vpc).
  change (getitem (VDict [(lit "vpc", vpc); (lit "subnets", VList subnets1);
                          (lit "security_groups", groups)]) (lit "subnets"))
    with (Ok (VList subnets1)).
  change (getitem (VDict [(lit "vpc", vpc); (lit "subnets", VList subnets2);
                          (lit "security_groups", groups)]) (lit "subnets"))
    with (Ok (VList subnets2)).
  change (getitem (VDict [(lit "vpc", vpc); (lit "subnets", VList subnets1);
                          (lit "security_groups", groups)]) (lit "security_groups"))
    with (Ok groups).
  change (getitem (VDict [(lit "vpc", vpc); (lit "subnets", VList subnets2);
                          (lit "security_groups", groups)]) (lit "security_groups"))
    with (Ok groups).
  cbn [rbind iter].
  now rewrite (subnet_lines_names E subnets1 subnets2 Hnames 0%N).
Qed.

Lemma prompt_reads_only_the_names_of_subnets_witness :
  _create_cdk_description calm (lit "demo-app")
    (VDict [(lit "vpc", VDict [(lit "name", VStr (lit "demo_vpc"));
                               (lit "cidr", VStr (lit "10.0.0.0/16"))]);
            (lit "subnets",
             VList [VDict [(lit "name", VStr (lit "demo_subnet_1"));
                           (lit "cidr", VStr (lit "10.0.1.0/24"));
                           (lit "availability_zone", VStr (lit "us-east-1a"))]]);
            (lit "security_groups", VList [])])
  = _create_cdk_description calm (lit "demo-app")
      (VDict [(lit "vpc", VDict [(lit "name", VStr (lit "demo_vpc"));
                                 (lit "cidr", VStr (lit "10.0.0.0/16"))]);
              (lit "subnets",
               VList [VDict [(lit "name", VStr (lit "demo_subnet_1"));
                             (lit "cidr", VStr (lit "192.168.0.0/20"));
                             (lit "availability_zone", VStr (lit "us-east-1b"))]]);
              (lit "security_groups", VList [])]).
Proof.
  apply prompt_reads_only_the_names_of_subnets.
  constructor; [reflexivity | constructor].
Defined.
(** *** The provider and the LLM that parses *)

Section ProviderFacts.

Variable E : Env.

Lemma raw_response_flat_map items :
  flat_map (fun content =>
              match item_text content with
              | Some text => text ++ [10%N]
              | None => []
              end) items
  = raw_response_of items.
Proof.
  unfold raw_response_of, texts_of_items.
  induction items as [|item items IH]; [reflexivity|].
  cbn [flat_map]. rewrite IH. destruct (item_text item); reflexivity.
Qed.

Lemma last_cons {A} (x : A) (l : list A) : forall d, last (x :: l) d = last l x.
Proof.
  revert x. induction l as [|y l IH]; intros x d; [reflexivity|].
  change (last (x :: y :: l) d) with (last (y :: l) d).
  now rewrite !(IH y).
Qed.

(** When no text makes [json.loads] raise anything but a
    [JSONDecodeError], the loop ends with what the last text gives. *)
Lemma decode_items_safe B items : forall init,
  loads_or_not_json B (texts_of_items items) ->
  decode_items B items init
  = Ok (last (map (decoded B) (texts_of_items items)) init).
Proof.
  unfold texts_of_items.
  induction items as [|item items IH]; intros init Hs; [reflexivity|].
  cbn [decode_items flat_map] in Hs |- *. destruct (item_text item) as [text|].
  - cbn [app map] in Hs |- *. rewrite last_cons.
    assert (Hrest : loads_or_not_json B (texts_of_items items))
      by (intros t e Ht; apply Hs; now right).
    unfold decoded at 2.
    pose proof (Hs text) as Htext.
    destruct (json_loads B text) as [v|msg|e].
    + now apply IH.
    + now apply IH.
    + exfalso. apply (Htext e); [now left | reflexivity].
  - cbn [app]. now apply IH.
Qed.

(** The first text on which [json.loads] raises something else leaves
    the loop. *)
Lemma decode_items_raises B items text post e : forall pre init,
  texts_of_items items = pre ++ text :: post ->
  loads_or_not_json B pre ->
  json_loads B text = LoadsError e ->
  decode_items B items init = Raise e.
Proof.
  unfold texts_of_items.
  induction items as [|item items IH]; intros pre init Ht Hpre He.
  - destruct pre; discriminate.
  - cbn [decode_items flat_map] in *. destruct (item_text item) as [t|].
    + destruct pre as [|p pre]; cbn [app] in Ht; injection Ht as -> Ht.
      * now rewrite He.
      * pose proof (Hpre p) as Hp.
        assert (Hrest : loads_or_not_json B pre)
          by (intros t' e' Ht'; apply Hpre; now right).
        destruct (json_loads B p) as [v|msg|e'].
        -- now apply (IH pre).
        -- now apply (IH pre).
        -- exfalso. apply (Hp e'); [now left | reflexivity].
    + now apply (IH pre).
Qed.

Lemma describe_vpcs_ready args w :
  provider_ready w ->
  describe_vpcs E args w
  = Some (aliyun_call_tool E describe_tool args,
          {| aliyun_client := aliyun_client w;
             cdk_generator := cdk_generator w;
             current_project_name := current_project_name w;
             bedrock_calls := bedrock_calls w;
             tool_calls := tool_calls w;
             events := events w ++ [EvProviderCall describe_tool args] |}).
Proof.
  intros Hr. unfold describe_vpcs, with_session, holder. run_m. cbn.
  unfold provider_ready in Hr. rewrite Hr. fold describe_tool.
  destruct (aliyun_call_tool E describe_tool args); rewrite <- Hr; reflexivity.
Qed.

(** The provider answers. *)
Lemma provider_query_ready tool args prefix w items :
  provider_ready w ->
  aliyun_call_tool E tool args = Ok items ->
  exists w',
    provider_query E tool args prefix w
    = Some (Ok (last_decoded (builtins E) items), w') /\
    events w' = events w ++ [EvProviderCall tool args]
                  ++ decoding_log (builtins E) prefix items /\
    aliyun_client w' = aliyun_client w.
Proof.
  intros Hr Hcall. unfold provider_ready in Hr.
  unfold provider_query, with_session, holder, last_decoded, decoding_log.
  run_m. cbn. rewrite Hr, Hcall. cbn.
  destruct (decode_items (builtins E) items (VDict [])) as [data|e]; cbn;
    eexists; (split; [reflexivity|]); cbn; split; try reflexivity.
  all: first [exact Hr | symmetry; exact Hr | now rewrite <- (@app_assoc event)].
Qed.

(** The call raises. *)
Lemma provider_query_raises tool args prefix w e :
  provider_ready w ->
  aliyun_call_tool E tool args = Raise e ->
  exists w',
    provider_query E tool args prefix w
    = Some (Ok (VDict [(lit "error", VStr (exn_text e))]), w') /\
    events w' = events w ++ [EvProviderCall tool args; EvLogError (prefix ++ exn_text e)].
Proof.
  intros Hr Hcall. unfold provider_ready in Hr.
  unfold provider_query, with_session, holder. run_m. cbn. rewrite Hr, Hcall. cbn.
  eexists. split; [reflexivity|]. cbn. now rewrite <- (@app_assoc event).
Qed.

(** The client has no session: the provider is not called. *)
Lemma provider_query_no_session tool args prefix w :
  aliyun_client w <> Some {| session := true |} ->
  exists w',
    provider_query E tool args prefix w
    = Some (Ok (VDict [(lit "error", VStr (exn_text no_session))]), w') /\
    events w' = events w ++ [EvLogError (prefix ++ exn_text no_session)].
Proof.
  intros Hn. unfold provider_query, with_session, holder. run_m. cbn.
  destruct (aliyun_client w) as [[[|]]|]; [contradiction| |];
    cbn; eexists; split; reflexivity.
Qed.

(** In every case a value is returned. *)
Lemma provider_query_returns tool args prefix w :
  exists data w', provider_query E tool args prefix w = Some (Ok data, w').
Proof.
  destruct (aliyun_client w) as [[[|]]|] eqn:Hc.
  - destruct (aliyun_call_tool E tool args) as [items|e] eqn:Hcall.
    + destruct (provider_query_ready tool args prefix w items Hc Hcall)
        as (w' & H & _). eauto.
    + destruct (provider_query_raises tool args prefix w e Hc Hcall)
        as (w' & H & _). eauto.
  - destruct (provider_query_no_session tool args prefix w) as (w' & H & _);
      [rewrite Hc; discriminate | eauto].
  - destruct (provider_query_no_session tool args prefix w) as (w' & H & _);
      [rewrite Hc; discriminate | eauto].
Qed.

(** What a query says of the value it returned. *)
Lemma provider_query_outcome tool args prefix w data w' :
  provider_query E tool args prefix w = Some (Ok data, w') ->
  (provider_ready w ->
   forall items,
     aliyun_call_tool E tool args = Ok items ->
     data = last_decoded (builtins E) items /\
     (loads_or_not_json (builtins E) (texts_of_items items) ->
      data = last (map (decoded (builtins E)) (texts_of_items items)) (VDict []) /\
      events w' = events w ++ [EvProviderCall tool args]) /\
     (forall pre text post e,
        texts_of_items items = pre ++ text :: post ->
        loads_or_not_json (builtins E) pre ->
        json_loads (builtins E) text = LoadsError e ->
        data = VDict [(lit "error", VStr (exn_text e))] /\
        events w' = events w ++ [EvProviderCall tool args;
                                 EvLogError (prefix ++ exn_text e)])) /\
  (provider_ready w ->
   forall e,
     aliyun_call_tool E tool args = Raise e ->
     data = VDict [(lit "error", VStr (exn_text e))] /\
     events w' = events w ++ [EvProviderCall tool args;
                              EvLogError (prefix ++ exn_text e)]) /\
  (aliyun_client w = Some {| session := false |} ->
   data = VDict [(lit "error", VStr (exn_text no_session))] /\
   events w' = events w ++ [EvLogError (prefix ++ exn_text no_session)]).
Proof.
  intros Hrun. split; [|split].
  - intros Hr items Hcall.
    destruct (provider_query_ready tool args prefix w items Hr Hcall)
      as (w1 & H1 & Hev & _).
    rewrite Hrun in H1. injection H1 as -> <-.
    split; [reflexivity|]. split.
    + intros Hsafe. revert Hev. unfold last_decoded, decoding_log.
      rewrite (decode_items_safe _ items (VDict []) Hsafe). intros ->.
      split; [reflexivity | now rewrite app_nil_r].
    + intros pre text post e Ht Hpre He. revert Hev. unfold last_decoded, decoding_log.
      rewrite (decode_items_raises _ items text post e pre (VDict []) Ht Hpre He).
      intros ->. split; reflexivity.
  - intros Hr e Hcall.
    destruct (provider_query_raises tool args prefix w e Hr Hcall) as (w1 & H1 & Hev).
    rewrite Hrun in H1. injection H1 as -> <-. split; [reflexivity | exact Hev].
  - intros Hs.
    destruct (provider_query_no_session tool args prefix w) as (w1 & H1 & Hev);
      [rewrite Hs; discriminate|].
    rewrite Hrun in H1. injection H1 as -> <-. split; [reflexivity | exact Hev].
Qed.

Lemma list_vpcs_ready region w items :
  provider_ready w ->
  aliyun_call_tool E describe_tool (describe_args [] region) = Ok items ->
  exists w',
    list_vpcs E region w = Some (Ok (last_decoded (builtins E) items), w') /\
    events w' = events w ++ [EvProviderCall describe_tool (describe_args [] region)]
                  ++ decoding_log (builtins E) (lit "Error listing VPCs: ") items /\
    aliyun_client w' = aliyun_client w.
Proof.
  exact (provider_query_ready describe_tool (describe_args [] region)
                              (lit "Error listing VPCs: ") w items).
Qed.

(** A listing that holds VPCs was decoded without an exception. *)
Lemma listing_was_decoded B prefix items listing vpcs :
  last_decoded B items = VDict listing ->
  lookup (lit "vpcs") listing = Some vpcs ->
  decoding_log B prefix items = [].
Proof.
  unfold last_decoded, decoding_log.
  destruct (decode_items B items (VDict [])) as [data|e]; [reflexivity|].
  intros H. injection H as <-. discriminate.
Qed.

End ProviderFacts.

(** X23.  [list_vpcs] raises nothing: in every state of the client it
    returns a value.  With a session and an answer of the provider, it
    returns what the last text of the answer gives (the decoded JSON, the
    text under [raw_response] when it is no JSON, the empty dict when the
    answer holds no text), the texts before it being decoded and dropped;
    but when [json.loads] raises anything else than a [JSONDecodeError]
    on one of the texts, the first such exception ends the loop and its
    text is returned under [error], and logged.  When the call raises, or
    when the client has no session (the provider is then not called), the
    text of the exception is returned under [error], and logged. *)
Theorem list_vpcs_keeps_the_last_text (E : Env) (region : str) (w : World) :
  exists data w',
    list_vpcs E region w = Some (Ok data, w') /\
    (provider_ready w ->
     forall items,
       aliyun_call_tool E describe_tool (describe_args [] region) = Ok items ->
       data = last_decoded (builtins E) items /\
       (loads_or_not_json (builtins E) (texts_of_items items) ->
        data = last (map (decoded (builtins E)) (texts_of_items items)) (VDict []) /\
        events w' = events w
                    ++ [EvProviderCall describe_tool (describe_args [] region)]) /\
       (forall pre text post e,
          texts_of_items items = pre ++ text :: post ->
          loads_or_not_json (builtins E) pre ->
          json_loads (builtins E) text = LoadsError e ->
          data = VDict [(lit "error", VStr (exn_text e))] /\
          events w' = events w
                      ++ [EvProviderCall describe_tool (describe_args [] region);
                          EvLogError (lit "Error listing VPCs: " ++ exn_text e)])) /\
    (provider_ready w ->
     forall e,
       aliyun_call_tool E describe_tool (describe_args [] region) = Raise e ->
       data = VDict [(lit "error", VStr (exn_text e))] /\
       events w' = events w
                   ++ [EvProviderCall describe_tool (describe_args [] region);
                       EvLogError (lit "Error listing VPCs: " ++ exn_text e)]) /\
    (aliyun_client w = Some {| session := false |} ->
     data = VDict [(lit "error",
                    VStr (lit "'NoneType' object has no attribute 'call_tool'"))] /\
     events w' = events w
                 ++ [EvLogError (lit "Error listing VPCs: "
                                   ++ lit "'NoneType' object has no attribute 'call_tool'")]).
Proof.
  destruct (provider_query_returns E describe_tool (describe_args [] region)
                                   (lit "Error listing VPCs: ") w)
    as (data & w' & Hrun).
  exists data, w'. split; [exact Hrun|].
  exact (provider_query_outcome E describe_tool (describe_args [] region)
                                (lit "Error listing VPCs: ") w data w' Hrun).
Qed.

Lemma list_vpcs_keeps_the_last_text_witness :
  (exists w',
     list_vpcs calm (lit "cn-hangzhou") provider_connected = Some (Ok bare_listing, w') /\
     events w' = events provider_connected
                 ++ [EvProviderCall describe_tool (describe_args [] (lit "cn-hangzhou"))]) /\
  (exists msg w',
     list_vpcs long_number_answer (lit "cn-hangzhou") provider_connected
     = Some (Ok (VDict [(lit "error", VStr msg)]), w') /\
     is_prefix (lit "Exceeds the limit (4300 digits)") msg = true).
Proof.
  split.
  - destruct (list_vpcs_keeps_the_last_text calm (lit "cn-hangzhou") provider_connected)
      as (data & w' & Hrun & Hok & _).
    destruct (Hok eq_refl
                  [{| item_type := lit "text"; item_text := Some bare_listing_text |}]
                  eq_refl) as (_ & Hlast & _).
    destruct Hlast as (Hdata & Hev).
    + intros text e [<-|[]]. discriminate.
    + exists w'. rewrite Hdata in Hrun. split; [exact Hrun | exact Hev].
  - destruct (list_vpcs_keeps_the_last_text long_number_answer (lit "cn-hangzhou")
                                             provider_connected)
      as (data & w' & Hrun & Hok & _).
    destruct (Hok eq_refl
                  [{| item_type := lit "text"; item_text := Some long_number |}]
                  eq_refl) as (_ & _ & Hfail).
    destruct (Hfail [] long_number []
                    (Exn ValueError
                         (lit "Exceeds the limit (4300 digits) for integer string conversion: value has 4301 digits; use sys.set_int_max_str_digits() to increase the limit"))
                    eq_refl) as (Hdata & _).
    + intros text e [].
    + vm_compute. reflexivity.
    + eexists. exists w'. rewrite Hdata in Hrun. split; [exact Hrun|].
      vm_compute. reflexivity.
Defined.

(** X24.  When no id is requested, the extract stage takes the first VPC
    of the listing as the provider wrote it: the entry goes to
    [alibaba_vpc_data] without passing through the normalizer, so that
    none of the names [VpcName], [CidrBlock] is translated and no
    [vswitches] or [security_groups] is added. *)
Theorem listed_vpc_is_not_normalized
  (E : Env) (state : MigrationState) (w : World)
  (items : list content_item) (listing first : list (str * value)) (others : list value) :
  provider_ready w ->
  requested_id state = [] ->
  aliyun_call_tool E describe_tool (describe_args [] (requested_region state)) = Ok items ->
  last_decoded (builtins E) items = VDict listing ->
  lookup (lit "vpcs") listing = Some (VList (VDict first :: others)) ->
  exists w',
    extract_alibaba_vpc E state w
    = Some (Ok (set_status (lit "vpc_extracted")
                  (set_alibaba_vpc_data (VDict first) state)), w') /\
    events w' = events w
                ++ [EvProviderCall describe_tool
                                   (describe_args [] (requested_region state))].
Proof.
  intros Hr Hid Hcall Hlast Hvpcs.
  destruct (list_vpcs_ready E (requested_region state) w items Hr Hcall)
    as (w' & Hrun & Hev & _).
  rewrite (listing_was_decoded _ _ items listing _ Hlast Hvpcs) in Hev.
  exists w'. split; [|exact Hev].
  unfold extract_alibaba_vpc. fold (requested_id state). fold (requested_region state).
  rewrite Hid. apply try_except_ok.
  rewrite (mbind_ok _ _ w w w eq_refl).
  unfold provider_ready in Hr. rewrite Hr.
  rewrite (mbind_ok _ _ w tt w eq_refl). cbn [truthy].
  erewrite (mbind_ok _ _ w).
  2:{ rewrite (mbind_ok _ _ _ _ _ Hrun), Hlast, Hvpcs. reflexivity. }
  reflexivity.
Qed.

Lemma listed_vpc_is_not_normalized_witness :
  exists w',
    extract_alibaba_vpc calm (demo_state no_vpc_id) provider_connected
    = Some (Ok (set_status (lit "vpc_extracted")
                  (set_alibaba_vpc_data bare_vpc (demo_state no_vpc_id))), w') /\
    getitem bare_vpc (lit "cidr_block") = Raise (key_error (lit "cidr_block")).
Proof.
  destruct (listed_vpc_is_not_normalized
              calm (demo_state no_vpc_id) provider_connected
              [{| item_type := lit "text"; item_text := Some bare_listing_text |}]
              [(lit "vpcs", VList [bare_vpc])]
              [(lit "vpc_id", VStr (lit "vpc-1"));
               (lit "vpc_name", VStr (lit "legacy-vpc"))] []
              eq_refl eq_refl eq_refl eq_refl eq_refl) as (w' & Hrun & _).
  exists w'. split; [exact Hrun | reflexivity].
Defined.

(** *** Spans *)

Section SpanFacts.

Variables opening closing : N.

Lemma greedy_no_closing (post : str) : forall group,
  ~ In closing post ->
  re_greedy_any
    (fun group => re_lit [closing] (fun _ => Some ([opening] ++ group ++ [closing])))
    group post = None.
Proof.
  induction post as [|c post IH]; intros group Hn; cbn [re_greedy_any].
  - reflexivity.
  - rewrite IH by (intros H; apply Hn; now right).
    unfold re_lit. cbn [is_prefix].
    destruct (N.eqb_spec closing c) as [->|]; [|reflexivity].
    exfalso. apply Hn. now left.
Qed.

Lemma greedy_widest (mid post : str) : forall group,
  ~ In closing post ->
  re_greedy_any
    (fun group => re_lit [closing] (fun _ => Some ([opening] ++ group ++ [closing])))
    group (mid ++ closing :: post)
  = Some ([opening] ++ (group ++ mid) ++ [closing]).
Proof.
  induction mid as [|c mid IH]; intros group Hn; cbn [app re_greedy_any].
  - rewrite greedy_no_closing by exact Hn.
    unfold re_lit. cbn [is_prefix]. rewrite N.eqb_refl. cbn.
    now rewrite app_nil_r.
  - rewrite IH by exact Hn. now rewrite <- (app_assoc group [c] mid).
Qed.

(** The leftmost opening and the last closing delimit the match. *)
Lemma search_span (pre mid post : str) :
  ~ In opening pre ->
  ~ In closing post ->
  search (span_pattern opening closing) (pre ++ opening :: mid ++ closing :: post)
  = Some (opening :: mid ++ [closing]).
Proof.
  intros Hpre Hpost. induction pre as [|c pre IH].
  - cbn [app]. rewrite search_unfold. unfold span_pattern at 1.
    change (opening :: mid ++ closing :: post)
      with ([opening] ++ (mid ++ closing :: post)).
    rewrite re_lit_app, (greedy_widest mid post [] Hpost). reflexivity.
  - cbn [app]. rewrite search_unfold. unfold span_pattern at 1.
    unfold re_lit at 1. cbn [is_prefix].
    destruct (N.eqb_spec opening c) as [->|_]; [exfalso; apply Hpre; now left|].
    cbn [andb]. apply IH. intros H. apply Hpre. now right.
Qed.

(** Without an opening there is no match. *)
Lemma search_span_none (s : str) :
  ~ In opening s -> search (span_pattern opening closing) s = None.
Proof.
  induction s as [|c s IH]; intros Hn.
  - reflexivity.
  - rewrite search_unfold. unfold span_pattern at 1. unfold re_lit at 1.
    cbn [is_prefix].
    destruct (N.eqb_spec opening c) as [->|_]; [exfalso; apply Hn; now left|].
    cbn [andb]. apply IH. intros H. apply Hn. now right.
Qed.

End SpanFacts.

Section ParserFacts.

Variable E : Env.

Lemma get_vpc_info_call vpc_id region w :
  provider_ready w ->
  describe_vpcs E (if truthy (VStr vpc_id)
                   then VDict [(lit "VpcId", VStr vpc_id); (lit "RegionId", VStr region)]
                   else VDict [(lit "RegionId", VStr region)]) w
  = Some (aliyun_call_tool E describe_tool (describe_args vpc_id region),
          {| aliyun_client := aliyun_client w;
             cdk_generator := cdk_generator w;
             current_project_name := current_project_name w;
             bedrock_calls := bedrock_calls w;
             tool_calls := tool_calls w;
             events := events w
                       ++ [EvProviderCall describe_tool (describe_args vpc_id region)] |}).
Proof.
  intros Hr. rewrite (describe_vpcs_ready E _ w Hr). destruct vpc_id; reflexivity.
Qed.

Lemma yields_parse raw vpc_id region :
  yields (isok anything) (_parse_vpc_data_with_llm E raw vpc_id region).
Proof.
  unfold _parse_vpc_data_with_llm. apply yields_try.
  - yields_all; exact I.
  - intros e. yields_all. exact I.
Qed.

End ParserFacts.

(** X25.  What [get_vpc_info] returns when the provider answers depends
    on who decodes the answer.  When the texts of the answer, each
    followed by a newline, are JSON, the result is what the normalizer
    makes of it, the LLM is not called, and the only thing logged is the
    error line of the normalizer when its conversion raised.  When they
    are not, and the LLM answers in time with a text that is JSON, that
    JSON is the result as it is: it does not pass through the normalizer
    and is not checked to be an object or to have any field.  When
    [json.loads] raises anything else than a [JSONDecodeError] on the
    texts, the result is the synthetic record and the exception is
    logged. *)
Theorem llm_answer_is_not_normalized
  (E : Env) (vpc_id region : str) (w : World) (items : list content_item) :
  provider_ready w ->
  aliyun_call_tool E describe_tool (describe_args vpc_id region) = Ok items ->
  (forall parsed_data,
     json_loads (builtins E) (raw_response_of items) = Parsed parsed_data ->
     exists w',
       get_vpc_info E vpc_id region w
       = Some (Ok (_convert_alibaba_vpc_format parsed_data vpc_id region), w') /\
       events w' = events w
                   ++ [EvProviderCall describe_tool (describe_args vpc_id region)]
                   ++ conversion_log parsed_data vpc_id region) /\
  (forall msg response text parsed_data,
     json_loads (builtins E) (raw_response_of items) = NotJson msg ->
     llm_parse_timeout E = false ->
     aliyun_bedrock E = Ok response ->
     first_text response = Ok (VStr text) ->
     json_loads (builtins E) text = Parsed parsed_data ->
     exists w',
       get_vpc_info E vpc_id region w = Some (Ok parsed_data, w') /\
       events w' = events w
                   ++ [EvProviderCall describe_tool (describe_args vpc_id region);
                       EvParseLLM]) /\
  (forall e,
     json_loads (builtins E) (raw_response_of items) = LoadsError e ->
     exists w',
       get_vpc_info E vpc_id region w
       = Some (Ok (_get_mock_vpc_data vpc_id region), w') /\
       events w' = events w
                   ++ [EvProviderCall describe_tool (describe_args vpc_id region);
                       EvLogError (lit "Error getting VPC info: " ++ exn_text e)]).
Proof.
  intros Hr Hcall. split; [|split].
  - intros parsed_data Hjson. unfold get_vpc_info.
    match goal with
    | |- context [try_except _ ?h] => set (handler := h)
    end.
    destruct (convert_logged_run parsed_data vpc_id region
                {| aliyun_client := aliyun_client w;
                   cdk_generator := cdk_generator w;
                   current_project_name := current_project_name w;
                   bedrock_calls := bedrock_calls w;
                   tool_calls := tool_calls w;
                   events := events w
                             ++ [EvProviderCall describe_tool
                                                (describe_args vpc_id region)] |})
      as (w' & Hconv & Hev).
    exists w'. split.
    + apply try_except_ok. unfold mbind at 1.
      rewrite (get_vpc_info_call E vpc_id region w Hr), Hcall.
      cbv zeta. rewrite raw_response_flat_map, Hjson. exact Hconv.
    + rewrite Hev. cbn [events]. now rewrite <- (@app_assoc event).
  - intros msg response text parsed_data Hjson Htime Hllm Htext Hdirect.
    unfold get_vpc_info. eexists. split.
    + apply try_except_ok. unfold mbind at 1.
      rewrite (get_vpc_info_call E vpc_id region w Hr), Hcall.
      cbv zeta. rewrite raw_response_flat_map, Hjson, Htime.
      unfold _parse_vpc_data_with_llm. apply try_except_ok.
      unfold first_text in Htext.
      run_m. cbn. rewrite Hllm. cbn. rewrite Htext. cbn. rewrite Hdirect. reflexivity.
    + cbn. now rewrite <- (@app_assoc event).
  - intros e Hjson. unfold get_vpc_info. eexists. split.
    + erewrite try_except_raise.
      2:{ unfold mbind at 1.
          rewrite (get_vpc_info_call E vpc_id region w Hr), Hcall.
          cbv zeta. rewrite raw_response_flat_map, Hjson. reflexivity. }
      reflexivity.
    + cbn. now rewrite <- (@app_assoc event).
Qed.

Lemma llm_answer_is_not_normalized_witness :
  exists w',
    get_vpc_info
      (with_llm (Ok (reply [text_block bare_listing_text]))
         (with_provider
            (fun _ _ => Ok [{| item_type := lit "text";
                               item_text := Some (lit "VPC vpc-1 (legacy-vpc)") |}])
            calm))
      (lit "vpc-1") (lit "cn-hangzhou") provider_connected
    = Some (Ok bare_listing, w').
Proof.
  destruct (llm_answer_is_not_normalized
              (with_llm (Ok (reply [text_block bare_listing_text]))
                 (with_provider
                    (fun _ _ => Ok [{| item_type := lit "text";
                                       item_text := Some (lit "VPC vpc-1 (legacy-vpc)") |}])
                    calm))
              (lit "vpc-1") (lit "cn-hangzhou") provider_connected
              [{| item_type := lit "text";
                  item_text := Some (lit "VPC vpc-1 (legacy-vpc)") |}]
              eq_refl eq_refl) as (_ & Hllm & _).
  destruct (Hllm (lit "Expecting value: line 1 column 1 (char 0)")
                 (reply [text_block bare_listing_text]) bare_listing_text bare_listing
                 eq_refl eq_refl eq_refl eq_refl eq_refl) as (w' & Hrun & _).
  exists w'. exact Hrun.
Defined.

(** X26.  [_parse_vpc_data_with_llm] raises nothing: whatever the
    backend does, it returns a value.  When the text of the model is no
    JSON but holds braces, what is decoded is the span from its first
    opening brace to its last closing brace, the prose around it being
    dropped; when the text is no JSON and holds no opening brace, and
    when the backend raises, the result is the synthetic record and the
    failure is logged. *)
Theorem prose_around_the_json_is_dropped
  (E : Env) (raw_data vpc_id region : str) (w : World) :
  exists parsed w',
    _parse_vpc_data_with_llm E raw_data vpc_id region w = Some (Ok parsed, w') /\
    (forall response pre mid post msg parsed_data,
       aliyun_bedrock E = Ok response ->
       first_text response = Ok (VStr (pre ++ 123%N :: mid ++ 125%N :: post)) ->
       ~ In 123%N pre ->
       ~ In 125%N post ->
       json_loads (builtins E) (pre ++ 123%N :: mid ++ 125%N :: post) = NotJson msg ->
       json_loads (builtins E) (123%N :: mid ++ [125%N]) = Parsed parsed_data ->
       parsed = parsed_data /\
       events w' = events w ++ [EvParseLLM]) /\
    (forall response text msg,
       aliyun_bedrock E = Ok response ->
       first_text response = Ok (VStr text) ->
       json_loads (builtins E) text = NotJson msg ->
       ~ In 123%N text ->
       parsed = _get_mock_vpc_data vpc_id region /\
       events w' = events w
                   ++ [EvParseLLM;
                       EvLogError (lit "Error parsing VPC data with LLM: "
                                     ++ lit "Could not extract valid JSON from LLM response")]) /\
    (forall e,
       aliyun_bedrock E = Raise e ->
       parsed = _get_mock_vpc_data vpc_id region /\
       events w' = events w
                   ++ [EvParseLLM;
                       EvLogError (lit "Error parsing VPC data with LLM: "
                                     ++ exn_text e)]).
Proof.
  destruct (ends_parse E raw_data vpc_id region w) as (r & w' & Hrun & _).
  pose proof (yields_parse E raw_data vpc_id region w r w' Hrun) as Hok.
  destruct r as [parsed|e]; [|contradiction].
  exists parsed, w'. split; [exact Hrun|]. split; [|split].
  - intros response pre mid post msg parsed_data Hllm Htext Hpre Hpost Hwhole Hspan.
    revert Hrun. unfold _parse_vpc_data_with_llm. unfold first_text in Htext.
    run_m. cbn. rewrite Hllm. cbn. rewrite Htext. cbn. rewrite Hwhole.
    change brace_pattern with (span_pattern 123 125).
    rewrite (search_span 123 125 pre mid post Hpre Hpost), Hspan.
    intros H. injection H as <- <-. split; reflexivity.
  - intros response text msg Hllm Htext Hjson Hn.
    revert Hrun. unfold _parse_vpc_data_with_llm. unfold first_text in Htext.
    run_m. cbn. rewrite Hllm. cbn. rewrite Htext. cbn. rewrite Hjson.
    change brace_pattern with (span_pattern 123 125).
    rewrite (search_span_none 123 125 text Hn).
    intros H. injection H as <- <-. split; [reflexivity|]. cbn.
    now rewrite <- (@app_assoc event).
  - intros e Hllm. revert Hrun. unfold _parse_vpc_data_with_llm.
    run_m. cbn. rewrite Hllm.
    intros H. injection H as <- <-. split; [reflexivity|]. cbn.
    now rewrite <- (@app_assoc event).
Qed.

Lemma prose_around_the_json_is_dropped_witness :
  exists w',
    _parse_vpc_data_with_llm
      (with_llm (Ok (reply [text_block (lit "Here you go: " ++ bare_listing_text
                                            ++ lit " Anything else?")]))
                calm)
      (lit "VPC vpc-1") (lit "vpc-1") (lit "cn-hangzhou") provider_connected
    = Some (Ok bare_listing, w') /\
    events w' = events provider_connected ++ [EvParseLLM].
Proof.
  destruct (prose_around_the_json_is_dropped
              (with_llm (Ok (reply [text_block (lit "Here you go: " ++ bare_listing_text
                                                    ++ lit " Anything else?")]))
                        calm)
              (lit "VPC vpc-1") (lit "vpc-1") (lit "cn-hangzhou") provider_connected)
    as (parsed & w' & Hrun & Hspan & _).
  destruct (Hspan (reply [text_block (lit "Here you go: " ++ bare_listing_text
                                          ++ lit " Anything else?")])
                  (lit "Here you go: ")
                  (removelast (tl bare_listing_text))
                  (lit " Anything else?")
                  (lit "Expecting value: line 1 column 1 (char 0)")
                  bare_listing eq_refl eq_refl) as (Hp & Hev).
  - vm_compute. intros H. repeat destruct H as [H|H]; try discriminate. exact H.
  - vm_compute. intros H. repeat destruct H as [H|H]; try discriminate. exact H.
  - reflexivity.
  - reflexivity.
  - subst parsed. exists w'. split; [exact Hrun | exact Hev].
Defined.

(** *** The generation loop, round after round *)

Section RoundFacts.

Variable E : Env.

(** One round: the pass over a response that asks for a tool. *)
Lemma tool_round content before request after texts name input id items shown
      response response' final_text messages w :
  holder CdkGen w = Some {| session := true |} ->
  getitem response (lit "content") = Ok content ->
  iter content = Ok (before ++ request :: after) ->
  plain_texts before = Some texts ->
  tool_request request = Some (name, input, id) ->
  cdk_call_tool E (tool_calls w) name input = Ok items ->
  tool_result_content items = Ok shown ->
  cdk_bedrock E (bedrock_calls w) = Ok response' ->
  exists messages' w',
    (content <- lift (getitem response (lit "content")) ;;
     blocks <- lift (iter content) ;;
     scan_blocks E blocks final_text [] messages)%M w
    = Some (Ok (ToolUse response' (final_text ++ map VStr texts) messages'), w') /\
    holder CdkGen w' = holder CdkGen w /\
    bedrock_calls w' = S (bedrock_calls w) /\
    tool_calls w' = S (tool_calls w).
Proof.
  intros Hh Hc Hi Hp Hreq Hcall Hshown Hb.
  unfold tool_request in Hreq.
  destruct (getitem request (lit "type")) as [type|] eqn:Hty; [|discriminate].
  destruct (eq_str type (lit "text")) eqn:Htext; [discriminate|].
  destruct (eq_str type (lit "tool_use")) eqn:Htool; [|discriminate].
  destruct (getitem request (lit "name")) as [name'|] eqn:Hname; [|discriminate].
  destruct (getitem request (lit "input")) as [input'|] eqn:Hinput; [|discriminate].
  destruct (getitem request (lit "id")) as [id'|] eqn:Hid; [|discriminate].
  injection Hreq as -> -> ->.
  unfold holder in Hh.
  do 2 eexists. split.
  - rewrite mbind_lift, Hc, mbind_lift, Hi.
    rewrite (scan_blocks_plain E before _ _ _ _ _ texts Hp).
    cbn [scan_blocks]. rewrite mbind_lift, Hty, Htext, Htool.
    rewrite mbind_lift, Hname, mbind_lift, Hinput.
    unfold with_session, invoke_model, holder. run_m. cbn.
    rewrite Hh. cbn. rewrite Hcall. cbn. rewrite Hid. cbn. rewrite Hshown. cbn.
    rewrite Hb. reflexivity.
  - cbn. auto.
Qed.

Lemma loop_of_rounds rounds : forall steps response final_text messages w closing,
  holder CdkGen w = Some {| session := true |} ->
  answers E response (bedrock_calls w) (tool_calls w) rounds closing ->
  length rounds < steps ->
  exists w',
    generation_loop E steps response final_text messages w
    = Some (Ok (final_text ++ map VStr (concat rounds ++ closing)), w') /\
    bedrock_calls w' = bedrock_calls w + length rounds /\
    tool_calls w' = tool_calls w + length rounds.
Proof.
  induction rounds as [|texts rounds IH];
    intros steps response final_text messages w closing Hh Ha Hsteps;
    (destruct steps as [|steps]; [cbn in Hsteps; lia|]); cbn [answers] in Ha.
  - destruct Ha as (content & blocks & Hc & Hi & Hp).
    exists w. split; [|cbn; lia].
    cbn [generation_loop]. rewrite mbind_lift, Hc, mbind_lift, Hi.
    unfold mbind. rewrite (scan_blocks_all_plain E blocks _ _ _ _ closing Hp).
    reflexivity.
  - destruct Ha as (content & before & request & after & name & input & id & items
                    & shown & response' & Hc & Hi & Hp & Hreq & Hcall & Hshown & Hb & Ha).
    destruct (tool_round content before request after texts name input id items shown
                response response' final_text messages w
                Hh Hc Hi Hp Hreq Hcall Hshown Hb)
      as (messages' & w1 & Hround & Hh1 & Hb1 & Ht1).
    rewrite <- Hb1, <- Ht1 in Ha. rewrite <- Hh1 in Hh.
    destruct (IH steps response' (final_text ++ map VStr texts) messages' w1 closing
                Hh Ha) as (w' & Hloop & Hb' & Ht'); [cbn in Hsteps; lia|].
    exists w'. split; [|cbn [length]; lia].
    cbn [generation_loop].
    assert (Hpass : (content <- lift (getitem response (lit "content")) ;;
                     blocks <- lift (iter content) ;;
                     p <- scan_blocks E blocks final_text [] messages ;;
                     match p with
                     | NoToolUse final_text' => ret final_text'
                     | ToolUse response'0 final_text' messages'0 =>
                         generation_loop E steps response'0 final_text' messages'0
                     end)%M w
                    = generation_loop E steps response'
                        (final_text ++ map VStr texts) messages' w1).
    { rewrite mbind_lift, Hc, mbind_lift, Hi.
      rewrite mbind_lift, Hc, mbind_lift, Hi in Hround.
      now rewrite (mbind_ok _ _ _ _ _ Hround). }
    rewrite Hpass, Hloop. cbn [concat].
    rewrite <- (app_assoc texts (concat rounds) closing), (map_app VStr texts),
      (app_assoc final_text).
    reflexivity.
Qed.

(** A backend that always asks leaves the loop running. *)
Lemma loop_of_an_insistent_backend steps :
  always_asks E ->
  forall response name input final_text messages w,
    holder CdkGen w = Some {| session := true |} ->
    asks_for_tool response name input ->
    (forall t, exists items shown,
        cdk_call_tool E t name input = Ok items /\
        tool_result_content items = Ok shown) ->
    generation_loop E steps response final_text messages w = None.
Proof.
  intros Hall. induction steps as [|steps IH];
    intros response name input final_text messages w Hh Hask Htools; [reflexivity|].
  destruct Hask as (content & before & request & after & texts & id & Hc & Hi & Hp & Hreq).
  destruct (Htools (tool_calls w)) as (items & shown & Hcall & Hshown).
  destruct (Hall (bedrock_calls w)) as (response' & name' & input' & Hb & Hask' & Htools').
  destruct (tool_round content before request after texts name input id items shown
              response response' final_text messages w
              Hh Hc Hi Hp Hreq Hcall Hshown Hb)
    as (messages' & w1 & Hround & Hh1 & _ & _).
  rewrite <- Hh1 in Hh.
  cbn [generation_loop].
  rewrite mbind_lift, Hc, mbind_lift, Hi.
  rewrite mbind_lift, Hc, mbind_lift, Hi in Hround.
  rewrite (mbind_ok _ _ _ _ _ Hround).
  exact (IH response' name' input' _ messages' w1 Hh Hask' Htools').
Qed.

Lemma first_invocation tools messages w :
  holder CdkGen w = Some {| session := true |} ->
  cdk_list_tools E = Ok tools ->
  exists w1,
    (available_tools <- with_session CdkGen "list_tools"
                          (emit EvListTools ;; lift (cdk_list_tools E)) ;;
     invoke_model E messages)%M w
    = Some (cdk_bedrock E (bedrock_calls w), w1) /\
    holder CdkGen w1 = holder CdkGen w /\
    bedrock_calls w1 = S (bedrock_calls w) /\
    tool_calls w1 = tool_calls w.
Proof.
  intros Hh Hl. unfold with_session, invoke_model, holder. run_m. cbn.
  unfold holder in Hh. rewrite Hh, Hl. cbn. eexists. split; [reflexivity|]. cbn.
  auto.
Qed.

End RoundFacts.

(** X27.  [generate_cdk_code] makes one call of a tool and one more
    invocation of the backend per response that asks for a tool, and
    stops at the first response that asks for none: for a conversation of
    [n] such rounds it returns, as soon as it is given [n + 1] passes, the
    texts of all the responses, in order, joined by newlines, after
    [n + 1] invocations and [n] calls of a tool.  Of a response that asks
    for a tool, what follows the request is not read. *)
Theorem every_round_is_one_tool_call
  (E : Env) (steps : nat) (description : str) (w : World)
  (tools response : value) (rounds : list (list str)) (closing : list str) :
  holder CdkGen w = Some {| session := true |} ->
  cdk_list_tools E = Ok tools ->
  cdk_bedrock E (bedrock_calls w) = Ok response ->
  answers E response (S (bedrock_calls w)) (tool_calls w) rounds closing ->
  length rounds < steps ->
  exists w',
    generate_cdk_code E steps description w
    = Some (Ok (join [10%N] (concat rounds ++ closing)), w') /\
    bedrock_calls w' = bedrock_calls w + S (length rounds) /\
    tool_calls w' = tool_calls w + length rounds.
Proof.
  intros Hh Hl Hb Ha Hsteps. unfold generate_cdk_code.
  match goal with
  | |- context [invoke_model E ?m] =>
      destruct (first_invocation E tools m w Hh Hl) as (w1 & Hfirst & Hh1 & Hb1 & Ht1);
      set (messages := m) in *
  end.
  rewrite Hb in Hfirst. rewrite <- Hb1, <- Ht1 in Ha. rewrite <- Hh1 in Hh.
  destruct (loop_of_rounds E rounds steps response [] messages w1 closing Hh Ha Hsteps)
    as (w' & Hloop & Hb' & Ht').
  exists w'. split; [|lia].
  apply try_except_ok.
  rewrite (mbind_then _ _ _ _ _ _ Hfirst), (mbind_ok _ _ _ _ _ Hloop).
  cbn [app]. unfold lift. now rewrite join_texts_strs.
Qed.

Lemma every_round_is_one_tool_call_witness :
  exists w',
    generate_cdk_code two_rounds 3 (lit "a VPC") generator_ready
    = Some (Ok generated_text, w') /\
    bedrock_calls w' = 3 /\
    tool_calls w' = 2.
Proof.
  assert (Ha : answers two_rounds (reply [text_block opening_words; tool_use_block])
                 1 0 [[opening_words]; []] [fenced_answer]).
  { cbn [answers].
    exists (VList [text_block opening_words; tool_use_block]),
      [text_block opening_words], tool_use_block, [],
      (VStr (lit "CDKGeneralGuidance")), (VDict []), (VStr (lit "toolu_01")),
      [{| item_type := lit "text"; item_text := Some (lit "Use aws-cdk-lib v2.") |}],
      [VDict [(lit "type", VStr (lit "text"));
              (lit "text", VStr (lit "Use aws-cdk-lib v2."))]],
      (reply [tool_use_block]).
    repeat (split; [reflexivity|]).
    exists (VList [tool_use_block]), [], tool_use_block, [],
      (VStr (lit "CDKGeneralGuidance")), (VDict []), (VStr (lit "toolu_01")),
      [{| item_type := lit "text"; item_text := Some (lit "Use aws-cdk-lib v2.") |}],
      [VDict [(lit "type", VStr (lit "text"));
              (lit "text", VStr (lit "Use aws-cdk-lib v2."))]],
      (reply [text_block fenced_answer]).
    repeat (split; [reflexivity|]).
    exists (VList [text_block fenced_answer]), [text_block fenced_answer].
    repeat split. }
  destruct (every_round_is_one_tool_call
              two_rounds 3 (lit "a VPC") generator_ready (VList [])
              (reply [text_block opening_words; tool_use_block])
              [[opening_words]; []] [fenced_answer]
              eq_refl eq_refl eq_refl Ha (le_n 3)) as (w' & Hrun & Hb & Ht).
  exists w'. split; [exact Hrun|]. split; [exact Hb | exact Ht].
Defined.

(** X28.  Nothing bounds the number of rounds: with a backend that asks
    for a tool at every invocation and tools that always answer,
    [generate_cdk_code] is still running after any number of passes. *)
Theorem insistent_backend_keeps_the_loop_running
  (E : Env) (description : str) (w : World) (tools : value) :
  holder CdkGen w = Some {| session := true |} ->
  cdk_list_tools E = Ok tools ->
  always_asks E ->
  forall steps, generate_cdk_code E steps description w = None.
Proof.
  intros Hh Hl Hall steps. unfold generate_cdk_code.
  match goal with
  | |- context [invoke_model E ?m] =>
      destruct (first_invocation E tools m w Hh Hl) as (w1 & Hfirst & Hh1 & _ & _);
      set (messages := m) in *
  end.
  destruct (Hall (bedrock_calls w)) as (response & name & input & Hb & Hask & Htools).
  rewrite Hb in Hfirst. rewrite <- Hh1 in Hh.
  pose proof (loop_of_an_insistent_backend E steps Hall response name input []
                messages w1 Hh Hask Htools) as Hloop.
  unfold try_except.
  rewrite (mbind_then _ _ _ _ _ _ Hfirst). unfold mbind at 1. now rewrite Hloop.
Qed.

Lemma insistent_backend_keeps_the_loop_running_witness :
  always_asks insistent /\
  generate_cdk_code insistent 1000 (lit "a VPC") generator_ready = None.
Proof.
  assert (Hall : always_asks insistent).
  { intros b. exists (reply [tool_use_block]), (VStr (lit "CDKGeneralGuidance")), (VDict []).
    split; [reflexivity|]. split.
    - exists (VList [tool_use_block]), [], tool_use_block, [], [], (VStr (lit "toolu_01")).
      repeat split.
    - intros t. do 2 eexists. split; reflexivity. }
  split; [exact Hall|].
  exact (insistent_backend_keeps_the_loop_running
           insistent (lit "a VPC") generator_ready (VList []) eq_refl eq_refl Hall 1000).
Defined.

(** *** The methods about vswitches *)

Section VSwitchFacts.

Variable E : Env.

Lemma ends_parse_vswitches reply raw region :
  ends (okif anything) (_parse_vswitches_with_llm E reply raw region).
Proof. unfold _parse_vswitches_with_llm. ends_all. Qed.

Lemma yields_parse_vswitches reply raw region :
  yields (isok anything) (_parse_vswitches_with_llm E reply raw region).
Proof.
  unfold _parse_vswitches_with_llm. apply yields_try.
  - yields_all; exact I.
  - intros e. yields_all. exact I.
Qed.

End VSwitchFacts.

(** X29.  [get_vswitches] raises nothing: in every state of the client
    it returns a value.  With a session and an answer of the provider, it
    returns what the last text of the answer gives, as [list_vpcs] does,
    and, when [json.loads] raises anything else than a
    [JSONDecodeError] on one of the texts, the text of the first such
    exception under [error].  When the call raises, or when the client
    has no session (the provider is then not called), it returns the text
    of the exception under [error]; every exception is logged. *)
Theorem get_vswitches_returns_failures_as_data
  (E : Env) (vpc_id region : str) (w : World) :
  exists data w',
    get_vswitches E vpc_id region w = Some (Ok data, w') /\
    (provider_ready w ->
     forall items,
       aliyun_call_tool E vswitches_tool (vswitches_args vpc_id region) = Ok items ->
       data = last_decoded (builtins E) items /\
       (loads_or_not_json (builtins E) (texts_of_items items) ->
        data = last (map (decoded (builtins E)) (texts_of_items items)) (VDict []) /\
        events w' = events w
                    ++ [EvProviderCall vswitches_tool (vswitches_args vpc_id region)]) /\
       (forall pre text post e,
          texts_of_items items = pre ++ text :: post ->
          loads_or_not_json (builtins E) pre ->
          json_loads (builtins E) text = LoadsError e ->
          data = VDict [(lit "error", VStr (exn_text e))] /\
          events w' = events w
                      ++ [EvProviderCall vswitches_tool (vswitches_args vpc_id region);
                          EvLogError (lit "Error getting VSwitches: " ++ exn_text e)])) /\
    (provider_ready w ->
     forall e,
       aliyun_call_tool E vswitches_tool (vswitches_args vpc_id region) = Raise e ->
       data = VDict [(lit "error", VStr (exn_text e))] /\
       events w' = events w
                   ++ [EvProviderCall vswitches_tool (vswitches_args vpc_id region);
                       EvLogError (lit "Error getting VSwitches: " ++ exn_text e)]) /\
    (aliyun_client w = Some {| session := false |} ->
     data = VDict [(lit "error",
                    VStr (lit "'NoneType' object has no attribute 'call_tool'"))] /\
     events w' = events w
                 ++ [EvLogError (lit "Error getting VSwitches: "
                                   ++ lit "'NoneType' object has no attribute 'call_tool'")]).
Proof.
  destruct (provider_query_returns E vswitches_tool (vswitches_args vpc_id region)
                                   (lit "Error getting VSwitches: ") w)
    as (data & w' & Hrun).
  exists data, w'. split; [exact Hrun|].
  exact (provider_query_outcome E vswitches_tool (vswitches_args vpc_id region)
                                (lit "Error getting VSwitches: ") w data w' Hrun).
Qed.

Lemma get_vswitches_returns_failures_as_data_witness :
  exists w',
    get_vswitches provider_down (lit "vpc-1") (lit "cn-hangzhou") provider_connected
    = Some (Ok (VDict [(lit "error", VStr (lit "connection refused"))]), w').
Proof.
  destruct (get_vswitches_returns_failures_as_data
              provider_down (lit "vpc-1") (lit "cn-hangzhou") provider_connected)
    as (data & w' & Hrun & _ & Hraise & _).
  destruct (Hraise eq_refl (Exn ExternalError (lit "connection refused")) eq_refl)
    as (Hdata & _).
  exists w'. rewrite Hdata in Hrun. exact Hrun.
Defined.

(** X30.  [_parse_vswitches_with_llm] always ends with a value and raises
    nothing, and what it falls back to is the empty list: when the
    backend raises (the failure is logged), and when the text of the
    model is no JSON and holds no opening bracket (nothing is logged). *)
Theorem vswitch_parser_falls_back_to_the_empty_list
  (E : Env) (reply : result value) (raw_data region : str) (w : World) :
  exists parsed w',
    _parse_vswitches_with_llm E reply raw_data region w = Some (Ok parsed, w') /\
    (forall e, reply = Raise e ->
       parsed = VList [] /\
       events w' = events w
                   ++ [EvParseLLM;
                       EvLogError (lit "Error parsing VSwitches with LLM: "
                                     ++ exn_text e)]) /\
    (forall response text msg,
       reply = Ok response ->
       first_text response = Ok (VStr text) ->
       json_loads (builtins E) text = NotJson msg ->
       ~ In 91%N text ->
       parsed = VList [] /\ events w' = events w ++ [EvParseLLM]).
Proof.
  destruct (ends_parse_vswitches E reply raw_data region w) as (r & w' & Hrun & _).
  pose proof (yields_parse_vswitches E reply raw_data region w r w' Hrun) as Hok.
  destruct r as [parsed|e]; [|contradiction].
  exists parsed, w'. split; [exact Hrun|]. split.
  - intros e ->. revert Hrun. unfold _parse_vswitches_with_llm. run_m. cbn.
    intros H. injection H as <- <-. split; [reflexivity|]. cbn.
    now rewrite <- (@app_assoc event).
  - intros response text msg -> Htext Hjson Hn. revert Hrun.
    unfold _parse_vswitches_with_llm. unfold first_text in Htext.
    run_m. cbn. rewrite Htext. cbn. rewrite Hjson.
    change bracket_pattern with (span_pattern 91 93).
    rewrite (search_span_none 91 93 text Hn).
    intros H. injection H as <- <-. split; reflexivity.
Qed.

Lemma vswitch_parser_falls_back_to_the_empty_list_witness :
  exists w',
    _parse_vswitches_with_llm calm (Ok (reply [text_block (lit "No vswitch here.")]))
                              (lit "none") (lit "cn-hangzhou") provider_connected
    = Some (Ok (VList []), w') /\
    events w' = events provider_connected ++ [EvParseLLM].
Proof.
  destruct (vswitch_parser_falls_back_to_the_empty_list
              calm (Ok (reply [text_block (lit "No vswitch here.")]))
              (lit "none") (lit "cn-hangzhou") provider_connected)
    as (parsed & w' & Hrun & _ & Hnone).
  destruct (Hnone (reply [text_block (lit "No vswitch here.")]) (lit "No vswitch here.")
                  (lit "Expecting value: line 1 column 1 (char 0)")
                  eq_refl eq_refl eq_refl) as (Hp & Hev).
  - vm_compute. intros H. repeat destruct H as [H|H]; try discriminate. exact H.
  - subst parsed. exists w'. split; [exact Hrun | exact Hev].
Defined.
